(** * Canvas editor and batch worker: a shallow embedding

    This development embeds in Rocq the interactive canvas of the annotation
    tool ([src/ui/canvas_widget.py], [src/core/bbox_model.py]) and the batch
    auto-labelling worker ([src/modes/auto_label_mode.py]), and states the
    properties of the specification about them.

    Conventions.
    - Python floats are modelled by exact rationals ([Qc], canonical
      fractions, so that equality is Leibniz equality).  The literals [0.1],
      [10.0], [1.0] of the source are [Q2Qc 0.1], [Q2Qc 10.0], [Q2Qc 1.0].
    - Float division raises [ZeroDivisionError] on a zero divisor; a function
      that divides returns an [option], [None] standing for the raise.
    - [BoundingBox] objects are mutable and shared between the list [_boxes]
      and the attribute [_selected_box]; they live in an object store
      ([heap]) and both attributes hold references into it.
    - The signal [boxes_changed] is observed through a counter of its
      emissions; [update()] only schedules a repaint and is not modelled. *)

From Stdlib Require Import QArith Qcanon Qcabs Field Lqa.
From stdpp Require Import base option list numbers strings relations gmap.

Local Open Scope Qc_scope.

(** ** Qt value types used by the canvas *)

Module Qt.

(** [QPointF]: a point with floating point coordinates. *)
Record QPointF := { pt_x : Qc; pt_y : Qc }.

(** [QPoint]: a point with integer coordinates ([event.pos()]). *)
Record QPoint := { ipt_x : Z; ipt_y : Z }.

Definition QPointF_add (p q : QPointF) : QPointF :=
  {| pt_x := pt_x p + pt_x q; pt_y := pt_y p + pt_y q |}.

Definition QPointF_sub (p q : QPointF) : QPointF :=
  {| pt_x := pt_x p - pt_x q; pt_y := pt_y p - pt_y q |}.

Definition QPointF_mul (p : QPointF) (k : Qc) : QPointF :=
  {| pt_x := pt_x p * k; pt_y := pt_y p * k |}.

Definition QPoint_sub (p q : QPoint) : QPoint :=
  {| ipt_x := ipt_x p - ipt_x q; ipt_y := ipt_y p - ipt_y q |}%Z.

(** [QPointF(p)] for an integer point [p]. *)
Definition QPointF_of_QPoint (p : QPoint) : QPointF :=
  {| pt_x := Qc_of_Z (ipt_x p); pt_y := Qc_of_Z (ipt_y p) |}.

(** [QRectF] stores its top-left corner and a signed width and height. *)
Record QRectF := { rect_x : Qc; rect_y : Qc; rect_w : Qc; rect_h : Qc }.

(** [QRectF(topLeft, bottomRight)]. *)
Definition QRectF_of_corners (top_left bottom_right : QPointF) : QRectF :=
  {| rect_x := pt_x top_left; rect_y := pt_y top_left;
     rect_w := pt_x bottom_right - pt_x top_left;
     rect_h := pt_y bottom_right - pt_y top_left |}.

Definition rect_left (r : QRectF) : Qc := rect_x r.
Definition rect_top (r : QRectF) : Qc := rect_y r.
Definition rect_right (r : QRectF) : Qc := rect_x r + rect_w r.
Definition rect_bottom (r : QRectF) : Qc := rect_y r + rect_h r.

(** [setBottomRight(p)] keeps the top-left corner and moves the opposite
    one, so width and height may become negative. *)
Definition setBottomRight (r : QRectF) (p : QPointF) : QRectF :=
  {| rect_x := rect_x r; rect_y := rect_y r;
     rect_w := pt_x p - rect_x r; rect_h := pt_y p - rect_y r |}.

(** [normalized()]: a negative width (height) swaps the left and right
    (top and bottom) edges. *)
Definition normalized (r : QRectF) : QRectF :=
  let '(x, w) :=
    if bool_decide (rect_w r < 0) then (rect_x r + rect_w r, - rect_w r)
    else (rect_x r, rect_w r) in
  let '(y, h) :=
    if bool_decide (rect_h r < 0) then (rect_y r + rect_h r, - rect_h r)
    else (rect_y r, rect_h r) in
  {| rect_x := x; rect_y := y; rect_w := w; rect_h := h |}.

(** [contains(p)]: the point lies inside or on the edge of the rectangle;
    the edges are ordered first, and a rectangle of zero width or zero
    height contains no point. *)
Definition contains (r : QRectF) (p : QPointF) : bool :=
  let '(l, r') :=
    if bool_decide (rect_w r < 0) then (rect_x r + rect_w r, rect_x r)
    else (rect_x r, rect_x r + rect_w r) in
  let '(t, b) :=
    if bool_decide (rect_h r < 0) then (rect_y r + rect_h r, rect_y r)
    else (rect_y r, rect_y r + rect_h r) in
  if bool_decide (l = r') then false
  else if bool_decide (pt_x p < l) || bool_decide (r' < pt_x p) then false
  else if bool_decide (t = b) then false
  else if bool_decide (pt_y p < t) || bool_decide (b < pt_y p) then false
  else true.

Inductive MouseButton := LeftButton | MiddleButton | RightButton.

Inductive CursorShape := ArrowCursor | SizeAllCursor.

Inductive Key := Key_Delete | Key_Other.

(** [QMouseEvent]: [position()] is the float position, [pos()] the
    integer one. *)
Record QMouseEvent := {
  ev_button : MouseButton;
  ev_position : QPointF;
  ev_pos : QPoint
}.

(** [QWheelEvent]: [angleDelta().y()] and [position()]. *)
Record QWheelEvent := {
  ev_angleDelta_y : Z;
  ev_wheel_position : QPointF
}.

#[global] Instance MouseButton_eq_dec : EqDecision MouseButton.
Proof. solve_decision. Defined.
#[global] Instance Key_eq_dec : EqDecision Key.
Proof. solve_decision. Defined.
#[global] Instance QPointF_eq_dec : EqDecision QPointF.
Proof. solve_decision. Defined.
#[global] Instance QRectF_eq_dec : EqDecision QRectF.
Proof. solve_decision. Defined.

End Qt.

Import Qt.

(** ** [core/bbox_model.py] *)

(** The dataclass [BoundingBox]. *)
Record BoundingBox := {
  class_id : Z;
  x1 : Qc;
  y1 : Qc;
  x2 : Qc;
  y2 : Qc;
  confidence : option Qc
}.

Definition width (self : BoundingBox) : Qc := x2 self - x1 self.

Definition height (self : BoundingBox) : Qc := y2 self - y1 self.

Definition to_tuple (self : BoundingBox) : Qc * Qc * Qc * Qc :=
  (x1 self, y1 self, x2 self, y2 self).

(** The generated [__eq__] of the dataclass compares all fields. *)
#[global] Instance BoundingBox_eq_dec : EqDecision BoundingBox.
Proof. solve_decision. Defined.

(** ** [ui/canvas_widget.py] *)

Inductive CanvasMode := NAVIGATE | MARK | SELECT.

#[global] Instance CanvasMode_eq_dec : EqDecision CanvasMode.
Proof. solve_decision. Defined.

(** The resize handles, the strings ['tl'], ['tr'], ['bl'], ['br'], ['l'],
    ['r'], ['t'], ['b'] of the source. *)
Inductive Handle := H_tl | H_tr | H_bl | H_br | H_l | H_r | H_t | H_b.

(** A reference to a [BoundingBox] object. *)
Definition Ref := nat.

(** The state of a [CanvasWidget].  [heap] holds the [BoundingBox] objects,
    [next_ref] is the next unused reference, [cursor] the cursor shape of the
    widget and [boxes_changed] the number of emissions of the signal. *)
Record CanvasWidget := {
  heap : Ref -> BoundingBox;
  next_ref : Ref;
  _pixmap : option string;
  _scale : Qc;
  _offset : QPointF;
  _boxes : list Ref;
  _selected_box : option Ref;
  _mode : CanvasMode;
  new_box_class : Z;
  _dragging : bool;
  _drag_start : QPointF;
  _current_rect : option QRectF;
  _panning : bool;
  _pan_start : QPoint;
  _resizing : bool;
  _resize_handle : option Handle;
  _handle_size : Z;
  cursor : CursorShape;
  boxes_changed : nat
}.

Definition with_heap (v : Ref -> BoundingBox) (c : CanvasWidget) : CanvasWidget :=
  {| heap := v; next_ref := next_ref c; _pixmap := _pixmap c;
     _scale := _scale c; _offset := _offset c; _boxes := _boxes c;
     _selected_box := _selected_box c; _mode := _mode c;
     new_box_class := new_box_class c; _dragging := _dragging c;
     _drag_start := _drag_start c; _current_rect := _current_rect c;
     _panning := _panning c; _pan_start := _pan_start c;
     _resizing := _resizing c; _resize_handle := _resize_handle c;
     _handle_size := _handle_size c; cursor := cursor c;
     boxes_changed := boxes_changed c |}.

Definition with_next_ref (v : Ref) (c : CanvasWidget) : CanvasWidget :=
  {| heap := heap c; next_ref := v; _pixmap := _pixmap c; _scale := _scale c;
     _offset := _offset c; _boxes := _boxes c;
     _selected_box := _selected_box c; _mode := _mode c;
     new_box_class := new_box_class c; _dragging := _dragging c;
     _drag_start := _drag_start c; _current_rect := _current_rect c;
     _panning := _panning c; _pan_start := _pan_start c;
     _resizing := _resizing c; _resize_handle := _resize_handle c;
     _handle_size := _handle_size c; cursor := cursor c;
     boxes_changed := boxes_changed c |}.

Definition with_pixmap (v : option string) (c : CanvasWidget) : CanvasWidget :=
  {| heap := heap c; next_ref := next_ref c; _pixmap := v;
     _scale := _scale c; _offset := _offset c; _boxes := _boxes c;
     _selected_box := _selected_box c; _mode := _mode c;
     new_box_class := new_box_class c; _dragging := _dragging c;
     _drag_start := _drag_start c; _current_rect := _current_rect c;
     _panning := _panning c; _pan_start := _pan_start c;
     _resizing := _resizing c; _resize_handle := _resize_handle c;
     _handle_size := _handle_size c; cursor := cursor c;
     boxes_changed := boxes_changed c |}.

Definition with_scale (v : Qc) (c : CanvasWidget) : CanvasWidget :=
  {| heap := heap c; next_ref := next_ref c; _pixmap := _pixmap c;
     _scale := v; _offset := _offset c; _boxes := _boxes c;
     _selected_box := _selected_box c; _mode := _mode c;
     new_box_class := new_box_class c; _dragging := _dragging c;
     _drag_start := _drag_start c; _current_rect := _current_rect c;
     _panning := _panning c; _pan_start := _pan_start c;
     _resizing := _resizing c; _resize_handle := _resize_handle c;
     _handle_size := _handle_size c; cursor := cursor c;
     boxes_changed := boxes_changed c |}.

Definition with_offset (v : QPointF) (c : CanvasWidget) : CanvasWidget :=
  {| heap := heap c; next_ref := next_ref c; _pixmap := _pixmap c;
     _scale := _scale c; _offset := v; _boxes := _boxes c;
     _selected_box := _selected_box c; _mode := _mode c;
     new_box_class := new_box_class c; _dragging := _dragging c;
     _drag_start := _drag_start c; _current_rect := _current_rect c;
     _panning := _panning c; _pan_start := _pan_start c;
     _resizing := _resizing c; _resize_handle := _resize_handle c;
     _handle_size := _handle_size c; cursor := cursor c;
     boxes_changed := boxes_changed c |}.

Definition with_boxes (v : list Ref) (c : CanvasWidget) : CanvasWidget :=
  {| heap := heap c; next_ref := next_ref c; _pixmap := _pixmap c;
     _scale := _scale c; _offset := _offset c; _boxes := v;
     _selected_box := _selected_box c; _mode := _mode c;
     new_box_class := new_box_class c; _dragging := _dragging c;
     _drag_start := _drag_start c; _current_rect := _current_rect c;
     _panning := _panning c; _pan_start := _pan_start c;
     _resizing := _resizing c; _resize_handle := _resize_handle c;
     _handle_size := _handle_size c; cursor := cursor c;
     boxes_changed := boxes_changed c |}.

Definition with_selected_box (v : option Ref) (c : CanvasWidget) : CanvasWidget :=
  {| heap := heap c; next_ref := next_ref c; _pixmap := _pixmap c;
     _scale := _scale c; _offset := _offset c; _boxes := _boxes c;
     _selected_box := v; _mode := _mode c; new_box_class := new_box_class c;
     _dragging := _dragging c; _drag_start := _drag_start c;
     _current_rect := _current_rect c; _panning := _panning c;
     _pan_start := _pan_start c; _resizing := _resizing c;
     _resize_handle := _resize_handle c; _handle_size := _handle_size c;
     cursor := cursor c; boxes_changed := boxes_changed c |}.

Definition with_mode (v : CanvasMode) (c : CanvasWidget) : CanvasWidget :=
  {| heap := heap c; next_ref := next_ref c; _pixmap := _pixmap c;
     _scale := _scale c; _offset := _offset c; _boxes := _boxes c;
     _selected_box := _selected_box c; _mode := v;
     new_box_class := new_box_class c; _dragging := _dragging c;
     _drag_start := _drag_start c; _current_rect := _current_rect c;
     _panning := _panning c; _pan_start := _pan_start c;
     _resizing := _resizing c; _resize_handle := _resize_handle c;
     _handle_size := _handle_size c; cursor := cursor c;
     boxes_changed := boxes_changed c |}.

Definition with_new_box_class (v : Z) (c : CanvasWidget) : CanvasWidget :=
  {| heap := heap c; next_ref := next_ref c; _pixmap := _pixmap c;
     _scale := _scale c; _offset := _offset c; _boxes := _boxes c;
     _selected_box := _selected_box c; _mode := _mode c; new_box_class := v;
     _dragging := _dragging c; _drag_start := _drag_start c;
     _current_rect := _current_rect c; _panning := _panning c;
     _pan_start := _pan_start c; _resizing := _resizing c;
     _resize_handle := _resize_handle c; _handle_size := _handle_size c;
     cursor := cursor c; boxes_changed := boxes_changed c |}.

Definition with_dragging (v : bool) (c : CanvasWidget) : CanvasWidget :=
  {| heap := heap c; next_ref := next_ref c; _pixmap := _pixmap c;
     _scale := _scale c; _offset := _offset c; _boxes := _boxes c;
     _selected_box := _selected_box c; _mode := _mode c;
     new_box_class := new_box_class c; _dragging := v;
     _drag_start := _drag_start c; _current_rect := _current_rect c;
     _panning := _panning c; _pan_start := _pan_start c;
     _resizing := _resizing c; _resize_handle := _resize_handle c;
     _handle_size := _handle_size c; cursor := cursor c;
     boxes_changed := boxes_changed c |}.

Definition with_drag_start (v : QPointF) (c : CanvasWidget) : CanvasWidget :=
  {| heap := heap c; next_ref := next_ref c; _pixmap := _pixmap c;
     _scale := _scale c; _offset := _offset c; _boxes := _boxes c;
     _selected_box := _selected_box c; _mode := _mode c;
     new_box_class := new_box_class c; _dragging := _dragging c;
     _drag_start := v; _current_rect := _current_rect c;
     _panning := _panning c; _pan_start := _pan_start c;
     _resizing := _resizing c; _resize_handle := _resize_handle c;
     _handle_size := _handle_size c; cursor := cursor c;
     boxes_changed := boxes_changed c |}.

Definition with_current_rect (v : option QRectF) (c : CanvasWidget) : CanvasWidget :=
  {| heap := heap c; next_ref := next_ref c; _pixmap := _pixmap c;
     _scale := _scale c; _offset := _offset c; _boxes := _boxes c;
     _selected_box := _selected_box c; _mode := _mode c;
     new_box_class := new_box_class c; _dragging := _dragging c;
     _drag_start := _drag_start c; _current_rect := v;
     _panning := _panning c; _pan_start := _pan_start c;
     _resizing := _resizing c; _resize_handle := _resize_handle c;
     _handle_size := _handle_size c; cursor := cursor c;
     boxes_changed := boxes_changed c |}.

Definition with_panning (v : bool) (c : CanvasWidget) : CanvasWidget :=
  {| heap := heap c; next_ref := next_ref c; _pixmap := _pixmap c;
     _scale := _scale c; _offset := _offset c; _boxes := _boxes c;
     _selected_box := _selected_box c; _mode := _mode c;
     new_box_class := new_box_class c; _dragging := _dragging c;
     _drag_start := _drag_start c; _current_rect := _current_rect c;
     _panning := v; _pan_start := _pan_start c; _resizing := _resizing c;
     _resize_handle := _resize_handle c; _handle_size := _handle_size c;
     cursor := cursor c; boxes_changed := boxes_changed c |}.

Definition with_pan_start (v : QPoint) (c : CanvasWidget) : CanvasWidget :=
  {| heap := heap c; next_ref := next_ref c; _pixmap := _pixmap c;
     _scale := _scale c; _offset := _offset c; _boxes := _boxes c;
     _selected_box := _selected_box c; _mode := _mode c;
     new_box_class := new_box_class c; _dragging := _dragging c;
     _drag_start := _drag_start c; _current_rect := _current_rect c;
     _panning := _panning c; _pan_start := v; _resizing := _resizing c;
     _resize_handle := _resize_handle c; _handle_size := _handle_size c;
     cursor := cursor c; boxes_changed := boxes_changed c |}.

Definition with_resizing (v : bool) (c : CanvasWidget) : CanvasWidget :=
  {| heap := heap c; next_ref := next_ref c; _pixmap := _pixmap c;
     _scale := _scale c; _offset := _offset c; _boxes := _boxes c;
     _selected_box := _selected_box c; _mode := _mode c;
     new_box_class := new_box_class c; _dragging := _dragging c;
     _drag_start := _drag_start c; _current_rect := _current_rect c;
     _panning := _panning c; _pan_start := _pan_start c; _resizing := v;
     _resize_handle := _resize_handle c; _handle_size := _handle_size c;
     cursor := cursor c; boxes_changed := boxes_changed c |}.

Definition with_resize_handle (v : option Handle) (c : CanvasWidget) : CanvasWidget :=
  {| heap := heap c; next_ref := next_ref c; _pixmap := _pixmap c;
     _scale := _scale c; _offset := _offset c; _boxes := _boxes c;
     _selected_box := _selected_box c; _mode := _mode c;
     new_box_class := new_box_class c; _dragging := _dragging c;
     _drag_start := _drag_start c; _current_rect := _current_rect c;
     _panning := _panning c; _pan_start := _pan_start c;
     _resizing := _resizing c; _resize_handle := v;
     _handle_size := _handle_size c; cursor := cursor c;
     boxes_changed := boxes_changed c |}.

Definition with_cursor (v : CursorShape) (c : CanvasWidget) : CanvasWidget :=
  {| heap := heap c; next_ref := next_ref c; _pixmap := _pixmap c;
     _scale := _scale c; _offset := _offset c; _boxes := _boxes c;
     _selected_box := _selected_box c; _mode := _mode c;
     new_box_class := new_box_class c; _dragging := _dragging c;
     _drag_start := _drag_start c; _current_rect := _current_rect c;
     _panning := _panning c; _pan_start := _pan_start c;
     _resizing := _resizing c; _resize_handle := _resize_handle c;
     _handle_size := _handle_size c; cursor := v;
     boxes_changed := boxes_changed c |}.

Definition with_boxes_changed (v : nat) (c : CanvasWidget) : CanvasWidget :=
  {| heap := heap c; next_ref := next_ref c; _pixmap := _pixmap c;
     _scale := _scale c; _offset := _offset c; _boxes := _boxes c;
     _selected_box := _selected_box c; _mode := _mode c;
     new_box_class := new_box_class c; _dragging := _dragging c;
     _drag_start := _drag_start c; _current_rect := _current_rect c;
     _panning := _panning c; _pan_start := _pan_start c;
     _resizing := _resizing c; _resize_handle := _resize_handle c;
     _handle_size := _handle_size c; cursor := cursor c;
     boxes_changed := v |}.

(** Field updates of the dataclass. *)
Definition set_class_id (v : Z) (b : BoundingBox) : BoundingBox :=
  {| class_id := v; x1 := x1 b; y1 := y1 b; x2 := x2 b; y2 := y2 b;
     confidence := confidence b |}.

Definition set_x1 (v : Qc) (b : BoundingBox) : BoundingBox :=
  {| class_id := class_id b; x1 := v; y1 := y1 b; x2 := x2 b; y2 := y2 b;
     confidence := confidence b |}.

Definition set_y1 (v : Qc) (b : BoundingBox) : BoundingBox :=
  {| class_id := class_id b; x1 := x1 b; y1 := v; x2 := x2 b; y2 := y2 b;
     confidence := confidence b |}.

Definition set_x2 (v : Qc) (b : BoundingBox) : BoundingBox :=
  {| class_id := class_id b; x1 := x1 b; y1 := y1 b; x2 := v; y2 := y2 b;
     confidence := confidence b |}.

Definition set_y2 (v : Qc) (b : BoundingBox) : BoundingBox :=
  {| class_id := class_id b; x1 := x1 b; y1 := y1 b; x2 := x2 b; y2 := v;
     confidence := confidence b |}.

(** Assignment to the object behind a reference. *)
Definition heap_update (r : Ref) (b : BoundingBox) (hp : Ref -> BoundingBox)
  : Ref -> BoundingBox :=
  fun r' => if bool_decide (r' = r) then b else hp r'.

(** [BoundingBox(...)]: a new object, at a reference not used before. *)
Definition new_BoundingBox (b : BoundingBox) (c : CanvasWidget)
  : Ref * CanvasWidget :=
  (next_ref c,
   with_next_ref (S (next_ref c))
     (with_heap (heap_update (next_ref c) b (heap c)) c)).

(** [self.boxes_changed.emit()] *)
Definition emit_boxes_changed (c : CanvasWidget) : CanvasWidget :=
  with_boxes_changed (S (boxes_changed c)) c.

(** Python's [min(a, b)] and [max(a, b)]: the first argument is kept unless
    the second is strictly smaller (larger). *)
Definition py_min (a b : Qc) : Qc := if bool_decide (b < a) then b else a.

Definition py_max (a b : Qc) : Qc := if bool_decide (a < b) then b else a.

(** [e is x or e == x], the test of [list.__contains__] and [list.remove]. *)
Definition py_same (hp : Ref -> BoundingBox) (e x : Ref) : bool :=
  bool_decide (e = x) || bool_decide (hp e = hp x).

(** [x in l] *)
Definition py_in (hp : Ref -> BoundingBox) (x : Ref) (l : list Ref) : bool :=
  existsb (fun e => py_same hp e x) l.

(** [l.remove(x)]: drops the first element equal to [x] (only called when
    [x in l]). *)
Fixpoint py_remove (hp : Ref -> BoundingBox) (x : Ref) (l : list Ref)
  : list Ref :=
  match l with
  | [] => []
  | e :: l' => if py_same hp e x then l' else e :: py_remove hp x l'
  end.

(** [__init__]: the object store is empty, no reference is in use. *)
Definition no_box : BoundingBox :=
  {| class_id := 0; x1 := 0; y1 := 0; x2 := 0; y2 := 0; confidence := None |}.

Definition CanvasWidget_init : CanvasWidget :=
  {| heap := fun _ => no_box; next_ref := 0%nat; _pixmap := None;
     _scale := Q2Qc 1.0; _offset := {| pt_x := 0; pt_y := 0 |};
     _boxes := []; _selected_box := None; _mode := NAVIGATE;
     new_box_class := 0; _dragging := false;
     _drag_start := {| pt_x := 0; pt_y := 0 |}; _current_rect := None;
     _panning := false; _pan_start := {| ipt_x := 0; ipt_y := 0 |};
     _resizing := false; _resize_handle := None; _handle_size := 8;
     cursor := ArrowCursor; boxes_changed := 0%nat |}.

(** [set_mode] *)
Definition set_mode (self : CanvasWidget) (mode : CanvasMode) : CanvasWidget :=
  let self := with_mode mode self in
  with_cursor ArrowCursor self.

(** [load_image]: the pixmap is represented by the path it is read from. *)
Definition load_image (self : CanvasWidget) (path : string) : CanvasWidget :=
  let self := with_pixmap (Some path) self in
  let self := with_scale (Q2Qc 1.0) self in
  with_offset {| pt_x := 0; pt_y := 0 |} self.

(** [_to_image_coords] *)
Definition _to_image_coords (self : CanvasWidget) (point : QPointF)
  : option QPointF :=
  if bool_decide (_scale self = 0) then None
  else
    let x := (pt_x point - pt_x (_offset self)) / _scale self in
    let y := (pt_y point - pt_y (_offset self)) / _scale self in
    Some {| pt_x := x; pt_y := y |}.

(** [_get_handle_at]: [Some None] is the result [None] of the source. *)
Definition _get_handle_at (self : CanvasWidget) (pos : QPointF)
    (box : BoundingBox) : option (option Handle) :=
  if bool_decide (_scale self = 0) then None
  else
    let threshold := Qc_of_Z (_handle_size self) / _scale self in
    let x := pt_x pos in
    let y := pt_y pos in
    Some
      (if bool_decide ([x - x1 box] < threshold)
          && bool_decide ([y - y1 box] < threshold) then Some H_tl
       else if bool_decide ([x - x2 box] < threshold)
          && bool_decide ([y - y1 box] < threshold) then Some H_tr
       else if bool_decide ([x - x1 box] < threshold)
          && bool_decide ([y - y2 box] < threshold) then Some H_bl
       else if bool_decide ([x - x2 box] < threshold)
          && bool_decide ([y - y2 box] < threshold) then Some H_br
       else if bool_decide ([x - x1 box] < threshold)
          && (bool_decide (y1 box <= y) && bool_decide (y <= y2 box))
       then Some H_l
       else if bool_decide ([x - x2 box] < threshold)
          && (bool_decide (y1 box <= y) && bool_decide (y <= y2 box))
       then Some H_r
       else if bool_decide ([y - y1 box] < threshold)
          && (bool_decide (x1 box <= x) && bool_decide (x <= x2 box))
       then Some H_t
       else if bool_decide ([y - y2 box] < threshold)
          && (bool_decide (x1 box <= x) && bool_decide (x <= x2 box))
       then Some H_b
       else None).

(** [_resize_box]: the object behind [box] is updated in place. *)
Definition _resize_box (self : CanvasWidget) (box : Ref) (handle : Handle)
    (new_pos : QPointF) : CanvasWidget :=
  let b := heap self box in
  let b' :=
    match handle with
    | H_tl => set_y1 (pt_y new_pos) (set_x1 (pt_x new_pos) b)
    | H_tr => set_y1 (pt_y new_pos) (set_x2 (pt_x new_pos) b)
    | H_bl => set_y2 (pt_y new_pos) (set_x1 (pt_x new_pos) b)
    | H_br => set_y2 (pt_y new_pos) (set_x2 (pt_x new_pos) b)
    | H_l => set_x1 (pt_x new_pos) b
    | H_r => set_x2 (pt_x new_pos) b
    | H_t => set_y1 (pt_y new_pos) b
    | H_b => set_y2 (pt_y new_pos) b
    end in
  with_heap (heap_update box b' (heap self)) self.

(** The rectangle [QRectF(box.x1, box.y1, box.width(), box.height())]. *)
Definition rect_of_box (box : BoundingBox) : QRectF :=
  {| rect_x := x1 box; rect_y := y1 box;
     rect_w := width box; rect_h := height box |}.

(** The loop of [mousePressEvent] over [self._boxes]: the first box whose
    rectangle contains [pos], where the loop breaks. *)
Fixpoint find_box_at (hp : Ref -> BoundingBox) (pos : QPointF)
    (boxes : list Ref) : option Ref :=
  match boxes with
  | [] => None
  | box :: rest =>
      if contains (rect_of_box (hp box)) pos then Some box
      else find_box_at hp pos rest
  end.

(** The part of [mousePressEvent] after the handle check ("otherwise try to
    select a box"). *)
Definition select_box_at (self : CanvasWidget) (pos : QPointF)
  : CanvasWidget :=
  let self := with_selected_box None self in
  let self :=
    match find_box_at (heap self) pos (_boxes self) with
    | Some box =>
        let self := with_selected_box (Some box) self in
        let self := with_dragging true self in
        with_drag_start pos self
    | None => self
    end in
  emit_boxes_changed self.

(** [mousePressEvent] *)
Definition mousePressEvent (self : CanvasWidget) (event : QMouseEvent)
  : option CanvasWidget :=
  match _mode self with
  | NAVIGATE =>
      if bool_decide (ev_button event = MiddleButton)
         || bool_decide (ev_button event = LeftButton) then
        let self := with_panning true self in
        Some (with_pan_start (ev_pos event) self)
      else Some self
  | MARK =>
      if bool_decide (ev_button event = LeftButton) then
        pos ← _to_image_coords self (ev_position event);
        let self := with_dragging true self in
        let self := with_drag_start pos self in
        Some (with_current_rect (Some (QRectF_of_corners pos pos)) self)
      else Some self
  | SELECT =>
      if bool_decide (ev_button event = LeftButton) then
        pos ← _to_image_coords self (ev_position event);
        match _selected_box self with
        | Some sel =>
            handle ← _get_handle_at self pos (heap self sel);
            match handle with
            | Some hd =>
                let self := with_resizing true self in
                Some (with_resize_handle (Some hd) self)
            | None => Some (select_box_at self pos)
            end
        | None => Some (select_box_at self pos)
        end
      else if bool_decide (ev_button event = MiddleButton) then
        let self := with_panning true self in
        Some (with_pan_start (ev_pos event) self)
      else Some self
  end.

(** The panning branch shared by the NAVIGATE and SELECT cases of
    [mouseMoveEvent]. *)
Definition pan_by (self : CanvasWidget) (event : QMouseEvent)
  : CanvasWidget :=
  let delta := QPoint_sub (ev_pos event) (_pan_start self) in
  let self :=
    with_offset (QPointF_add (_offset self) (QPointF_of_QPoint delta)) self in
  with_pan_start (ev_pos event) self.

(** [mouseMoveEvent] *)
Definition mouseMoveEvent (self : CanvasWidget) (event : QMouseEvent)
  : option CanvasWidget :=
  match _mode self with
  | NAVIGATE =>
      if _panning self then Some (pan_by self event) else Some self
  | MARK =>
      match _dragging self, _current_rect self with
      | true, Some rect =>
          pos ← _to_image_coords self (ev_position event);
          Some (with_current_rect (Some (setBottomRight rect pos)) self)
      | _, _ => Some self
      end
  | SELECT =>
      match _resizing self, _selected_box self, _resize_handle self with
      | true, Some sel, Some hd =>
          pos ← _to_image_coords self (ev_position event);
          let self := _resize_box self sel hd pos in
          Some (emit_boxes_changed self)
      | _, _, _ =>
          match _dragging self, _selected_box self with
          | true, Some sel =>
              p ← _to_image_coords self (ev_position event);
              let delta := QPointF_sub p (_drag_start self) in
              let b := heap self sel in
              let b := set_x1 (x1 b + pt_x delta) b in
              let b := set_y1 (y1 b + pt_y delta) b in
              let b := set_x2 (x2 b + pt_x delta) b in
              let b := set_y2 (y2 b + pt_y delta) b in
              let self := with_heap (heap_update sel b (heap self)) self in
              p' ← _to_image_coords self (ev_position event);
              let self := with_drag_start p' self in
              Some (emit_boxes_changed self)
          | _, _ =>
              if _panning self then Some (pan_by self event)
              else
                pos ← _to_image_coords self (ev_position event);
                match _selected_box self with
                | Some sel =>
                    handle ← _get_handle_at self pos (heap self sel);
                    match handle with
                    | Some _ => Some (with_cursor SizeAllCursor self)
                    | None => Some (with_cursor ArrowCursor self)
                    end
                | None => Some (with_cursor ArrowCursor self)
                end
          end
      end
  end.

(** [mouseReleaseEvent] *)
Definition mouseReleaseEvent (self : CanvasWidget) (event : QMouseEvent)
  : CanvasWidget :=
  match ev_button event with
  | LeftButton =>
      let self :=
        if bool_decide (_mode self = MARK) && _dragging self then
          let self := with_dragging false self in
          match _current_rect self with
          | Some current_rect =>
              let rect := normalized current_rect in
              let '(box, self) :=
                new_BoundingBox
                  {| class_id := 0; x1 := rect_left rect; y1 := rect_top rect;
                     x2 := rect_right rect; y2 := rect_bottom rect;
                     confidence := None |} self in
              let self := with_boxes (_boxes self ++ [box]) self in
              with_current_rect None self
          | None => self
          end
        else if bool_decide (_mode self = SELECT) then
          let self := with_dragging false self in
          let self := with_resizing false self in
          with_resize_handle None self
        else self in
      if _panning self then with_panning false self else self
  | MiddleButton =>
      if _panning self then with_panning false self else self
  | RightButton => self
  end.

(** [wheelEvent] *)
Definition wheelEvent (self : CanvasWidget) (event : QWheelEvent)
  : option CanvasWidget :=
  if bool_decide (_mode self = NAVIGATE) || bool_decide (_mode self = SELECT)
  then
    let delta := ev_angleDelta_y event in
    let factor := Q2Qc 1.0 + Qc_of_Z delta / Q2Qc 1200 in
    old_pos ← _to_image_coords self (ev_wheel_position event);
    let self := with_scale (_scale self * factor) self in
    let self :=
      with_scale (py_max (Q2Qc 0.1) (py_min (_scale self) (Q2Qc 10.0))) self in
    new_pos ← _to_image_coords self (ev_wheel_position event);
    Some (with_offset
            (QPointF_add (_offset self)
               (QPointF_mul (QPointF_sub new_pos old_pos) (_scale self)))
            self)
  else Some self.

(** [keyPressEvent] *)
Definition keyPressEvent (self : CanvasWidget) (key : Key) : CanvasWidget :=
  match key, _selected_box self with
  | Key_Delete, Some sel =>
      let self :=
        if py_in (heap self) sel (_boxes self) then
          with_boxes (py_remove (heap self) sel (_boxes self)) self
        else self in
      let self := with_selected_box None self in
      emit_boxes_changed self
  | _, _ => self
  end.

(** ** Runs of the widget *)

(** What reaches the widget: the Qt events and the two public methods. *)
Inductive Event :=
| MousePress (event : QMouseEvent)
| MouseMove (event : QMouseEvent)
| MouseRelease (event : QMouseEvent)
| Wheel (event : QWheelEvent)
| KeyPress (key : Key)
| SetMode (mode : CanvasMode)
| LoadImage (path : string).

Definition dispatch (self : CanvasWidget) (e : Event) : option CanvasWidget :=
  match e with
  | MousePress event => mousePressEvent self event
  | MouseMove event => mouseMoveEvent self event
  | MouseRelease event => Some (mouseReleaseEvent self event)
  | Wheel event => wheelEvent self event
  | KeyPress key => Some (keyPressEvent self key)
  | SetMode mode => Some (set_mode self mode)
  | LoadImage path => Some (load_image self path)
  end.

Fixpoint run_events (self : CanvasWidget) (es : list Event)
  : option CanvasWidget :=
  match es with
  | [] => Some self
  | e :: es' => self' ← dispatch self e; run_events self' es'
  end.

(** The host ([modes/edit_mode.py]) also writes attributes of the canvas
    directly: [_boxes], [_selected_box], [new_box_class], [_pixmap], the
    [class_id] of a box, and it emits [boxes_changed] itself.  It writes no
    other attribute; [host_writes c c'] bounds what such a write can do. *)
Definition host_writes (c c' : CanvasWidget) : Prop :=
  _scale c' = _scale c /\ _offset c' = _offset c /\ _mode c' = _mode c /\
  _dragging c' = _dragging c /\ _drag_start c' = _drag_start c /\
  _current_rect c' = _current_rect c /\ _panning c' = _panning c /\
  _pan_start c' = _pan_start c /\ _resizing c' = _resizing c /\
  _resize_handle c' = _resize_handle c /\ _handle_size c' = _handle_size c /\
  cursor c' = cursor c.

(** The states of a running widget. *)
Inductive reachable : CanvasWidget -> Prop :=
| reachable_init : reachable CanvasWidget_init
| reachable_event c e c' :
    reachable c -> dispatch c e = Some c' -> reachable c'
| reachable_host c c' :
    reachable c -> host_writes c c' -> reachable c'.

(** Modelled from the spec: [to_widget], the conversion from image to widget
    coordinates, is not a function of the source, which only has
    [_to_image_coords]; [paintEvent] leaves it to the painter, by
    [translate(self._offset)] followed by [scale(self._scale, self._scale)].
    The spec gives [widget_point = image_point * scale + offset]. *)
Definition to_widget (self : CanvasWidget) (image_point : QPointF) : QPointF :=
  QPointF_add (QPointF_mul image_point (_scale self)) (_offset self).

(** ** [modes/auto_label_mode.py]: the batch worker *)

Module AutoLabelWorker.

(** What [run] does, in order: the notifications it emits and its calls to
    the collaborators. *)
Inductive Effect :=
| Emit_progress_updated (value : Z)
| Emit_finished
| Emit_error (msg : string)
| Load_model
| Process_image (img_path : string)
| Log_warning (img_path : string).

(** [path.glob("*" + suffix)] over the names of the entries of a directory:
    the names that end in [suffix]. *)
Definition has_suffix (suffix name : string) : bool :=
  String.prefix (String.rev suffix) (String.rev name).

Definition glob (suffix : string) (dir : list string) : list string :=
  filter (fun name => has_suffix suffix name = true) dir.

(** [sorted]: names in increasing order. *)
Fixpoint insert_sorted (name : string) (l : list string) : list string :=
  match l with
  | [] => [name]
  | n :: l' =>
      if String.leb name n then name :: n :: l' else n :: insert_sorted name l'
  end.

Definition sorted (l : list string) : list string :=
  foldr insert_sorted [] l.

Section Run.

(** [engine.load_model()]: [None] when it returns, [Some msg] when it raises
    [RuntimeError(msg)]. *)
Variable load_model : option string.

(** The body of the inner [try] for one image (inference, reading the image
    size, writing the label file): [false] when it raises. *)
Variable process_image : string -> bool.

(** The float expression [5 + int((i / total) * 95)]. *)
Variable progress_pct : nat -> nat -> Z.

(** The loop [for i, img_path in enumerate(images, start=1)]. *)
Fixpoint process_images (total i : nat) (images : list string)
  : list Effect :=
  match images with
  | [] => []
  | img_path :: rest =>
      Process_image img_path
      :: (if process_image img_path
          then [Emit_progress_updated (progress_pct i total)]
          else [Log_warning img_path])
      ++ process_images total (S i) rest
  end.

(** [run]; the traceback text appended to the message of the outer handler
    is left out. *)
Definition run (image_dir : list string) : list Effect :=
  let images :=
    sorted (glob ".jpg" image_dir) ++ sorted (glob ".png" image_dir)
    ++ sorted (glob ".jpeg" image_dir) in
  let total := length images in
  if bool_decide (total = 0%nat) then
    [Emit_error "No images found in the selected folder."]
  else
    Emit_progress_updated 0 :: Load_model ::
    match load_model with
    | Some msg => [Emit_error ("Auto-labeling failed: " +:+ msg)]
    | None =>
        Emit_progress_updated 5 :: process_images total 1 images
        ++ [Emit_progress_updated 100; Emit_finished]
    end.

End Run.

End AutoLabelWorker.

(** The edges a resize handle stands on: the left edge [x1] for ['tl'],
    ['bl'], ['l'], and so on. *)
Definition on_left (hd : Handle) : bool :=
  match hd with H_tl | H_bl | H_l => true | _ => false end.

Definition on_right (hd : Handle) : bool :=
  match hd with H_tr | H_br | H_r => true | _ => false end.

Definition on_top (hd : Handle) : bool :=
  match hd with H_tl | H_tr | H_t => true | _ => false end.

Definition on_bottom (hd : Handle) : bool :=
  match hd with H_bl | H_br | H_b => true | _ => false end.

(** The store of a running canvas: the boxes of [_boxes] are distinct
    objects, all allocated, and the selected box is one of them. *)
Definition store_wf (c : CanvasWidget) : Prop :=
  NoDup (_boxes c) /\
  (forall r : Ref, r ∈ _boxes c -> (r < next_ref c)%nat) /\
  (forall r : Ref, _selected_box c = Some r -> r ∈ _boxes c).

Import AutoLabelWorker.

(** The list [images] of [run]: what the three globs find, each sorted. *)
Definition found_images (image_dir : list string) : list string :=
  sorted (glob ".jpg" image_dir) ++ sorted (glob ".png" image_dir)
  ++ sorted (glob ".jpeg" image_dir).

(** The images handed to the inner [try] during a run, in order. *)
Definition processed (effects : list Effect) : list string :=
  omap (fun e => match e with Process_image p => Some p | _ => None end)
    effects.

(** The images whose failure was logged during a run, in order. *)
Definition warned (effects : list Effect) : list string :=
  omap (fun e => match e with Log_warning p => Some p | _ => None end)
    effects.

(** The terminal notifications of the worker. *)
Definition terminal (e : Effect) : bool :=
  match e with
  | Emit_finished | Emit_error _ => true
  | _ => false
  end.

(** A name with one of the three image suffixes. *)
Definition image_name (name : string) : Prop :=
  has_suffix ".jpg" name = true \/ has_suffix ".png" name = true \/
  has_suffix ".jpeg" name = true.

(** ** [core/detection_engine.py] *)

Module Detection.

(** [DetectionResult]; [bbox] is [(x1, y1, x2, y2)] in pixels. *)
Record DetectionResult := {
  class_id : Z;
  confidence : Qc;
  bbox : Qc * Qc * Qc * Qc
}.

(** [to_yolo_format]; [image_size] is the pair of integers [(width,
    height)], and a division by a zero width or height raises. *)
Definition to_yolo_format (self : DetectionResult) (image_size : Z * Z)
  : option (Z * Qc * Qc * Qc * Qc) :=
  let '(width, height) := image_size in
  let '(x1, y1, x2, y2) := bbox self in
  if bool_decide (width = 0%Z) then None
  else if bool_decide (height = 0%Z) then None
  else
    let x_center := ((x1 + x2) / 2) / Qc_of_Z width in
    let y_center := ((y1 + y2) / 2) / Qc_of_Z height in
    let w_norm := (x2 - x1) / Qc_of_Z width in
    let h_norm := (y2 - y1) / Qc_of_Z height in
    Some (class_id self, x_center, y_center, w_norm, h_norm).

End Detection.

(** ** [modes/edit_mode.py]: conversion between labels and boxes *)

(** The body of the loop of [_load_annotation_for]: the box of a label entry
    [(class_id, xc, yc, w, h)] on an image of [width] by [height] pixels. *)
Definition box_of_label (width height : Z) (entry : Z * Qc * Qc * Qc * Qc)
  : BoundingBox :=
  let '(class_id, xc, yc, w, h) := entry in
  let x_center := xc * Qc_of_Z width in
  let y_center := yc * Qc_of_Z height in
  let box_w := w * Qc_of_Z width in
  let box_h := h * Qc_of_Z height in
  let x1 := x_center - box_w / 2 in
  let y1 := y_center - box_h / 2 in
  {| class_id := class_id; x1 := x1; y1 := y1;
     x2 := x1 + box_w; y2 := y1 + box_h; confidence := None |}.

(** The body of the loop of [save_current_annotation]: the label entry of a
    box; a division by a zero width or height raises. *)
Definition label_of_box (width height : Z) (box : BoundingBox)
  : option (Z * Qc * Qc * Qc * Qc) :=
  if bool_decide (width = 0%Z) then None
  else if bool_decide (height = 0%Z) then None
  else
    let x_center := (x1 box + x2 box) / 2 / Qc_of_Z width in
    let y_center := (y1 box + y2 box) / 2 / Qc_of_Z height in
    let w_norm := (x2 box - x1 box) / Qc_of_Z width in
    let h_norm := (y2 box - y1 box) / Qc_of_Z height in
    Some (class_id box, x_center, y_center, w_norm, h_norm).

(** ** [modes/edit_mode.py]: the host of the canvas *)

(** A label entry [(class_id, x_center, y_center, width, height)]. *)
Definition Label : Type := Z * Qc * Qc * Qc * Qc.

(** What the host finds on disk when it looks for the labels of an image:
    [None] when the label file does not exist, else the size of the image
    and the entries of the file (the files are taken to be readable, with
    five numbers per line). *)
Definition LabelFile : Type := option (Z * Z * list Label).

(** The state of [EditMode].  An [Annotation] is represented by its list
    [boxes]; [class_spin] is the value of the class spin box.  The widgets
    that are only written (labels, list displays, tooltips, the jump
    controls) are left out. *)
Record EditMode := {
  canvas : CanvasWidget;
  annotations : gmap string (list Ref);
  dirty : gmap string bool;
  annotation : list Ref;
  images : list string;
  current_index : Z;
  class_spin : Z
}.

Definition with_canvas (v : CanvasWidget) (h : EditMode) : EditMode :=
  {| canvas := v; annotations := annotations h; dirty := dirty h;
     annotation := annotation h; images := images h;
     current_index := current_index h; class_spin := class_spin h |}.

Definition with_annotations (v : gmap string (list Ref)) (h : EditMode)
  : EditMode :=
  {| canvas := canvas h; annotations := v; dirty := dirty h;
     annotation := annotation h; images := images h;
     current_index := current_index h; class_spin := class_spin h |}.

Definition with_dirty (v : gmap string bool) (h : EditMode) : EditMode :=
  {| canvas := canvas h; annotations := annotations h; dirty := v;
     annotation := annotation h; images := images h;
     current_index := current_index h; class_spin := class_spin h |}.

Definition with_annotation (v : list Ref) (h : EditMode) : EditMode :=
  {| canvas := canvas h; annotations := annotations h; dirty := dirty h;
     annotation := v; images := images h;
     current_index := current_index h; class_spin := class_spin h |}.

Definition with_images (v : list string) (h : EditMode) : EditMode :=
  {| canvas := canvas h; annotations := annotations h; dirty := dirty h;
     annotation := annotation h; images := v;
     current_index := current_index h; class_spin := class_spin h |}.

Definition with_current_index (v : Z) (h : EditMode) : EditMode :=
  {| canvas := canvas h; annotations := annotations h; dirty := dirty h;
     annotation := annotation h; images := images h;
     current_index := v; class_spin := class_spin h |}.

Definition with_class_spin (v : Z) (h : EditMode) : EditMode :=
  {| canvas := canvas h; annotations := annotations h; dirty := dirty h;
     annotation := annotation h; images := images h;
     current_index := current_index h; class_spin := v |}.

(** [__init__] *)
Definition EditMode_init : EditMode :=
  {| canvas := CanvasWidget_init; annotations := ∅; dirty := ∅;
     annotation := []; images := []; current_index := -1;
     class_spin := 0 |}.

(** [self.images[self.current_index]] under the guard
    [0 <= self.current_index < len(self.images)]. *)
Definition current_image (self : EditMode) : option string :=
  if bool_decide (0 <= current_index self
                  < Z.of_nat (length (images self)))%Z
  then images self !! Z.to_nat (current_index self)
  else None.

(** [_mark_dirty] *)
Definition _mark_dirty (self : EditMode) : EditMode :=
  match current_image self with
  | Some img => with_dirty (<[img := true]> (dirty self)) self
  | None => self
  end.

(** [_refresh_box_list]: the list display is rebuilt, then [_mark_dirty]. *)
Definition _refresh_box_list (self : EditMode) : EditMode :=
  _mark_dirty self.

(** [_on_boxes_changed], the slot of [canvas.boxes_changed]. *)
Definition _on_boxes_changed (self : EditMode) : EditMode :=
  let self :=
    match current_image self with
    | Some img =>
        let ann := _boxes (canvas self) in
        let self :=
          with_annotations (<[img := ann]> (annotations self)) self in
        with_dirty (<[img := true]> (dirty self)) self
    | None => self
    end in
  _refresh_box_list self.

(** [_save_current_in_memory] *)
Definition _save_current_in_memory (self : EditMode) : EditMode :=
  match current_image self with
  | Some img =>
      let ann := _boxes (canvas self) in
      let self := with_annotations (<[img := ann]> (annotations self)) self in
      with_dirty (<[img := true]> (dirty self)) self
  | None => self
  end.

(** [_set_mode] *)
Definition _set_mode (self : EditMode) (mode : CanvasMode) : EditMode :=
  with_canvas (set_mode (canvas self) mode) self.

(** [_change_selected_class] *)
Definition _change_selected_class (self : EditMode) (value : Z) : EditMode :=
  match _selected_box (canvas self) with
  | Some sel =>
      let c := canvas self in
      let c := with_heap (heap_update sel (set_class_id value (heap c sel))
                            (heap c)) c in
      let self := with_canvas (emit_boxes_changed c) self in
      _on_boxes_changed self
  | None => self
  end.

(** The two slots of [class_spin.valueChanged], in connection order, after
    the spin box has taken the value [v]. *)
Definition class_spin_valueChanged (self : EditMode) (v : Z) : EditMode :=
  let self := with_class_spin v self in
  let self := with_canvas (with_new_box_class v (canvas self)) self in
  _change_selected_class self v.

(** [class_spin.setValue(v)]: the spin box has the range [0..999]; the value
    is brought into the range and [valueChanged] is emitted if the value of
    the spin box changes. *)
Definition class_spin_setValue (self : EditMode) (v : Z) : EditMode :=
  let v' := Z.max 0 (Z.min v 999) in
  if bool_decide (v' = class_spin self) then self
  else class_spin_valueChanged self v'.

(** [_box_list_selected], for a click on row [idx] of the list. *)
Definition _box_list_selected (self : EditMode) (idx : Z) : EditMode :=
  if bool_decide (0 <= idx < Z.of_nat (length (_boxes (canvas self))))%Z then
    match _boxes (canvas self) !! Z.to_nat idx with
    | Some box =>
        let self :=
          with_canvas (with_selected_box (Some box) (canvas self)) self in
        class_spin_setValue self (class_id (heap (canvas self) box))
    | None => self
    end
  else self.

(** The [BoundingBox] objects created in a loop, in order. *)
Fixpoint new_BoundingBoxes (bs : list BoundingBox) (c : CanvasWidget)
  : list Ref * CanvasWidget :=
  match bs with
  | [] => ([], c)
  | b :: bs' =>
      let '(r, c) := new_BoundingBox b c in
      let '(rs, c) := new_BoundingBoxes bs' c in
      (r :: rs, c)
  end.

(** [_load_annotation_for], given what is on disk for the image. *)
Definition _load_annotation_for (self : EditMode) (file : LabelFile)
  : EditMode :=
  let self := with_annotation [] self in
  match file with
  | Some (width, height, entries) =>
      let '(boxes, c) :=
        new_BoundingBoxes (map (box_of_label width height) entries)
          (canvas self) in
      let self := with_annotation boxes (with_canvas c self) in
      with_canvas (with_boxes (annotation self) (canvas self)) self
  | None => self
  end.

(** [_load_current]; [file] is read only if the image has no annotation in
    memory.  The emission of [boxes_changed] runs [_on_boxes_changed]. *)
Definition _load_current (self : EditMode) (file : LabelFile) : EditMode :=
  match current_image self with
  | None => self
  | Some img_path =>
      let self :=
        match annotations self !! img_path with
        | Some ann => with_annotation ann self
        | None =>
            let self := _load_annotation_for self file in
            with_annotations
              (<[img_path := annotation self]> (annotations self)) self
        end in
      let self :=
        match dirty self !! img_path with
        | Some _ => self
        | None => with_dirty (<[img_path := false]> (dirty self)) self
        end in
      let c := load_image (canvas self) img_path in
      let c := with_boxes (annotation self) c in
      let c := with_selected_box None c in
      let c := with_new_box_class (class_spin self) c in
      let self := with_canvas (emit_boxes_changed c) self in
      let self := _on_boxes_changed self in
      _set_mode self NAVIGATE
  end.

(** [next_image] *)
Definition next_image (self : EditMode) (file : LabelFile) : EditMode :=
  if bool_decide (current_index self < 0)%Z then self
  else
    let self := _save_current_in_memory self in
    if bool_decide (current_index self + 1
                    < Z.of_nat (length (images self)))%Z then
      let self := with_current_index (current_index self + 1) self in
      let self := _load_current self file in
      _set_mode self NAVIGATE
    else self.

(** [prev_image] *)
Definition prev_image (self : EditMode) (file : LabelFile) : EditMode :=
  if bool_decide (current_index self < 0)%Z then self
  else
    let self := _save_current_in_memory self in
    if bool_decide (current_index self - 1 >= 0)%Z then
      let self := with_current_index (current_index self - 1) self in
      let self := _load_current self file in
      _set_mode self NAVIGATE
    else self.

(** [load_images]; [listing] is the directory listing of the folder. *)
Definition load_images (self : EditMode) (listing : list string)
    (file : LabelFile) : EditMode :=
  let self := with_images (found_images listing) self in
  let self :=
    with_current_index (if images self is [] then -1 else 0)%Z self in
  _load_current self file.

(** [go_to_image]; [value] is the value of the jump spin box. *)
Definition go_to_image (self : EditMode) (value : Z) (file : LabelFile)
  : EditMode :=
  if bool_decide (current_index self < 0)%Z then self
  else
    let idx := (value - 1)%Z in
    if bool_decide (0 <= idx < Z.of_nat (length (images self)))%Z then
      let self := _save_current_in_memory self in
      let self := with_current_index idx self in
      _load_current self file
    else self.

(** [delete_current_image]; [confirmed] is the answer to the confirmation
    dialog.  The files are removed from disk, failures being ignored. *)
Definition delete_current_image (self : EditMode) (confirmed : bool)
    (file : LabelFile) : EditMode :=
  match current_image self with
  | None => self
  | Some img_path =>
      if negb confirmed then self
      else
        let self := with_annotations (delete img_path (annotations self)) self in
        let self := with_dirty (delete img_path (dirty self)) self in
        let self :=
          with_images (delete (Z.to_nat (current_index self)) (images self))
            self in
        if images self is [] then
          let self := with_current_index (-1) self in
          let c := with_pixmap None (canvas self) in
          let c := with_boxes [] c in
          let c := with_selected_box None c in
          with_canvas c self
        else
          let self :=
            if bool_decide (current_index self
                            >= Z.of_nat (length (images self)))%Z
            then with_current_index (Z.of_nat (length (images self)) - 1) self
            else self in
          _load_current self file
  end.

(** The entries that [save_current_annotation] hands to
    [write_yolo_labels]: one per box of the canvas, in order; [None] when a
    division raises. *)
Definition saved_entries (self : EditMode) (image_size : Z * Z)
  : option (list Label) :=
  mapM (fun box => label_of_box (fst image_size) (snd image_size)
                     (heap (canvas self) box))
    (_boxes (canvas self)).

(** [save_current_annotation]; [image_size] is the size of the image on
    disk.  The result is the new state with what was written to the label
    file of the image: [None] when nothing was written. *)
Definition save_current_annotation (self : EditMode) (image_size : Z * Z)
  : option (EditMode * option (list Label)) :=
  match current_image self with
  | None => Some (self, None)
  | Some img_path =>
      entries ← saved_entries self image_size;
      Some (with_dirty (<[img_path := false]> (dirty self)) self,
            Some entries)
  end.

(** An event of the canvas, with the slot of [boxes_changed] run when the
    handler emits (the handlers emit at most once, as their last step). *)
Definition on_canvas (self : EditMode) (e : Event) : option EditMode :=
  c ← dispatch (canvas self) e;
  let emitted :=
    bool_decide (boxes_changed c <> boxes_changed (canvas self)) in
  let self := with_canvas c self in
  Some (if emitted then _on_boxes_changed self else self).

(** What the user can do in the editor. *)
Inductive Action :=
| OnCanvas (e : Event)
| ClickMode (mode : CanvasMode)
| ChangeClass (v : Z)
| ClickBoxList (idx : Z)
| ChooseImages (listing : list string) (file : LabelFile)
| ClickNext (file : LabelFile)
| ClickPrev (file : LabelFile)
| ClickGo (value : Z) (file : LabelFile)
| ClickSave (image_size : Z * Z)
| ClickDelete (confirmed : bool) (file : LabelFile).

Definition perform (self : EditMode) (a : Action) : option EditMode :=
  match a with
  | OnCanvas e => on_canvas self e
  | ClickMode mode => Some (_set_mode self mode)
  | ChangeClass v => Some (class_spin_valueChanged self v)
  | ClickBoxList idx => Some (_box_list_selected self idx)
  | ChooseImages listing file => Some (load_images self listing file)
  | ClickNext file => Some (next_image self file)
  | ClickPrev file => Some (prev_image self file)
  | ClickGo value file => Some (go_to_image self value file)
  | ClickSave image_size => fst <$> save_current_annotation self image_size
  | ClickDelete confirmed file =>
      Some (delete_current_image self confirmed file)
  end.

Fixpoint perform_all (self : EditMode) (acts : list Action)
  : option EditMode :=
  match acts with
  | [] => Some self
  | a :: acts' => self' ← perform self a; perform_all self' acts'
  end.

(** The index of the displayed image is -1 with no image, and an index of
    [images] otherwise. *)
Definition index_ok (self : EditMode) : Prop :=
  (current_index self = -1 /\ images self = [])%Z \/
  (0 <= current_index self < Z.of_nat (length (images self)))%Z.

(** Two states of the editor with the same list of images and index. *)
Definition same_position (h h' : EditMode) : Prop :=
  images h' = images h /\ current_index h' = current_index h.

(** The boxes that [_load_annotation_for] builds from a label file. *)
Definition boxes_of_file (file : LabelFile) : list BoundingBox :=
  match file with
  | Some (width, height, entries) => box_of_label width height <$> entries
  | None => []
  end.

(** ** Predicates of the specification *)

(** The scale lies in [[0.1, 10.0]]. *)
Definition scale_in_range (c : CanvasWidget) : Prop :=
  Q2Qc 0.1 <= _scale c <= Q2Qc 10.0.

(** ** Concrete states and events used in the examples *)

(** A canvas zoomed to scale 2 and panned by (3, 4). *)
Definition zoomed_canvas : CanvasWidget :=
  with_offset {| pt_x := Q2Qc 3; pt_y := Q2Qc 4 |}
    (with_scale (Q2Qc 2) CanvasWidget_init).

Definition pt (x y : Z) : QPointF := {| pt_x := Qc_of_Z x; pt_y := Qc_of_Z y |}.

Definition left_at (x y : Z) : QMouseEvent :=
  {| ev_button := LeftButton; ev_position := pt x y;
     ev_pos := {| ipt_x := x; ipt_y := y |} |}.

Definition wheel_at (delta x y : Z) : QWheelEvent :=
  {| ev_angleDelta_y := delta; ev_wheel_position := pt x y |}.

(** A canvas at the largest scale. *)
Definition max_zoom_canvas : CanvasWidget :=
  with_scale (Q2Qc 10.0) CanvasWidget_init.




Definition box_at (cls x1' y1' x2' y2' : Z) : BoundingBox :=
  {| class_id := cls; x1 := Qc_of_Z x1'; y1 := Qc_of_Z y1';
     x2 := Qc_of_Z x2'; y2 := Qc_of_Z y2'; confidence := None |}.

(** A canvas in SELECT mode with two overlapping boxes, the second one
    selected. *)
Definition two_boxes_canvas : CanvasWidget :=
  with_selected_box (Some 1%nat)
    (with_mode SELECT
       (with_boxes [0%nat; 1%nat]
          (with_next_ref 2%nat
             (with_heap
                (heap_update 1%nat (box_at 0 50 50 150 150)
                   (heap_update 0%nat (box_at 0 0 0 100 100) (fun _ => no_box)))
                CanvasWidget_init)))).

(** The box with class [cls] on the corners of a rectangle. *)
Definition box_of_rect (cls : Z) (rect : QRectF) : BoundingBox :=
  {| class_id := cls; x1 := rect_left rect; y1 := rect_top rect;
     x2 := rect_right rect; y2 := rect_bottom rect; confidence := None |}.

(** A rectangle without area. *)
Definition degenerate (rect : QRectF) : Prop :=
  rect_w rect = 0 \/ rect_h rect = 0.

(** A fresh canvas switched to MARK mode after the host has set the class of
    new boxes to 3. *)
Definition mark_canvas : CanvasWidget :=
  set_mode (with_new_box_class 3 CanvasWidget_init) MARK.

(** Drawing from (10, 10) to (50, 40), and back. *)
Definition draw_gesture : list Event :=
  [MousePress (left_at 10 10); MouseMove (left_at 50 40);
   MouseRelease (left_at 50 40)].

Definition draw_gesture_back : list Event :=
  [MousePress (left_at 50 40); MouseMove (left_at 10 10);
   MouseRelease (left_at 10 10)].

(** A press and a release at (10, 10), without movement. *)
Definition click_gesture : list Event :=
  [MousePress (left_at 10 10); MouseRelease (left_at 10 10)].

(** [mark_canvas] after a press at (10, 10): a draw is in progress. *)
Definition drawing_canvas : CanvasWidget :=
  with_current_rect (Some (QRectF_of_corners (pt 10 10) (pt 10 10)))
    (with_drag_start (pt 10 10) (with_dragging true mark_canvas)).

(** A directory listing without images. *)
Definition no_image_dir : list string := ["notes.txt"; "labels.csv"].

(** [two_boxes_canvas] with its first box selected and grabbed at
    (75, 75). *)
Definition dragging_canvas : CanvasWidget :=
  with_drag_start (pt 75 75)
    (with_dragging true (with_selected_box (Some 0%nat) two_boxes_canvas)).

(** A press at (7, 9) has started a pan on a fresh canvas. *)
Definition panning_canvas : CanvasWidget :=
  with_pan_start {| ipt_x := 7; ipt_y := 9 |}
    (with_panning true CanvasWidget_init).

Definition move_to (x y : Z) : QMouseEvent :=
  {| ev_button := RightButton; ev_position := pt x y;
     ev_pos := {| ipt_x := x; ipt_y := y |} |}.

(** [two_boxes_canvas] with its first box selected; (0, 0) is on the
    top-left handle of that box. *)
Definition selected_canvas : CanvasWidget :=
  with_selected_box (Some 0%nat) two_boxes_canvas.

(** A store with two boxes of the same class and coordinates, the second
    one selected. *)
Definition twin_boxes_canvas : CanvasWidget :=
  with_selected_box (Some 1%nat)
    (with_mode SELECT
       (with_boxes [0%nat; 1%nat]
          (with_next_ref 2%nat
             (with_heap
                (heap_update 1%nat (box_at 0 0 0 100 100)
                   (heap_update 0%nat (box_at 0 0 0 100 100) (fun _ => no_box)))
                CanvasWidget_init)))).

(** A session: a box is drawn in MARK mode, then selected in SELECT mode. *)
Definition draw_then_select : list Event :=
  [SetMode MARK; MousePress (left_at 10 10); MouseMove (left_at 50 40);
   MouseRelease (left_at 50 40); SetMode SELECT; MousePress (left_at 30 30)].

Definition drawn_canvas : CanvasWidget :=
  default CanvasWidget_init (run_events CanvasWidget_init draw_then_select).

(** A label file with one entry, for an image of 640 by 480 pixels. *)
Definition one_label_file : LabelFile :=
  Some (640%Z, 480%Z,
        ((1%Z, Q2Qc 0.5, Q2Qc 0.5, Q2Qc 0.25, Q2Qc 0.1) :: nil)).

Definition small_listing : list string := ["b.png"; "notes.txt"; "a.jpg"].

(** The editor after the folder [small_listing] has been opened. *)
Definition opened_editor : EditMode :=
  load_images EditMode_init small_listing one_label_file.

(** A session in the editor: a folder is opened, a box is drawn on the first
    image, the user goes to the second image and deletes it. *)
Definition session : list Action :=
  [ChooseImages small_listing one_label_file;
   ClickMode MARK;
   OnCanvas (MousePress (left_at 10 10));
   OnCanvas (MouseMove (left_at 50 40));
   OnCanvas (MouseRelease (left_at 50 40));
   ClickNext None;
   ClickDelete true None].

Definition session_end : EditMode :=
  default EditMode_init (perform_all EditMode_init session).

(** [opened_editor] with its box selected. *)
Definition selected_editor : EditMode :=
  with_canvas (with_selected_box (Some 0%nat) (canvas opened_editor))
    opened_editor.

(** A label file whose entry has a class beyond the range of the class spin
    box. *)
Definition large_class_file : LabelFile :=
  Some (640%Z, 480%Z,
        ((1500%Z, Q2Qc 0.5, Q2Qc 0.5, Q2Qc 0.25, Q2Qc 0.1) :: nil)).

(** * Properties *)

(** Closed goals about concrete states are decided by evaluation; rational
    numbers carry a proof of canonicity, so that equalities between them are
    decided rather than checked by conversion. *)
Ltac by_evaluation := apply (bool_decide_unpack _); vm_compute; exact I.

(** ** Checks of the embedding on concrete inputs *)

Example contains_edge :
  contains (rect_of_box (box_at 0 0 0 10 10)) (pt 10 5) = true.
Proof. reflexivity. Qed.

Example contains_outside :
  contains (rect_of_box (box_at 0 0 0 10 10)) (pt 11 5) = false.
Proof. reflexivity. Qed.

Example contains_inverted :
  contains (rect_of_box (box_at 0 10 10 0 0)) (pt 5 5) = true.
Proof. reflexivity. Qed.

Example contains_null :
  contains (rect_of_box (box_at 0 0 0 0 10)) (pt 0 5) = false.
Proof. reflexivity. Qed.

(** With handle size 8 at scale 1, a point near a corner is on the corner
    handle, not on the edge handles it also satisfies. *)
Example handle_corner_wins :
  _get_handle_at two_boxes_canvas (pt 52 53) (box_at 0 50 50 150 150)
  = Some (Some H_tl).
Proof. reflexivity. Qed.

Example handle_left_edge :
  _get_handle_at two_boxes_canvas (pt 52 100) (box_at 0 50 50 150 150)
  = Some (Some H_l).
Proof. reflexivity. Qed.

Example handle_none :
  _get_handle_at two_boxes_canvas (pt 100 100) (box_at 0 50 50 150 150)
  = Some None.
Proof. reflexivity. Qed.

Example to_image_coords_zero_scale :
  _to_image_coords (with_scale 0 CanvasWidget_init) (pt 1 1) = None.
Proof. reflexivity. Qed.

Example to_image_coords_zoomed :
  _to_image_coords zoomed_canvas (pt 7 10) = Some (pt 2 3).
Proof. by_evaluation. Qed.

(** Deleting removes the first box equal to the selected one. *)
Example delete_selected :
  _boxes (keyPressEvent two_boxes_canvas Key_Delete) = [0%nat]%list.
Proof. reflexivity. Qed.

(** ** Arithmetic of the clamp *)

Lemma py_min_le_r (a b : Qc) : py_min a b <= b.
Proof.
  unfold py_min. case_bool_decide as H.
  - apply Qcle_refl.
  - by apply Qcnot_lt_le.
Qed.

Lemma py_max_ge_l (a b : Qc) : a <= py_max a b.
Proof.
  unfold py_max. case_bool_decide as H.
  - by apply Qclt_le_weak.
  - apply Qcle_refl.
Qed.

Lemma py_max_le (a b u : Qc) : a <= u -> b <= u -> py_max a b <= u.
Proof. intros Ha Hb. unfold py_max. by case_bool_decide. Qed.

(** The clamp of [wheelEvent] lands in [[0.1, 10.0]] whatever it is given. *)
Lemma clamp_range (s : Qc) :
  Q2Qc 0.1 <= py_max (Q2Qc 0.1) (py_min s (Q2Qc 10.0)) <= Q2Qc 10.0.
Proof.
  split.
  - apply py_max_ge_l.
  - apply py_max_le; [done | apply py_min_le_r].
Qed.

Lemma clamp_nonzero (s : Qc) :
  py_max (Q2Qc 0.1) (py_min s (Q2Qc 10.0)) <> 0.
Proof.
  intros E. destruct (clamp_range s) as [H _]. rewrite E in H.
  by apply Qcle_not_lt in H.
Qed.

(** ** Coordinate conversion *)

Lemma to_image_coords_Some (c : CanvasWidget) (p : QPointF) :
  _scale c <> 0 ->
  _to_image_coords c p =
    Some {| pt_x := (pt_x p - pt_x (_offset c)) / _scale c;
            pt_y := (pt_y p - pt_y (_offset c)) / _scale c |}.
Proof. intros H. unfold _to_image_coords. by rewrite bool_decide_eq_false_2. Qed.

Lemma to_image_coords_defined (c : CanvasWidget) (p q : QPointF) :
  _to_image_coords c p = Some q -> _scale c <> 0.
Proof. unfold _to_image_coords. by case_bool_decide. Qed.

Lemma QPointF_eq (p q : QPointF) :
  pt_x p = pt_x q -> pt_y p = pt_y q -> p = q.
Proof. destruct p, q; simpl; congruence. Qed.

(** C4. For a viewport transform with a positive scale the two conversions
    are inverse of each other: converting a widget point to image
    coordinates and back gives the point, and converting an image point to
    widget coordinates and back gives the point, with
    [to_image(w) = (w - offset) / scale] and
    [to_widget(i) = i * scale + offset]. *)
Theorem to_widget_to_image_inverse (c : CanvasWidget) (p q : QPointF) :
  0 < _scale c ->
  (to_widget c <$> _to_image_coords c p) = Some p /\
  _to_image_coords c (to_widget c q) = Some q.
Proof.
  intros Hs.
  assert (Hne : _scale c <> 0) by (intros E; rewrite E in Hs; done).
  rewrite !to_image_coords_Some by done. simpl. split; f_equal.
  - apply QPointF_eq; simpl; field; done.
  - apply QPointF_eq; simpl; field; done.
Qed.

Lemma to_widget_to_image_inverse_witness :
  (to_widget zoomed_canvas
     <$> _to_image_coords zoomed_canvas {| pt_x := Q2Qc 7; pt_y := Q2Qc 9 |})
  = Some {| pt_x := Q2Qc 7; pt_y := Q2Qc 9 |} /\
  _to_image_coords zoomed_canvas
    (to_widget zoomed_canvas {| pt_x := Q2Qc 5; pt_y := Q2Qc 6 |})
  = Some {| pt_x := Q2Qc 5; pt_y := Q2Qc 6 |}.
Proof. apply to_widget_to_image_inverse. reflexivity. Defined.

(** ** Zoom *)

Lemma wheelEvent_zooming (c : CanvasWidget) (ev : QWheelEvent) :
  _mode c <> MARK -> _scale c <> 0 ->
  exists c', wheelEvent c ev = Some c' /\
    _scale c' =
      py_max (Q2Qc 0.1)
        (py_min (_scale c * (Q2Qc 1.0 + Qc_of_Z (ev_angleDelta_y ev) / Q2Qc 1200))
           (Q2Qc 10.0)) /\
    _to_image_coords c' (ev_wheel_position ev)
    = _to_image_coords c (ev_wheel_position ev).
Proof.
  intros Hm Hs. unfold wheelEvent.
  replace (bool_decide (_mode c = NAVIGATE) || bool_decide (_mode c = SELECT))
    with true by (destruct (_mode c); done).
  set (f := Q2Qc 1.0 + _).
  set (s' := py_max (Q2Qc 0.1) (py_min (_scale c * f) (Q2Qc 10.0))).
  assert (Hs' : s' <> 0) by apply clamp_nonzero.
  rewrite (to_image_coords_Some c) by done. simpl.
  rewrite to_image_coords_Some by done. simpl. fold s'.
  eexists. split; [reflexivity |]. split; [reflexivity |].
  rewrite !to_image_coords_Some by done. simpl. f_equal.
  apply QPointF_eq; simpl; field; done.
Qed.

Lemma wheelEvent_mark (c : CanvasWidget) (ev : QWheelEvent) :
  _mode c = MARK -> wheelEvent c ev = Some c.
Proof. intros Hm. unfold wheelEvent. by rewrite Hm. Qed.

(** C2. A zoom keeps the image point under its pivot: when the pivot of a
    wheel event maps to the image point [q], the handler returns and the
    pivot still maps to [q] afterwards, exactly, for every wheel delta and
    also when the new scale has been clamped. *)
Theorem zoom_keeps_pivot (c : CanvasWidget) (ev : QWheelEvent) (q : QPointF) :
  _to_image_coords c (ev_wheel_position ev) = Some q ->
  exists c', wheelEvent c ev = Some c' /\
    _to_image_coords c' (ev_wheel_position ev) = Some q.
Proof.
  intros Hq. destruct (decide (_mode c = MARK)) as [Hm | Hm].
  - exists c. by rewrite wheelEvent_mark.
  - destruct (wheelEvent_zooming c ev Hm) as (c' & Hc' & _ & Himg).
    + by eapply to_image_coords_defined.
    + exists c'. by rewrite Himg.
Qed.

(** At scale 10 a wheel delta of 120 asks for scale 11, which is clamped. *)
Lemma zoom_keeps_pivot_witness :
  exists c', wheelEvent max_zoom_canvas (wheel_at 120 30 20) = Some c' /\
    _to_image_coords c' (pt 30 20) = Some (pt 3 2).
Proof.
  apply (zoom_keeps_pivot max_zoom_canvas (wheel_at 120 30 20) (pt 3 2)).
  by_evaluation.
Defined.

Lemma scale_in_range_nonzero (c : CanvasWidget) :
  scale_in_range c -> _scale c <> 0.
Proof.
  intros [H _] E. rewrite E in H. by apply Qcle_not_lt in H.
Qed.

Lemma wheelEvent_scale_in_range (c : CanvasWidget) (ev : QWheelEvent) :
  scale_in_range c ->
  exists c', wheelEvent c ev = Some c' /\ scale_in_range c'.
Proof.
  intros Hr. destruct (decide (_mode c = MARK)) as [Hm | Hm].
  - exists c. by rewrite wheelEvent_mark.
  - destruct (wheelEvent_zooming c ev Hm) as (c' & Hc' & Hs' & _).
    + by apply scale_in_range_nonzero.
    + exists c'. split; [done |]. unfold scale_in_range. rewrite Hs'.
      apply clamp_range.
Qed.

(** No handler but [wheelEvent] and [load_image] writes [_scale]. *)
Lemma mousePressEvent_scale (c c' : CanvasWidget) (ev : QMouseEvent) :
  mousePressEvent c ev = Some c' -> _scale c' = _scale c.
Proof.
  unfold mousePressEvent, select_box_at. intros H.
  repeat (first
    [ done
    | progress simplify_option_eq
    | case_match
    | progress simpl in * ]).
Qed.

Lemma mouseMoveEvent_scale (c c' : CanvasWidget) (ev : QMouseEvent) :
  mouseMoveEvent c ev = Some c' -> _scale c' = _scale c.
Proof.
  unfold mouseMoveEvent, pan_by, _resize_box. intros H.
  repeat (first
    [ done
    | progress simplify_option_eq
    | case_match
    | progress simpl in * ]).
Qed.

Lemma mouseReleaseEvent_scale (c : CanvasWidget) (ev : QMouseEvent) :
  _scale (mouseReleaseEvent c ev) = _scale c.
Proof.
  unfold mouseReleaseEvent, new_BoundingBox.
  repeat (first [ done | case_match | progress simpl in * ]).
Qed.

Lemma keyPressEvent_scale (c : CanvasWidget) (key : Key) :
  _scale (keyPressEvent c key) = _scale c.
Proof.
  unfold keyPressEvent.
  repeat (first [ done | case_match | progress simpl in * ]).
Qed.

Lemma dispatch_scale_in_range (c c' : CanvasWidget) (e : Event) :
  scale_in_range c -> dispatch c e = Some c' -> scale_in_range c'.
Proof.
  intros Hr. unfold scale_in_range in *. destruct e; simpl; intros H.
  - by rewrite (mousePressEvent_scale _ _ _ H).
  - by rewrite (mouseMoveEvent_scale _ _ _ H).
  - injection H as <-. by rewrite mouseReleaseEvent_scale.
  - destruct (wheelEvent_scale_in_range c event Hr) as (c'' & Hc & Hr').
    rewrite Hc in H. by injection H as <-.
  - injection H as <-. by rewrite keyPressEvent_scale.
  - by injection H as <-.
  - injection H as <-. done.
Qed.

(** C3. If the scale lies in [[0.1, 10.0]], every wheel event is handled and
    leaves the scale in [[0.1, 10.0]]; and the scale of every state the
    widget can reach from its initial state, by events, by [set_mode] and
    [load_image] and by the writes of the host, lies in [[0.1, 10.0]]. *)
Theorem scale_always_clamped :
  (forall (c : CanvasWidget) (ev : QWheelEvent),
     scale_in_range c ->
     exists c', wheelEvent c ev = Some c' /\ scale_in_range c') /\
  (forall c : CanvasWidget, reachable c -> scale_in_range c).
Proof.
  split; [apply wheelEvent_scale_in_range |].
  induction 1 as [| c e c' _ IH He | c c' _ IH Hh].
  - done.
  - by eapply dispatch_scale_in_range.
  - destruct Hh as (Hs & _). unfold scale_in_range in *. by rewrite Hs.
Qed.

(** From scale 10, a wheel delta of 120 asks for scale 11; and the state
    after loading an image and that wheel event is reachable. *)
Lemma scale_always_clamped_witness :
  (exists c', wheelEvent max_zoom_canvas (wheel_at 120 30 20) = Some c' /\
     scale_in_range c') /\
  scale_in_range (load_image CanvasWidget_init "a.jpg").
Proof.
  destruct scale_always_clamped as [Hwheel Hreach]. split.
  - apply (Hwheel max_zoom_canvas (wheel_at 120 30 20)). done.
  - apply (Hreach (load_image CanvasWidget_init "a.jpg")).
    apply (reachable_event CanvasWidget_init (LoadImage "a.jpg")).
    + apply reachable_init.
    + reflexivity.
Defined.

(** ** Loading an image *)

(** C10. [load_image] sets the scale to 1.0 and the offset to (0, 0), and
    leaves the box store (the list and the boxes), the selection, the mode
    and the drag, draw, pan and resize state as they were; it emits no
    notification.  Besides the transform only the pixmap changes. *)
Theorem load_image_resets_transform_only (c : CanvasWidget) (path : string) :
  let c' := load_image c path in
  _scale c' = Q2Qc 1.0 /\ _offset c' = {| pt_x := 0; pt_y := 0 |} /\
  _pixmap c' = Some path /\
  _boxes c' = _boxes c /\ heap c' = heap c /\ next_ref c' = next_ref c /\
  _selected_box c' = _selected_box c /\ _mode c' = _mode c /\
  new_box_class c' = new_box_class c /\
  _dragging c' = _dragging c /\ _drag_start c' = _drag_start c /\
  _current_rect c' = _current_rect c /\
  _panning c' = _panning c /\ _pan_start c' = _pan_start c /\
  _resizing c' = _resizing c /\ _resize_handle c' = _resize_handle c /\
  _handle_size c' = _handle_size c /\ cursor c' = cursor c /\
  boxes_changed c' = boxes_changed c.
Proof. simpl. repeat split. Qed.

(** ** Selection *)






(** ** Drawing in MARK mode *)

Lemma normalized_ordered (rect : QRectF) :
  rect_left (normalized rect) <= rect_right (normalized rect) /\
  rect_top (normalized rect) <= rect_bottom (normalized rect).
Proof.
  assert (Hadd : forall a b : Qc, ~ b < 0 -> a <= a + b).
  { intros a b Hb. apply Qcnot_lt_le in Hb.
    rewrite <- (Qcplus_0_r a) at 1. by apply Qcplus_le_mono_l. }
  assert (Hsub : forall a b : Qc, b < 0 -> a + b <= a + b + - b).
  { intros a b Hb. replace (a + b + - b) with a by ring.
    rewrite <- (Qcplus_0_r a) at 2. apply Qcplus_le_mono_l.
    by apply Qclt_le_weak. }
  unfold normalized, rect_left, rect_right, rect_top, rect_bottom.
  split; repeat case_bool_decide; simpl; auto.
Qed.

Lemma mark_press (c : CanvasWidget) (ev : QMouseEvent) (p : QPointF) :
  _mode c = MARK -> ev_button ev = LeftButton ->
  _to_image_coords c (ev_position ev) = Some p ->
  mousePressEvent c ev =
    Some (with_current_rect (Some (QRectF_of_corners p p))
            (with_drag_start p (with_dragging true c))).
Proof.
  intros Hm Hb Hp. unfold mousePressEvent. by rewrite Hm, Hb, Hp.
Qed.

Lemma mark_move (c : CanvasWidget) (ev : QMouseEvent) (rect : QRectF)
    (p : QPointF) :
  _mode c = MARK -> _dragging c = true -> _current_rect c = Some rect ->
  _to_image_coords c (ev_position ev) = Some p ->
  mouseMoveEvent c ev =
    Some (with_current_rect (Some (setBottomRight rect p)) c).
Proof.
  intros Hm Hd Hr Hp. unfold mouseMoveEvent. by rewrite Hm, Hd, Hr, Hp.
Qed.

(** The release that ends a draw appends one new box, on the corners of the
    normalized rectangle and with class 0, and emits nothing. *)
Lemma mark_release (c : CanvasWidget) (ev : QMouseEvent) (rect : QRectF) :
  _mode c = MARK -> _dragging c = true -> _current_rect c = Some rect ->
  ev_button ev = LeftButton ->
  let c' := mouseReleaseEvent c ev in
  _boxes c' = _boxes c ++ [next_ref c] /\
  heap c' (next_ref c) = box_of_rect 0 (normalized rect) /\
  (forall r : Ref, r <> next_ref c -> heap c' r = heap c r) /\
  next_ref c' = S (next_ref c) /\
  _current_rect c' = None /\ _dragging c' = false /\
  _mode c' = MARK /\ new_box_class c' = new_box_class c /\
  boxes_changed c' = boxes_changed c.
Proof.
  intros Hm Hd Hr Hb. unfold mouseReleaseEvent.
  rewrite Hb, Hm, Hd. simpl. rewrite Hr. simpl.
  assert (Hheap : forall (b : BoundingBox) (r : Ref),
            r <> next_ref c -> heap_update (next_ref c) b (heap c) r = heap c r).
  { intros b r Hne. unfold heap_update. by rewrite bool_decide_eq_false_2. }
  assert (Hnew : forall b : BoundingBox,
            heap_update (next_ref c) b (heap c) (next_ref c) = b).
  { intros b. unfold heap_update. by rewrite bool_decide_eq_true_2. }
  destruct (_panning c); simpl; rewrite Hnew; repeat split; auto.
Qed.

Lemma Qcminus_neg_iff (a b : Qc) : a - b < 0 <-> a < b.
Proof.
  unfold Qclt, Qcminus, Qcplus, Qcopp. simpl.
  rewrite !Qred_correct. lra.
Qed.

(** The rectangle dragged from [p] to [q], once normalized, has the smaller
    coordinates as its top-left corner and the larger ones as its
    bottom-right corner. *)
Lemma dragged_rect_normalized (cls : Z) (p q : QPointF) :
  box_of_rect cls (normalized (setBottomRight (QRectF_of_corners p p) q)) =
    {| class_id := cls;
       x1 := py_min (pt_x p) (pt_x q); y1 := py_min (pt_y p) (pt_y q);
       x2 := py_max (pt_x q) (pt_x p); y2 := py_max (pt_y q) (pt_y p);
       confidence := None |}.
Proof.
  unfold box_of_rect, normalized, setBottomRight, QRectF_of_corners,
    rect_left, rect_right, rect_top, rect_bottom, py_min, py_max. simpl.
  rewrite !(bool_decide_ext _ _ (Qcminus_neg_iff _ _)).
  do 2 case_bool_decide; simpl; f_equal; ring.
Qed.

(** A whole draw gesture: press at [p], one move to [q], release. *)
Lemma mark_gesture (c : CanvasWidget) (press move release : QMouseEvent)
    (p q : QPointF) :
  _mode c = MARK ->
  ev_button press = LeftButton -> ev_button release = LeftButton ->
  _to_image_coords c (ev_position press) = Some p ->
  _to_image_coords c (ev_position move) = Some q ->
  exists c',
    run_events c [MousePress press; MouseMove move; MouseRelease release]
    = Some c' /\
    _boxes c' = _boxes c ++ [next_ref c] /\
    heap c' (next_ref c) =
      {| class_id := 0;
         x1 := py_min (pt_x p) (pt_x q); y1 := py_min (pt_y p) (pt_y q);
         x2 := py_max (pt_x q) (pt_x p); y2 := py_max (pt_y q) (pt_y p);
         confidence := None |} /\
    new_box_class c' = new_box_class c /\
    boxes_changed c' = boxes_changed c.
Proof.
  intros Hm Hb1 Hb3 Hp Hq. simpl.
  rewrite (mark_press c press p) by done. simpl.
  set (c1 := with_current_rect _ _).
  rewrite (mark_move c1 move (QRectF_of_corners p p) q) by done. simpl.
  set (c2 := with_current_rect _ c1).
  destruct (mark_release c2 release
              (setBottomRight (QRectF_of_corners p p) q))
    as (Hboxes & Hnew & _ & _ & _ & _ & _ & Hcls & Hemit); [done .. |].
  change (next_ref c2) with (next_ref c) in Hboxes, Hnew.
  change (_boxes c2) with (_boxes c) in Hboxes.
  change (new_box_class c2) with (new_box_class c) in Hcls.
  change (boxes_changed c2) with (boxes_changed c) in Hemit.
  eexists. split; [reflexivity |].
  rewrite Hboxes, Hnew, Hcls, Hemit, dragged_rect_normalized. done.
Qed.

(** C1. On a canvas in MARK mode whose class for new boxes is 3, drawing
    from (10, 10) to (50, 40) and releasing appends one box to the store,
    with x1=10, y1=10, x2=50, y2=40, and drawing from (50, 40) back to
    (10, 10) appends the same box; but the box has class 0 in both cases,
    not the class for new boxes. *)
Theorem draw_commits_box_of_class_zero :
  new_box_class mark_canvas = 3%Z /\
  (exists c', run_events mark_canvas draw_gesture = Some c' /\
     _boxes c' = [0%nat]%list /\ heap c' 0%nat = box_at 0 10 10 50 40 /\
     class_id (heap c' 0%nat) <> new_box_class c') /\
  (exists c', run_events mark_canvas draw_gesture_back = Some c' /\
     _boxes c' = [0%nat]%list /\ heap c' 0%nat = box_at 0 10 10 50 40 /\
     class_id (heap c' 0%nat) <> new_box_class c').
Proof.
  split; [reflexivity |]. split.
  - destruct (mark_gesture mark_canvas (left_at 10 10) (left_at 50 40)
                (left_at 50 40) (pt 10 10) (pt 50 40))
      as (c' & Hrun & Hboxes & Hbox & Hcls & _);
      [done | done | done | by_evaluation | by_evaluation |].
    exists c'. split; [exact Hrun |]. simpl in Hboxes, Hbox.
    rewrite Hboxes, Hbox, Hcls. split; [reflexivity |].
    split; [by_evaluation | done].
  - destruct (mark_gesture mark_canvas (left_at 50 40) (left_at 10 10)
                (left_at 10 10) (pt 50 40) (pt 10 10))
      as (c' & Hrun & Hboxes & Hbox & Hcls & _);
      [done | done | done | by_evaluation | by_evaluation |].
    exists c'. split; [exact Hrun |]. simpl in Hboxes, Hbox.
    rewrite Hboxes, Hbox, Hcls. split; [reflexivity |].
    split; [by_evaluation | done].
Qed.

(** C6, as the code has it. The release that ends a draw in MARK mode
    normalizes the dragged rectangle and always appends a box on its
    corners, with ordered coordinates, whether the rectangle is degenerate
    or not; a degenerate rectangle gives a box without area.  The rectangle
    in progress is then dropped. *)
Theorem release_commits_any_rectangle (c : CanvasWidget) (ev : QMouseEvent)
    (rect : QRectF) :
  _mode c = MARK -> _dragging c = true -> _current_rect c = Some rect ->
  ev_button ev = LeftButton ->
  let c' := mouseReleaseEvent c ev in
  let box := heap c' (next_ref c) in
  _boxes c' = _boxes c ++ [next_ref c] /\
  box = box_of_rect 0 (normalized rect) /\
  x1 box <= x2 box /\ y1 box <= y2 box /\
  (degenerate rect -> width box = 0 \/ height box = 0) /\
  _current_rect c' = None /\ _dragging c' = false.
Proof.
  intros Hm Hd Hr Hb.
  destruct (mark_release c ev rect Hm Hd Hr Hb)
    as (Hboxes & Hnew & _ & _ & Hrect & Hdrag & _).
  simpl. rewrite Hnew. repeat split; try done.
  - apply normalized_ordered.
  - apply normalized_ordered.
  - unfold degenerate, width, height, box_of_rect, normalized, rect_left,
      rect_right, rect_top, rect_bottom.
    intros [Hw | Hh]; [left | right]; repeat case_bool_decide; simpl.
    all: try rewrite Hw; try rewrite Hh; ring.
Qed.

Lemma release_commits_any_rectangle_witness :
  let c' := mouseReleaseEvent drawing_canvas (left_at 10 10) in
  let box := heap c' (next_ref drawing_canvas) in
  _boxes c' = _boxes drawing_canvas ++ [next_ref drawing_canvas] /\
  box = box_of_rect 0
          (normalized (QRectF_of_corners (pt 10 10) (pt 10 10))) /\
  x1 box <= x2 box /\ y1 box <= y2 box /\
  (degenerate (QRectF_of_corners (pt 10 10) (pt 10 10)) ->
   width box = 0 \/ height box = 0) /\
  _current_rect c' = None /\ _dragging c' = false.
Proof.
  apply (release_commits_any_rectangle drawing_canvas (left_at 10 10)
           (QRectF_of_corners (pt 10 10) (pt 10 10)));
    reflexivity.
Defined.

(** C6, counterexample. A press and a release at (10, 10) without any
    movement, on the empty store of [mark_canvas], leave a box in the store,
    of zero width and zero height. *)
Lemma click_commits_degenerate_box :
  _boxes mark_canvas = []%list /\
  exists c', run_events mark_canvas click_gesture = Some c' /\
    _boxes c' = [0%nat]%list /\
    width (heap c' 0%nat) = 0 /\ height (heap c' 0%nat) = 0.
Proof.
  split; [reflexivity |]. eexists. split; [reflexivity |].
  split; [reflexivity |]. split; by_evaluation.
Qed.

(** ** Switching modes during a draw *)

Lemma py_remove_sublist (hp : Ref -> BoundingBox) (x : Ref) (l : list Ref) :
  sublist (py_remove hp x l) l.
Proof.
  induction l as [| e l IH]; simpl; [done |].
  destruct (py_same hp e x).
  - by apply sublist_cons.
  - by apply sublist_skip.
Qed.

Lemma mousePressEvent_boxes (c c' : CanvasWidget) (ev : QMouseEvent) :
  mousePressEvent c ev = Some c' -> _boxes c' = _boxes c.
Proof.
  unfold mousePressEvent, select_box_at. intros H.
  repeat (first
    [ done
    | progress simplify_option_eq
    | case_match
    | progress simpl in * ]).
Qed.

Lemma mouseMoveEvent_boxes (c c' : CanvasWidget) (ev : QMouseEvent) :
  mouseMoveEvent c ev = Some c' -> _boxes c' = _boxes c.
Proof.
  unfold mouseMoveEvent, pan_by, _resize_box. intros H.
  repeat (first
    [ done
    | progress simplify_option_eq
    | case_match
    | progress simpl in * ]).
Qed.

Lemma mouseReleaseEvent_boxes (c : CanvasWidget) (ev : QMouseEvent) :
  _mode c <> MARK -> _boxes (mouseReleaseEvent c ev) = _boxes c.
Proof.
  intros Hm. unfold mouseReleaseEvent.
  rewrite (bool_decide_eq_false_2 _ Hm). simpl.
  repeat (first [ done | case_match | progress simpl in * ]).
Qed.

Lemma wheelEvent_boxes (c c' : CanvasWidget) (ev : QWheelEvent) :
  wheelEvent c ev = Some c' -> _boxes c' = _boxes c.
Proof.
  unfold wheelEvent. intros H.
  destruct (bool_decide (_mode c = NAVIGATE) || bool_decide (_mode c = SELECT));
    [| by injection H as <-].
  destruct (_to_image_coords c _) as [old_pos |]; [| done].
  cbn [mbind option_bind] in H.
  destruct (_to_image_coords _ _) as [new_pos |]; [| done].
  cbn [mbind option_bind] in H.
  by injection H as <-.
Qed.

(** Outside MARK mode no event adds a box to the store. *)
Lemma dispatch_adds_no_box (c c' : CanvasWidget) (e : Event) :
  _mode c <> MARK -> dispatch c e = Some c' ->
  sublist (_boxes c') (_boxes c).
Proof.
  intros Hm. destruct e; simpl; intros H.
  - by rewrite (mousePressEvent_boxes _ _ _ H).
  - by rewrite (mouseMoveEvent_boxes _ _ _ H).
  - injection H as <-. by rewrite mouseReleaseEvent_boxes.
  - by rewrite (wheelEvent_boxes _ _ _ H).
  - injection H as <-. unfold keyPressEvent.
    destruct key, (_selected_box c); simpl; try done.
    destruct (py_in _ _ _); simpl; [apply py_remove_sublist | done].
  - by injection H as <-.
  - by injection H as <-.
Qed.

(** What the handlers leave of a draw in progress while the mode is not
    MARK: the mode and the rectangle are kept by every handler; the drag
    flag is only cleared by a release of the primary button in SELECT
    mode. *)
Lemma mousePressEvent_draw (c c' : CanvasWidget) (ev : QMouseEvent) :
  _mode c <> MARK -> mousePressEvent c ev = Some c' ->
  _mode c' = _mode c /\ _current_rect c' = _current_rect c /\
  (_dragging c = true -> _dragging c' = true).
Proof.
  unfold mousePressEvent, select_box_at. intros Hm H.
  destruct (_mode c) eqn:Hmode; [| done |].
  - destruct (_ || _); injection H as <-; by rewrite ?Hmode.
  - destruct (bool_decide (ev_button ev = LeftButton)).
    + destruct (_to_image_coords c _) as [pos |]; [| done].
      cbn [mbind option_bind] in H.
      assert (Hsel : forall c0 : CanvasWidget,
                c0 = select_box_at c pos ->
                _mode c0 = SELECT /\ _current_rect c0 = _current_rect c /\
                (_dragging c = true -> _dragging c0 = true)).
      { intros c0 ->. unfold select_box_at. simpl.
        destruct (find_box_at _ _ _); by rewrite ?Hmode. }
      destruct (_selected_box c) as [sel |]; [| injection H as <-; by apply Hsel].
      destruct (_get_handle_at c pos _) as [[hd |] |]; [| | done];
        cbn [mbind option_bind] in H;
        injection H as <-; [by rewrite ?Hmode | by apply Hsel].
    + destruct (bool_decide _); injection H as <-; by rewrite ?Hmode.
Qed.

Lemma mouseMoveEvent_draw (c c' : CanvasWidget) (ev : QMouseEvent) :
  _mode c <> MARK -> mouseMoveEvent c ev = Some c' ->
  _mode c' = _mode c /\ _current_rect c' = _current_rect c /\
  _dragging c' = _dragging c.
Proof.
  unfold mouseMoveEvent, pan_by, _resize_box. intros Hm H.
  destruct (_mode c) eqn:Hmode; [| done |].
  - destruct (_panning c); injection H as <-; by rewrite ?Hmode.
  - repeat (first
      [ done
      | progress simplify_option_eq
      | case_match
      | progress simpl in * ]).
Qed.

Lemma mouseReleaseEvent_draw (c : CanvasWidget) (ev : QMouseEvent) :
  _mode c <> MARK ->
  let c' := mouseReleaseEvent c ev in
  _mode c' = _mode c /\ _current_rect c' = _current_rect c /\
  ((ev_button ev = LeftButton -> _mode c <> SELECT) ->
   _dragging c' = _dragging c) /\
  (ev_button ev = LeftButton -> _mode c = SELECT -> _dragging c' = false).
Proof.
  intros Hm. unfold mouseReleaseEvent.
  rewrite (bool_decide_eq_false_2 _ Hm). cbn [andb].
  destruct (ev_button ev); [| | done].
  - case_bool_decide as Hs.
    + simpl. destruct (_panning c); repeat split; try done;
        intros Hn; by destruct Hn.
    + destruct (_panning c); by repeat split.
  - destruct (_panning c); by repeat split.
Qed.

Lemma wheelEvent_draw (c c' : CanvasWidget) (ev : QWheelEvent) :
  wheelEvent c ev = Some c' ->
  _mode c' = _mode c /\ _current_rect c' = _current_rect c /\
  _dragging c' = _dragging c.
Proof.
  unfold wheelEvent. intros H.
  destruct (bool_decide (_mode c = NAVIGATE) || bool_decide (_mode c = SELECT));
    [| by injection H as <-].
  destruct (_to_image_coords c _) as [old_pos |]; [| done].
  cbn [mbind option_bind] in H.
  destruct (_to_image_coords _ _) as [new_pos |]; [| done].
  cbn [mbind option_bind] in H.
  by injection H as <-.
Qed.

Lemma keyPressEvent_draw (c : CanvasWidget) (key : Key) :
  let c' := keyPressEvent c key in
  _mode c' = _mode c /\ _current_rect c' = _current_rect c /\
  _dragging c' = _dragging c.
Proof.
  unfold keyPressEvent.
  destruct key, (_selected_box c); simpl; try done.
  by destruct (py_in _ _ _).
Qed.

Lemma dispatch_draw (c c' : CanvasWidget) (e : Event) :
  _mode c <> MARK -> e <> SetMode MARK -> dispatch c e = Some c' ->
  _mode c' <> MARK /\ _current_rect c' = _current_rect c /\
  ((forall ev : QMouseEvent,
      e = MouseRelease ev -> ev_button ev = LeftButton -> _mode c <> SELECT) ->
   _dragging c = true -> _dragging c' = true).
Proof.
  intros Hm He. destruct e as [ev | ev | ev | ev | key | mode | path];
    simpl; intros H.
  - destruct (mousePressEvent_draw c c' ev Hm H) as (-> & -> & Hd).
    by repeat split.
  - destruct (mouseMoveEvent_draw c c' ev Hm H) as (-> & -> & ->).
    by repeat split.
  - injection H as <-.
    destruct (mouseReleaseEvent_draw c ev Hm) as (-> & -> & Hd & _).
    repeat split; try done. intros Hn <-. apply Hd. by apply Hn.
  - destruct (wheelEvent_draw c c' ev H) as (-> & -> & ->).
    by repeat split.
  - injection H as <-.
    destruct (keyPressEvent_draw c key) as (-> & -> & ->).
    by repeat split.
  - injection H as <-. repeat split; try done.
    simpl. intros ->. by apply He.
  - by injection H as <-.
Qed.

(** The same along a run that never sets the mode to MARK. *)
Lemma run_events_draw (es : list Event) (c c' : CanvasWidget) :
  _mode c <> MARK -> SetMode MARK ∉ es -> run_events c es = Some c' ->
  _mode c' <> MARK /\ _current_rect c' = _current_rect c /\
  sublist (_boxes c') (_boxes c) /\
  ((forall (es1 es2 : list Event) (ev : QMouseEvent) (c0 : CanvasWidget),
      es = es1 ++ MouseRelease ev :: es2 -> run_events c es1 = Some c0 ->
      ev_button ev = LeftButton -> _mode c0 <> SELECT) ->
   _dragging c = true -> _dragging c' = true).
Proof.
  revert c. induction es as [| e es IH]; intros c Hm Hes H.
  - injection H as <-. by repeat split.
  - simpl in H. destruct (dispatch c e) as [c1 |] eqn:He; [| done].
    simpl in H.
    assert (Hne : e <> SetMode MARK).
    { intros ->. apply Hes. by left. }
    destruct (dispatch_draw c c1 e Hm Hne He) as (Hm1 & Hr1 & Hd1).
    assert (Hes' : SetMode MARK ∉ es).
    { intros Hin. apply Hes. by right. }
    destruct (IH c1 Hm1 Hes' H) as (Hm' & Hr' & Hs' & Hd').
    split; [done |]. split; [by rewrite Hr' |].
    split; [by etrans; [| by apply (dispatch_adds_no_box c c1 e)] |].
    intros Hrel Hd. apply Hd'.
    + intros es1 es2 ev c0 -> Hrun.
      apply (Hrel (e :: es1) es2 ev c0); [done |].
      simpl. by rewrite He.
    + apply Hd1; [| done].
      intros ev -> Hb. by apply (Hrel [] es ev c).
Qed.

(** A release in MARK mode without the drag flag adds nothing. *)
Lemma mark_release_idle (c : CanvasWidget) (ev : QMouseEvent) :
  _mode c = MARK -> _dragging c = false ->
  _boxes (mouseReleaseEvent c ev) = _boxes c.
Proof.
  intros Hm Hd. unfold mouseReleaseEvent. rewrite Hm, Hd. simpl.
  destruct (ev_button ev); [| | done]; by destruct (_panning c).
Qed.

(** C7, as the code has it. When a draw is in progress in MARK mode,
    [set_mode] only changes the mode and resets the cursor: the rectangle in
    progress and the drag flag are kept, the store is unchanged and nothing
    is emitted.  After a switch to another mode, along every run of events
    that does not set the mode to MARK again, no box is added to the store
    and the rectangle in progress is kept; the drag flag is kept as well
    provided no release of the primary button is handled in SELECT mode,
    and such a release clears it.  When the mode is then set back to MARK,
    a release of the primary button handled directly after commits the
    rectangle that was kept if the drag flag is still set, and adds nothing
    if it was cleared. *)
Theorem set_mode_keeps_draw (c : CanvasWidget) (mode : CanvasMode)
    (rect : QRectF) :
  _mode c = MARK -> _dragging c = true -> _current_rect c = Some rect ->
  let c1 := set_mode c mode in
  (_mode c1 = mode /\ cursor c1 = ArrowCursor /\
   _dragging c1 = true /\ _drag_start c1 = _drag_start c /\
   _current_rect c1 = Some rect /\
   _boxes c1 = _boxes c /\ heap c1 = heap c /\ next_ref c1 = next_ref c /\
   _selected_box c1 = _selected_box c /\
   new_box_class c1 = new_box_class c /\
   _pixmap c1 = _pixmap c /\ _scale c1 = _scale c /\ _offset c1 = _offset c /\
   _panning c1 = _panning c /\ _pan_start c1 = _pan_start c /\
   _resizing c1 = _resizing c /\ _resize_handle c1 = _resize_handle c /\
   boxes_changed c1 = boxes_changed c) /\
  (mode <> MARK ->
   forall (es : list Event) (c2 : CanvasWidget),
     SetMode MARK ∉ es -> run_events c1 es = Some c2 ->
     _mode c2 <> MARK /\
     sublist (_boxes c2) (_boxes c) /\
     _current_rect c2 = Some rect /\
     ((forall (es1 es2 : list Event) (ev : QMouseEvent) (c0 : CanvasWidget),
         es = es1 ++ MouseRelease ev :: es2 -> run_events c1 es1 = Some c0 ->
         ev_button ev = LeftButton -> _mode c0 <> SELECT) ->
      _dragging c2 = true) /\
     (forall ev : QMouseEvent,
        ev_button ev = LeftButton -> _mode c2 = SELECT ->
        _dragging (mouseReleaseEvent c2 ev) = false) /\
     (forall ev : QMouseEvent,
        ev_button ev = LeftButton ->
        let c3 := mouseReleaseEvent (set_mode c2 MARK) ev in
        (_dragging c2 = true ->
         _boxes c3 = _boxes c2 ++ [next_ref c2]%list /\
         heap c3 (next_ref c2) = box_of_rect 0 (normalized rect) /\
         _current_rect c3 = None /\ _dragging c3 = false) /\
        (_dragging c2 = false -> _boxes c3 = _boxes c2))).
Proof.
  intros Hm Hd Hr. cbn zeta. split; [by repeat split |].
  intros Hmode es c2 Hes Hrun.
  destruct (run_events_draw es (set_mode c mode) c2 Hmode Hes Hrun)
    as (Hm2 & Hr2 & Hs2 & Hd2).
  change (_current_rect (set_mode c mode)) with (_current_rect c) in Hr2.
  rewrite Hr in Hr2.
  split; [done |]. split; [done |]. split; [done |].
  split; [intros Hrel; by apply Hd2 |].
  split.
  - intros ev Hb Hsel.
    by apply (mouseReleaseEvent_draw c2 ev Hm2).
  - intros ev Hb. split.
    + intros Hd3.
      destruct (mark_release (set_mode c2 MARK) ev rect)
        as (Hb3 & Hh3 & _ & _ & Hr3 & Hd4 & _); done.
    + intros Hd3. by apply (mark_release_idle (set_mode c2 MARK) ev).
Qed.

Lemma set_mode_keeps_draw_witness :
  let c := drawing_canvas in
  let rect := QRectF_of_corners (pt 10 10) (pt 10 10) in
  let c1 := set_mode c SELECT in
  (_mode c1 = SELECT /\ cursor c1 = ArrowCursor /\
   _dragging c1 = true /\ _drag_start c1 = _drag_start c /\
   _current_rect c1 = Some rect /\
   _boxes c1 = _boxes c /\ heap c1 = heap c /\ next_ref c1 = next_ref c /\
   _selected_box c1 = _selected_box c /\
   new_box_class c1 = new_box_class c /\
   _pixmap c1 = _pixmap c /\ _scale c1 = _scale c /\ _offset c1 = _offset c /\
   _panning c1 = _panning c /\ _pan_start c1 = _pan_start c /\
   _resizing c1 = _resizing c /\ _resize_handle c1 = _resize_handle c /\
   boxes_changed c1 = boxes_changed c) /\
  (SELECT <> MARK ->
   forall (es : list Event) (c2 : CanvasWidget),
     SetMode MARK ∉ es -> run_events c1 es = Some c2 ->
     _mode c2 <> MARK /\
     sublist (_boxes c2) (_boxes c) /\
     _current_rect c2 = Some rect /\
     ((forall (es1 es2 : list Event) (ev : QMouseEvent) (c0 : CanvasWidget),
         es = es1 ++ MouseRelease ev :: es2 -> run_events c1 es1 = Some c0 ->
         ev_button ev = LeftButton -> _mode c0 <> SELECT) ->
      _dragging c2 = true) /\
     (forall ev : QMouseEvent,
        ev_button ev = LeftButton -> _mode c2 = SELECT ->
        _dragging (mouseReleaseEvent c2 ev) = false) /\
     (forall ev : QMouseEvent,
        ev_button ev = LeftButton ->
        let c3 := mouseReleaseEvent (set_mode c2 MARK) ev in
        (_dragging c2 = true ->
         _boxes c3 = _boxes c2 ++ [next_ref c2]%list /\
         heap c3 (next_ref c2) = box_of_rect 0 (normalized rect) /\
         _current_rect c3 = None /\ _dragging c3 = false) /\
        (_dragging c2 = false -> _boxes c3 = _boxes c2))).
Proof.
  apply (set_mode_keeps_draw drawing_canvas SELECT
           (QRectF_of_corners (pt 10 10) (pt 10 10)));
    reflexivity.
Defined.

(** C7, counterexample. A draw from (10, 10) to (50, 40) is in progress
    when the mode is switched to NAVIGATE: the drag flag and the rectangle
    are still there and the store is empty.  The mode is switched back to
    MARK and the button is released: the box of that gesture is in the
    store. *)
Lemma switching_mode_does_not_cancel_draw :
  exists c1 c2,
    run_events mark_canvas
      [MousePress (left_at 10 10); MouseMove (left_at 50 40);
       SetMode NAVIGATE] = Some c1 /\
    _dragging c1 = true /\ is_Some (_current_rect c1) /\
    _boxes c1 = []%list /\
    run_events c1 [SetMode MARK; MouseRelease (left_at 50 40)] = Some c2 /\
    _boxes c2 = [0%nat]%list /\ heap c2 0%nat = box_at 0 10 10 50 40.
Proof.
  eexists. eexists. split; [reflexivity |].
  split; [reflexivity |]. split; [by eexists |].
  split; [reflexivity |]. split; [reflexivity |].
  split; [reflexivity | by_evaluation].
Qed.

(** The same draw with a release of the primary button handled in SELECT
    mode before the mode is MARK again: the release clears the drag flag,
    the rectangle stays, and the later release in MARK mode adds no box. *)
Lemma release_in_select_drops_draw :
  exists c1 c2,
    run_events mark_canvas
      [MousePress (left_at 10 10); MouseMove (left_at 50 40);
       SetMode SELECT; MouseRelease (left_at 50 40)] = Some c1 /\
    _dragging c1 = false /\ is_Some (_current_rect c1) /\
    run_events c1 [SetMode MARK; MouseRelease (left_at 50 40)] = Some c2 /\
    _boxes c2 = []%list.
Proof.
  eexists. eexists. split; [reflexivity |].
  split; [reflexivity |]. split; [by eexists |].
  split; reflexivity.
Qed.

(** ** Notification of changes *)

(** Translating the selected box emits [boxes_changed]. *)
Lemma drag_box_emits (c : CanvasWidget) (ev : QMouseEvent) (sel : Ref)
    (p : QPointF) :
  _mode c = SELECT -> _resizing c = false -> _dragging c = true ->
  _selected_box c = Some sel ->
  _to_image_coords c (ev_position ev) = Some p ->
  exists c', mouseMoveEvent c ev = Some c' /\
    boxes_changed c' = S (boxes_changed c) /\
    let d := QPointF_sub p (_drag_start c) in
    let b := heap c sel in
    heap c' sel =
      {| class_id := class_id b;
         x1 := x1 b + pt_x d; y1 := y1 b + pt_y d;
         x2 := x2 b + pt_x d; y2 := y2 b + pt_y d;
         confidence := confidence b |}.
Proof.
  intros Hm Hrs Hd Hsel Hp. unfold mouseMoveEvent.
  rewrite Hm, Hrs, Hd, Hsel, Hp. simpl.
  pose proof (to_image_coords_defined _ _ _ Hp) as Hs.
  unfold _to_image_coords in *. simpl.
  rewrite (bool_decide_eq_false_2 _ Hs) in *. simpl.
  eexists. split; [reflexivity |]. simpl. split; [done |].
  unfold heap_update. by rewrite bool_decide_eq_true_2.
Qed.

(** Resizing the selected box emits [boxes_changed]. *)
Lemma resize_box_emits (c : CanvasWidget) (ev : QMouseEvent) (sel : Ref)
    (hd : Handle) (p : QPointF) :
  _mode c = SELECT -> _resizing c = true ->
  _selected_box c = Some sel -> _resize_handle c = Some hd ->
  _to_image_coords c (ev_position ev) = Some p ->
  mouseMoveEvent c ev = Some (emit_boxes_changed (_resize_box c sel hd p)) /\
  boxes_changed (emit_boxes_changed (_resize_box c sel hd p))
  = S (boxes_changed c).
Proof.
  intros Hm Hrs Hsel Hh Hp. unfold mouseMoveEvent.
  by rewrite Hm, Hrs, Hsel, Hh, Hp.
Qed.

(** Deleting the selected box emits [boxes_changed]. *)
Lemma delete_box_emits (c : CanvasWidget) (sel : Ref) :
  _selected_box c = Some sel ->
  boxes_changed (keyPressEvent c Key_Delete) = S (boxes_changed c) /\
  _selected_box (keyPressEvent c Key_Delete) = None.
Proof.
  intros Hsel. unfold keyPressEvent. rewrite Hsel.
  by destruct (py_in _ _ _).
Qed.

(** C8. Translating, resizing and deleting the selected box emit
    [boxes_changed] ([drag_box_emits], [resize_box_emits],
    [delete_box_emits]); committing a new box does not: after the draw from
    (10, 10) to (50, 40) on [mark_canvas] the store, empty before, holds the
    new box, and the number of emissions is what it was. *)
Theorem draw_commit_emits_nothing :
  _boxes mark_canvas = []%list /\
  exists c', run_events mark_canvas draw_gesture = Some c' /\
    _boxes c' = [0%nat]%list /\ heap c' 0%nat = box_at 0 10 10 50 40 /\
    boxes_changed c' = boxes_changed mark_canvas.
Proof.
  split; [reflexivity |].
  destruct (mark_gesture mark_canvas (left_at 10 10) (left_at 50 40)
              (left_at 50 40) (pt 10 10) (pt 50 40))
    as (c' & Hrun & Hboxes & Hbox & _ & Hemit);
    [done | done | done | by_evaluation | by_evaluation |].
  exists c'. split; [exact Hrun |]. simpl in Hboxes, Hbox.
  rewrite Hboxes, Hbox, Hemit. split; [reflexivity |].
  split; [by_evaluation | done].
Qed.

(** ** The batch worker *)

Import AutoLabelWorker.

Example has_suffix_jpg : has_suffix ".jpg" "a.jpg" = true.
Proof. reflexivity. Qed.

Example has_suffix_txt : has_suffix ".jpg" "a.jpg.txt" = false.
Proof. reflexivity. Qed.

(** Two images: the model is loaded, both are processed in the order of the
    three sorted lists, and the run ends with 100 and [finished]. *)
Example run_two_images :
  run None (fun _ => true)
    (fun i total => (5 + Z.of_nat i * 95 / Z.of_nat total)%Z)
    ["b.png"; "notes.txt"; "a.jpg"]
  = [Emit_progress_updated 0; Load_model; Emit_progress_updated 5;
     Process_image "a.jpg"; Emit_progress_updated 52;
     Process_image "b.png"; Emit_progress_updated 100;
     Emit_progress_updated 100; Emit_finished]%list.
Proof. reflexivity. Qed.

(** A failure to load the model ends the run with one error. *)
Example run_load_failure :
  run (Some "Failed to load YOLO model: no file") (fun _ => true)
    (fun _ _ => 0%Z) ["a.jpg"]
  = [Emit_progress_updated 0; Load_model;
     Emit_error "Auto-labeling failed: Failed to load YOLO model: no file"]%list.
Proof. reflexivity. Qed.

Lemma glob_nil (suffix : string) (dir : list string) :
  Forall (fun name => has_suffix suffix name = false) dir ->
  glob suffix dir = [].
Proof.
  unfold glob. induction 1 as [| name dir Hname _ IH]; [done |].
  rewrite filter_cons, IH. case_decide; [congruence | done].
Qed.

(** C9. Started on a directory without any name ending in [.jpg], [.png]
    or [.jpeg], the worker emits one error notification and does nothing
    else: the model is not loaded, no image is processed, no progress and no
    completion is notified, whatever the collaborators would do. *)
Theorem run_without_images (load_model : option string)
    (process_image : string -> bool) (progress_pct : nat -> nat -> Z)
    (image_dir : list string) :
  Forall (fun name => has_suffix ".jpg" name = false) image_dir ->
  Forall (fun name => has_suffix ".png" name = false) image_dir ->
  Forall (fun name => has_suffix ".jpeg" name = false) image_dir ->
  run load_model process_image progress_pct image_dir
  = [Emit_error "No images found in the selected folder."]%list.
Proof.
  intros Hjpg Hpng Hjpeg. unfold run.
  by rewrite !glob_nil.
Qed.

Lemma run_without_images_witness :
  run None (fun _ => true) (fun _ _ => 0%Z) no_image_dir
  = [Emit_error "No images found in the selected folder."]%list.
Proof.
  apply run_without_images; repeat constructor.
Defined.

(** * Further properties of the canvas *)

(** ** Moving the selected box *)

Lemma heap_update_same (r : Ref) (b : BoundingBox) (hp : Ref -> BoundingBox) :
  heap_update r b hp r = b.
Proof. unfold heap_update. by rewrite bool_decide_eq_true_2. Qed.

Lemma heap_update_other (r r' : Ref) (b : BoundingBox)
    (hp : Ref -> BoundingBox) :
  r' <> r -> heap_update r b hp r' = hp r'.
Proof. intros H. unfold heap_update. by rewrite bool_decide_eq_false_2. Qed.

(** The value of [mouseMoveEvent] on the branch that moves the selected
    box. *)
Lemma select_drag_move (c : CanvasWidget) (ev : QMouseEvent) (sel : Ref)
    (p : QPointF) :
  _mode c = SELECT -> _resizing c = false \/ _resize_handle c = None ->
  _dragging c = true -> _selected_box c = Some sel ->
  _to_image_coords c (ev_position ev) = Some p ->
  let d := QPointF_sub p (_drag_start c) in
  let b := heap c sel in
  let b' :=
    {| class_id := class_id b;
       x1 := x1 b + pt_x d; y1 := y1 b + pt_y d;
       x2 := x2 b + pt_x d; y2 := y2 b + pt_y d;
       confidence := confidence b |} in
  mouseMoveEvent c ev =
    Some (emit_boxes_changed
            (with_drag_start p (with_heap (heap_update sel b' (heap c)) c))).
Proof.
  intros Hm Hrs Hd Hsel Hp. unfold mouseMoveEvent.
  rewrite Hm, Hd, Hsel, Hp. simpl.
  pose proof (to_image_coords_defined _ _ _ Hp) as Hs.
  unfold _to_image_coords in *. simpl.
  rewrite (bool_decide_eq_false_2 _ Hs) in *. simpl.
  injection Hp as <-.
  destruct Hrs as [-> | ->]; [done |]. by destruct (_resizing c).
Qed.

(** X1. In SELECT mode, a move while a box is grabbed translates the four
    coordinates of the selected box by the image-space distance between the
    pointer and the last grab point; width, height and class are kept, no
    other box changes, the store and the selection stay, [boxes_changed] is
    emitted once, and the grab point becomes the pointer position. *)
Theorem drag_translates_selected_box (c : CanvasWidget) (ev : QMouseEvent)
    (sel : Ref) (p : QPointF) :
  _mode c = SELECT -> _resizing c = false \/ _resize_handle c = None ->
  _dragging c = true -> _selected_box c = Some sel ->
  _to_image_coords c (ev_position ev) = Some p ->
  exists c', mouseMoveEvent c ev = Some c' /\
    let dx := pt_x p - pt_x (_drag_start c) in
    let dy := pt_y p - pt_y (_drag_start c) in
    x1 (heap c' sel) = x1 (heap c sel) + dx /\
    y1 (heap c' sel) = y1 (heap c sel) + dy /\
    x2 (heap c' sel) = x2 (heap c sel) + dx /\
    y2 (heap c' sel) = y2 (heap c sel) + dy /\
    width (heap c' sel) = width (heap c sel) /\
    height (heap c' sel) = height (heap c sel) /\
    class_id (heap c' sel) = class_id (heap c sel) /\
    (forall r : Ref, r <> sel -> heap c' r = heap c r) /\
    _boxes c' = _boxes c /\ _selected_box c' = Some sel /\
    boxes_changed c' = S (boxes_changed c) /\
    _drag_start c' = p.
Proof.
  intros Hm Hrs Hd Hsel Hp. eexists.
  split; [by apply (select_drag_move c ev sel p) |].
  simpl. rewrite heap_update_same. unfold width, height. simpl.
  repeat split; try done; try ring.
  intros r Hr. by apply heap_update_other.
Qed.

Lemma drag_translates_selected_box_witness :
  exists c', mouseMoveEvent dragging_canvas (move_to 85 70) = Some c' /\
    let dx := pt_x (pt 85 70) - pt_x (_drag_start dragging_canvas) in
    let dy := pt_y (pt 85 70) - pt_y (_drag_start dragging_canvas) in
    x1 (heap c' 0%nat) = x1 (heap dragging_canvas 0%nat) + dx /\
    y1 (heap c' 0%nat) = y1 (heap dragging_canvas 0%nat) + dy /\
    x2 (heap c' 0%nat) = x2 (heap dragging_canvas 0%nat) + dx /\
    y2 (heap c' 0%nat) = y2 (heap dragging_canvas 0%nat) + dy /\
    width (heap c' 0%nat) = width (heap dragging_canvas 0%nat) /\
    height (heap c' 0%nat) = height (heap dragging_canvas 0%nat) /\
    class_id (heap c' 0%nat) = class_id (heap dragging_canvas 0%nat) /\
    (forall r : Ref, r <> 0%nat -> heap c' r = heap dragging_canvas r) /\
    _boxes c' = _boxes dragging_canvas /\ _selected_box c' = Some 0%nat /\
    boxes_changed c' = S (boxes_changed dragging_canvas) /\
    _drag_start c' = pt 85 70.
Proof.
  apply (drag_translates_selected_box dragging_canvas (move_to 85 70)
           0%nat (pt 85 70)).
  - reflexivity.
  - left. reflexivity.
  - reflexivity.
  - reflexivity.
  - by_evaluation.
Defined.

(** X2. Two successive moves of a grabbed box give the box that the second
    move alone gives: the translation only depends on where the pointer
    ends. *)
Theorem drag_moves_compose (c : CanvasWidget) (ev1 ev2 : QMouseEvent)
    (sel : Ref) (p1 p2 : QPointF) :
  _mode c = SELECT -> _resizing c = false \/ _resize_handle c = None ->
  _dragging c = true -> _selected_box c = Some sel ->
  _to_image_coords c (ev_position ev1) = Some p1 ->
  _to_image_coords c (ev_position ev2) = Some p2 ->
  exists c2 c2',
    run_events c [MouseMove ev1; MouseMove ev2] = Some c2 /\
    mouseMoveEvent c ev2 = Some c2' /\
    (forall r : Ref, heap c2 r = heap c2' r) /\
    _drag_start c2 = _drag_start c2' /\ _boxes c2 = _boxes c2' /\
    boxes_changed c2 = S (boxes_changed c2').
Proof.
  intros Hm Hrs Hd Hsel Hp1 Hp2. simpl.
  rewrite (select_drag_move c ev1 sel p1) by done. simpl.
  set (c1 := emit_boxes_changed _).
  assert (Hp2' : _to_image_coords c1 (ev_position ev2) = Some p2) by done.
  rewrite (select_drag_move c1 ev2 sel p2) by done.
  rewrite (select_drag_move c ev2 sel p2) by done.
  eexists. eexists. split; [reflexivity |]. split; [reflexivity |].
  simpl. repeat split; try done.
  intros r. unfold heap_update. case_bool_decide; [| done].
  rewrite bool_decide_eq_true_2 by done. simpl. f_equal; ring.
Qed.

Lemma drag_moves_compose_witness :
  exists c2 c2',
    run_events dragging_canvas
      [MouseMove (move_to 80 80); MouseMove (move_to 85 70)] = Some c2 /\
    mouseMoveEvent dragging_canvas (move_to 85 70) = Some c2' /\
    (forall r : Ref, heap c2 r = heap c2' r) /\
    _drag_start c2 = _drag_start c2' /\ _boxes c2 = _boxes c2' /\
    boxes_changed c2 = S (boxes_changed c2').
Proof.
  apply (drag_moves_compose dragging_canvas (move_to 80 80) (move_to 85 70)
           0%nat (pt 80 80) (pt 85 70)).
  - reflexivity.
  - left. reflexivity.
  - reflexivity.
  - reflexivity.
  - by_evaluation.
  - by_evaluation.
Defined.

(** ** Panning *)

(** X3. A move while panning, in NAVIGATE mode or in SELECT mode when no box
    is being resized or moved, shifts the offset by the integer pointer
    movement and nothing else: the scale, the store, the boxes and the
    selection are unchanged, nothing is emitted, and the image point that
    was under the pointer is still under it. *)
Theorem pan_keeps_grabbed_point (c : CanvasWidget) (ev : QMouseEvent) :
  _mode c = NAVIGATE \/
    (_mode c = SELECT /\ _resizing c = false /\ _dragging c = false) ->
  _panning c = true -> _scale c <> 0 ->
  exists c', mouseMoveEvent c ev = Some c' /\
    _offset c' =
      QPointF_add (_offset c)
        (QPointF_of_QPoint (QPoint_sub (ev_pos ev) (_pan_start c))) /\
    _pan_start c' = ev_pos ev /\ _scale c' = _scale c /\
    _to_image_coords c' (QPointF_of_QPoint (ev_pos ev))
    = _to_image_coords c (QPointF_of_QPoint (_pan_start c)) /\
    _boxes c' = _boxes c /\ (forall r : Ref, heap c' r = heap c r) /\
    _selected_box c' = _selected_box c /\
    boxes_changed c' = boxes_changed c.
Proof.
  intros Hmode Hpan Hs. exists (pan_by c ev). split.
  - unfold mouseMoveEvent.
    destruct Hmode as [-> | (-> & -> & ->)]; rewrite Hpan; [done |].
    by repeat case_match.
  - repeat split; try done.
    rewrite !to_image_coords_Some by done. f_equal.
    apply QPointF_eq; simpl; rewrite Z2Qc_inj_sub; field; done.
Qed.

Lemma pan_keeps_grabbed_point_witness :
  exists c', mouseMoveEvent panning_canvas (move_to 20 5) = Some c' /\
    _offset c' =
      QPointF_add (_offset panning_canvas)
        (QPointF_of_QPoint
           (QPoint_sub (ev_pos (move_to 20 5)) (_pan_start panning_canvas))) /\
    _pan_start c' = ev_pos (move_to 20 5) /\
    _scale c' = _scale panning_canvas /\
    _to_image_coords c' (QPointF_of_QPoint (ev_pos (move_to 20 5)))
    = _to_image_coords panning_canvas
        (QPointF_of_QPoint (_pan_start panning_canvas)) /\
    _boxes c' = _boxes panning_canvas /\
    (forall r : Ref, heap c' r = heap panning_canvas r) /\
    _selected_box c' = _selected_box panning_canvas /\
    boxes_changed c' = boxes_changed panning_canvas.
Proof.
  apply (pan_keeps_grabbed_point panning_canvas (move_to 20 5)).
  - left. reflexivity.
  - reflexivity.
  - by_evaluation.
Defined.

(** ** Deleting the selected box *)

Lemma py_remove_first (hp : Ref -> BoundingBox) (x r0 : Ref)
    (pre post : list Ref) :
  py_same hp r0 x = true ->
  Forall (fun e => py_same hp e x = false) pre ->
  py_in hp x (pre ++ r0 :: post) = true /\
  py_remove hp x (pre ++ r0 :: post) = pre ++ post.
Proof.
  intros Hr0. induction 1 as [| e pre He _ [IHin IHrem]]; simpl.
  - by rewrite Hr0.
  - rewrite He. simpl. split; [done | by f_equal].
Qed.

Lemma py_same_false (hp : Ref -> BoundingBox) (e x : Ref) :
  e <> x -> hp e <> hp x -> py_same hp e x = false.
Proof.
  intros H1 H2. unfold py_same.
  by rewrite !bool_decide_eq_false_2.
Qed.

(** X4. The Delete key with a selected box removes from the store the first
    box that is the selected object or has the same field values, clears the
    selection and emits [boxes_changed] once; the other boxes keep their
    order and no box is modified. *)
Theorem delete_removes_first_equal_box (c : CanvasWidget) (sel r0 : Ref)
    (pre post : list Ref) :
  _selected_box c = Some sel ->
  _boxes c = pre ++ r0 :: post ->
  r0 = sel \/ heap c r0 = heap c sel ->
  (forall e : Ref, e ∈ pre -> e <> sel /\ heap c e <> heap c sel) ->
  let c' := keyPressEvent c Key_Delete in
  _boxes c' = pre ++ post /\ _selected_box c' = None /\
  boxes_changed c' = S (boxes_changed c) /\
  (forall r : Ref, heap c' r = heap c r).
Proof.
  intros Hsel Hboxes Hr0 Hpre.
  destruct (py_remove_first (heap c) sel r0 pre post) as [Hin Hrem].
  - unfold py_same. destruct Hr0 as [-> | ->].
    + by rewrite bool_decide_eq_true_2.
    + rewrite (bool_decide_eq_true_2 (_ = heap c sel)) by done.
      apply orb_true_r.
  - apply Forall_forall. intros e He.
    destruct (Hpre e He). by apply py_same_false.
  - unfold keyPressEvent. rewrite Hsel, Hboxes, Hin. simpl.
    by rewrite Hrem.
Qed.

Lemma delete_removes_first_equal_box_witness :
  let c' := keyPressEvent two_boxes_canvas Key_Delete in
  _boxes c' = [0%nat] ++ [] /\ _selected_box c' = None /\
  boxes_changed c' = S (boxes_changed two_boxes_canvas) /\
  (forall r : Ref, heap c' r = heap two_boxes_canvas r).
Proof.
  apply (delete_removes_first_equal_box two_boxes_canvas 1%nat 1%nat
           [0%nat] []).
  - reflexivity.
  - reflexivity.
  - left. reflexivity.
  - intros e He. apply list_elem_of_singleton in He as ->.
    split; [done |]. apply (bool_decide_unpack _). by vm_compute.
Defined.

(** X5. Boxes are compared by value when the selected box is deleted: if a
    box with the same class and coordinates stands earlier in the store,
    that earlier box is the one removed, and the selected object itself
    stays in the store (the selection is cleared all the same). *)
Theorem delete_with_equal_box_keeps_selected (c : CanvasWidget)
    (sel r0 : Ref) (pre mid post : list Ref) :
  _selected_box c = Some sel ->
  _boxes c = pre ++ r0 :: mid ++ sel :: post ->
  r0 <> sel -> heap c r0 = heap c sel ->
  (forall e : Ref, e ∈ pre -> e <> sel /\ heap c e <> heap c sel) ->
  let c' := keyPressEvent c Key_Delete in
  _boxes c' = pre ++ mid ++ sel :: post /\ sel ∈ _boxes c' /\
  _selected_box c' = None.
Proof.
  intros Hsel Hboxes Hne Heq Hpre.
  destruct (py_remove_first (heap c) sel r0 pre (mid ++ sel :: post))
    as [Hin Hrem].
  - unfold py_same. rewrite (bool_decide_eq_true_2 (_ = heap c sel)) by done.
    apply orb_true_r.
  - apply Forall_forall. intros e He.
    destruct (Hpre e He). by apply py_same_false.
  - unfold keyPressEvent. rewrite Hsel, Hboxes, Hin. simpl. rewrite Hrem.
    repeat split. rewrite !elem_of_app, elem_of_cons. auto.
Qed.

Lemma delete_with_equal_box_keeps_selected_witness :
  let c' := keyPressEvent twin_boxes_canvas Key_Delete in
  _boxes c' = [] ++ [] ++ 1%nat :: [] /\ 1%nat ∈ _boxes c' /\
  _selected_box c' = None.
Proof.
  apply (delete_with_equal_box_keeps_selected twin_boxes_canvas 1%nat 0%nat
           [] [] []).
  - reflexivity.
  - reflexivity.
  - done.
  - apply (bool_decide_unpack _). by vm_compute.
  - intros e He. by apply elem_of_nil in He.
Defined.

(** ** Resize handles *)

(** An edge handle is only returned within the span of its edge. *)
Lemma edge_handle_in_span (c : CanvasWidget) (pos : QPointF)
    (box : BoundingBox) (hd : Handle) :
  _get_handle_at c pos box = Some (Some hd) ->
  (hd = H_l \/ hd = H_r -> y1 box <= pt_y pos <= y2 box) /\
  (hd = H_t \/ hd = H_b -> x1 box <= pt_x pos <= x2 box).
Proof.
  unfold _get_handle_at. case_bool_decide as Hs; [done |]. intros H.
  injection H as H.
  repeat match type of H with
         | context [bool_decide ?P] =>
             destruct (bool_decide_reflect P); simpl in H
         end;
    simplify_eq; split; intros; try done; destruct_or!; done.
Qed.

(** X6. When [_get_handle_at] returns a handle, the pointer is within the
    threshold [_handle_size / _scale] of every edge the handle stands on,
    and for an edge handle it lies within the span of that edge. *)
Theorem handle_at_sound (c : CanvasWidget) (pos : QPointF)
    (box : BoundingBox) (hd : Handle) :
  _get_handle_at c pos box = Some (Some hd) ->
  let threshold := Qc_of_Z (_handle_size c) / _scale c in
  _scale c <> 0 /\
  (on_left hd = true -> Qcabs (pt_x pos - x1 box) < threshold) /\
  (on_right hd = true -> Qcabs (pt_x pos - x2 box) < threshold) /\
  (on_top hd = true -> Qcabs (pt_y pos - y1 box) < threshold) /\
  (on_bottom hd = true -> Qcabs (pt_y pos - y2 box) < threshold) /\
  (hd = H_l \/ hd = H_r -> y1 box <= pt_y pos <= y2 box) /\
  (hd = H_t \/ hd = H_b -> x1 box <= pt_x pos <= x2 box).
Proof.
  unfold _get_handle_at. case_bool_decide as Hs; [done |]. intros H.
  injection H as H. simpl. split; [done |].
  repeat match type of H with
         | context [bool_decide ?P] =>
             destruct (bool_decide_reflect P); simpl in H
         end;
    simplify_eq; simpl; repeat split; intros; try done;
    try (split; done); destruct_or!; done.
Qed.

Lemma handle_at_sound_witness :
  let threshold :=
    Qc_of_Z (_handle_size selected_canvas) / _scale selected_canvas in
  _scale selected_canvas <> 0 /\
  (on_left H_l = true ->
   Qcabs (pt_x (pt 2 50) - x1 (box_at 0 0 0 100 100)) < threshold) /\
  (on_right H_l = true ->
   Qcabs (pt_x (pt 2 50) - x2 (box_at 0 0 0 100 100)) < threshold) /\
  (on_top H_l = true ->
   Qcabs (pt_y (pt 2 50) - y1 (box_at 0 0 0 100 100)) < threshold) /\
  (on_bottom H_l = true ->
   Qcabs (pt_y (pt 2 50) - y2 (box_at 0 0 0 100 100)) < threshold) /\
  (H_l = H_l \/ H_l = H_r ->
   y1 (box_at 0 0 0 100 100) <= pt_y (pt 2 50) <= y2 (box_at 0 0 0 100 100)) /\
  (H_l = H_t \/ H_l = H_b ->
   x1 (box_at 0 0 0 100 100) <= pt_x (pt 2 50) <= x2 (box_at 0 0 0 100 100)).
Proof.
  apply (handle_at_sound selected_canvas (pt 2 50) (box_at 0 0 0 100 100) H_l).
  reflexivity.
Defined.

(** X7. A box that a resize has turned over ([y2 < y1]) cannot be grabbed by
    its left or right edge, and one with [x2 < x1] cannot be grabbed by its
    top or bottom edge: only the corner handles are left on that axis. *)
Theorem inverted_box_has_no_side_handle (c : CanvasWidget) (pos : QPointF)
    (box : BoundingBox) (hd : Handle) :
  _get_handle_at c pos box = Some (Some hd) ->
  (y2 box < y1 box -> hd <> H_l /\ hd <> H_r) /\
  (x2 box < x1 box -> hd <> H_t /\ hd <> H_b).
Proof.
  intros H. destruct (edge_handle_in_span c pos box hd H) as [Hv Hh].
  split; intros Hinv.
  - assert (~ (hd = H_l \/ hd = H_r)); [| tauto].
    intros Hhd. destruct (Hv Hhd) as [H1 H2].
    apply (Qcle_not_lt _ _ (Qcle_trans _ _ _ H1 H2) Hinv).
  - assert (~ (hd = H_t \/ hd = H_b)); [| tauto].
    intros Hhd. destruct (Hh Hhd) as [H1 H2].
    apply (Qcle_not_lt _ _ (Qcle_trans _ _ _ H1 H2) Hinv).
Qed.

Lemma inverted_box_has_no_side_handle_witness :
  (y2 (box_at 0 0 100 100 0) < y1 (box_at 0 0 100 100 0) ->
   H_tl <> H_l /\ H_tl <> H_r) /\
  (x2 (box_at 0 0 100 100 0) < x1 (box_at 0 0 100 100 0) ->
   H_tl <> H_t /\ H_tl <> H_b).
Proof.
  apply (inverted_box_has_no_side_handle selected_canvas (pt 1 99)
           (box_at 0 0 100 100 0) H_tl).
  reflexivity.
Defined.

(** ** Resizing the selected box *)

Lemma press_on_handle (c : CanvasWidget) (ev : QMouseEvent) (sel : Ref)
    (q : QPointF) (hd : Handle) :
  _mode c = SELECT -> ev_button ev = LeftButton ->
  _selected_box c = Some sel ->
  _to_image_coords c (ev_position ev) = Some q ->
  _get_handle_at c q (heap c sel) = Some (Some hd) ->
  mousePressEvent c ev =
    Some (with_resize_handle (Some hd) (with_resizing true c)).
Proof.
  intros Hm Hb Hsel Hq Hh. unfold mousePressEvent.
  rewrite Hm, Hb, Hq. simpl. by rewrite Hsel, Hh.
Qed.

(** X8. A resize gesture in SELECT mode: a press of the primary button on a
    handle of the selected box, a move to the image point [p] and a release.
    The press only sets the resize state: it changes neither the selection
    nor the store nor any box and emits nothing.  The move emits
    [boxes_changed] once and the release emits nothing.  After the gesture
    each edge the handle stands on is at the coordinate of [p] and the other
    edges are where they were (so the box may end up turned over), class and
    confidence are kept, no other box has changed, the resize and drag
    state are cleared, and [boxes_changed] was emitted exactly once. *)
Theorem resize_gesture (c : CanvasWidget) (press move release : QMouseEvent)
    (sel : Ref) (hd : Handle) (q p : QPointF) :
  _mode c = SELECT ->
  ev_button press = LeftButton -> ev_button release = LeftButton ->
  _selected_box c = Some sel ->
  _to_image_coords c (ev_position press) = Some q ->
  _get_handle_at c q (heap c sel) = Some (Some hd) ->
  _to_image_coords c (ev_position move) = Some p ->
  exists c1 c2 c',
    mousePressEvent c press = Some c1 /\
    mouseMoveEvent c1 move = Some c2 /\
    mouseReleaseEvent c2 release = c' /\
    run_events c [MousePress press; MouseMove move; MouseRelease release]
    = Some c' /\
    _selected_box c1 = _selected_box c /\ _boxes c1 = _boxes c /\
    heap c1 = heap c /\ next_ref c1 = next_ref c /\
    boxes_changed c1 = boxes_changed c /\
    _resizing c1 = true /\ _resize_handle c1 = Some hd /\
    boxes_changed c2 = S (boxes_changed c) /\
    x1 (heap c' sel) = (if on_left hd then pt_x p else x1 (heap c sel)) /\
    x2 (heap c' sel) = (if on_right hd then pt_x p else x2 (heap c sel)) /\
    y1 (heap c' sel) = (if on_top hd then pt_y p else y1 (heap c sel)) /\
    y2 (heap c' sel) = (if on_bottom hd then pt_y p else y2 (heap c sel)) /\
    class_id (heap c' sel) = class_id (heap c sel) /\
    confidence (heap c' sel) = confidence (heap c sel) /\
    (forall r : Ref, r <> sel -> heap c' r = heap c r) /\
    _boxes c' = _boxes c /\ _selected_box c' = Some sel /\
    _resizing c' = false /\ _resize_handle c' = None /\
    _dragging c' = false /\
    boxes_changed c' = S (boxes_changed c).
Proof.
  intros Hm Hb1 Hb3 Hsel Hq Hh Hp.
  pose proof (press_on_handle c press sel q hd Hm Hb1 Hsel Hq Hh) as Hpress.
  set (c1 := with_resize_handle _ _) in Hpress.
  assert (Hmove : mouseMoveEvent c1 move
                  = Some (emit_boxes_changed (_resize_box c1 sel hd p))).
  { unfold mouseMoveEvent.
    change (_mode c1) with (_mode c). rewrite Hm.
    change (_resizing c1) with true.
    change (_selected_box c1) with (_selected_box c). rewrite Hsel.
    change (_resize_handle c1) with (Some hd).
    change (_to_image_coords c1 (ev_position move))
      with (_to_image_coords c (ev_position move)).
    by rewrite Hp. }
  set (c2 := emit_boxes_changed _) in Hmove.
  exists c1, c2, (mouseReleaseEvent c2 release).
  split; [exact Hpress |]. split; [exact Hmove |]. split; [reflexivity |].
  split.
  { cbn [run_events dispatch mbind option_bind]. rewrite Hpress.
    cbn [mbind option_bind]. by rewrite Hmove. }
  do 7 (split; [reflexivity |]).
  split; [reflexivity |].
  unfold mouseReleaseEvent. rewrite Hb3.
  change (_mode c2) with (_mode c). rewrite Hm.
  change (bool_decide (SELECT = MARK)) with false.
  change (bool_decide (SELECT = SELECT)) with true.
  cbn [andb].
  set (c3 := with_resize_handle None _).
  assert (Hfin : forall c4 : CanvasWidget,
            c4 = (if _panning c3 then with_panning false c3 else c3) ->
            heap c4 = heap c2 /\ _boxes c4 = _boxes c /\
            _selected_box c4 = Some sel /\ _resizing c4 = false /\
            _resize_handle c4 = None /\ _dragging c4 = false /\
            boxes_changed c4 = S (boxes_changed c)).
  { intros c4 ->. destruct (_panning c3); by repeat split. }
  destruct (Hfin _ eq_refl) as (-> & -> & -> & -> & -> & -> & ->).
  unfold c2, c1. simpl.
  rewrite heap_update_same.
  repeat split; try (by destruct hd).
  intros r Hr. by apply heap_update_other.
Qed.

Lemma resize_gesture_witness :
  exists c1 c2 c',
    mousePressEvent selected_canvas (left_at 1 1) = Some c1 /\
    mouseMoveEvent c1 (move_to 5 5) = Some c2 /\
    mouseReleaseEvent c2 (left_at 5 5) = c' /\
    run_events selected_canvas
      [MousePress (left_at 1 1); MouseMove (move_to 5 5);
       MouseRelease (left_at 5 5)]
    = Some c' /\
    _selected_box c1 = _selected_box selected_canvas /\
    _boxes c1 = _boxes selected_canvas /\
    heap c1 = heap selected_canvas /\
    next_ref c1 = next_ref selected_canvas /\
    boxes_changed c1 = boxes_changed selected_canvas /\
    _resizing c1 = true /\ _resize_handle c1 = Some H_tl /\
    boxes_changed c2 = S (boxes_changed selected_canvas) /\
    x1 (heap c' 0%nat)
    = (if on_left H_tl then pt_x (pt 5 5)
       else x1 (heap selected_canvas 0%nat)) /\
    x2 (heap c' 0%nat)
    = (if on_right H_tl then pt_x (pt 5 5)
       else x2 (heap selected_canvas 0%nat)) /\
    y1 (heap c' 0%nat)
    = (if on_top H_tl then pt_y (pt 5 5)
       else y1 (heap selected_canvas 0%nat)) /\
    y2 (heap c' 0%nat)
    = (if on_bottom H_tl then pt_y (pt 5 5)
       else y2 (heap selected_canvas 0%nat)) /\
    class_id (heap c' 0%nat) = class_id (heap selected_canvas 0%nat) /\
    confidence (heap c' 0%nat) = confidence (heap selected_canvas 0%nat) /\
    (forall r : Ref, r <> 0%nat -> heap c' r = heap selected_canvas r) /\
    _boxes c' = _boxes selected_canvas /\ _selected_box c' = Some 0%nat /\
    _resizing c' = false /\ _resize_handle c' = None /\
    _dragging c' = false /\
    boxes_changed c' = S (boxes_changed selected_canvas).
Proof.
  apply (resize_gesture selected_canvas (left_at 1 1) (move_to 5 5)
           (left_at 5 5) 0%nat H_tl (pt 1 1) (pt 5 5)).
  - reflexivity.
  - reflexivity.
  - reflexivity.
  - reflexivity.
  - by_evaluation.
  - reflexivity.
  - by_evaluation.
Defined.

(** ** Direction of a zoom *)

Lemma py_min_le_l (a b : Qc) : py_min a b <= a.
Proof.
  unfold py_min. case_bool_decide as H.
  - by apply Qclt_le_weak.
  - apply Qcle_refl.
Qed.

Lemma py_min_ge (a b l : Qc) : l <= a -> l <= b -> l <= py_min a b.
Proof. intros Ha Hb. unfold py_min. by case_bool_decide. Qed.

Lemma py_max_ge_r (a b : Qc) : b <= py_max a b.
Proof.
  unfold py_max. case_bool_decide as H.
  - apply Qcle_refl.
  - by apply Qcnot_lt_le.
Qed.

Lemma Q2Qc_one : Q2Qc 1.0 = 1.
Proof. by apply Qc_is_canon. Qed.

Lemma zoom_factor_ge_1 (delta : Z) :
  (0 <= delta)%Z -> 1 <= Q2Qc 1.0 + Qc_of_Z delta / Q2Qc 1200.
Proof.
  intros Hd. rewrite Q2Qc_one.
  rewrite <- (Qcplus_0_r 1) at 1. apply Qcplus_le_mono_l.
  apply Qcmult_nonneg_nonneg; [| by_evaluation].
  rewrite <- Z2Qc_inj_0. by apply (proj1 (Z2Qc_inj_le 0 delta)).
Qed.

Lemma zoom_factor_le_1 (delta : Z) :
  (delta <= 0)%Z -> Q2Qc 1.0 + Qc_of_Z delta / Q2Qc 1200 <= 1.
Proof.
  intros Hd. rewrite Q2Qc_one.
  rewrite <- (Qcplus_0_r 1) at 2. apply Qcplus_le_mono_l.
  unfold Qcdiv. rewrite <- (Qcmult_0_l (/ Q2Qc 1200)).
  apply Qcmult_le_mono_nonneg_r; [by_evaluation |].
  rewrite <- Z2Qc_inj_0. by apply (proj1 (Z2Qc_inj_le delta 0)).
Qed.

(** X9. With the scale in [[0.1, 10.0]], outside MARK mode: a wheel event
    with a non-negative delta never lowers the scale, one with a
    non-positive delta never raises it, and one with delta 0 leaves both the
    scale and the offset as they were. *)
Theorem zoom_direction (c : CanvasWidget) (ev : QWheelEvent) :
  scale_in_range c -> _mode c <> MARK ->
  exists c', wheelEvent c ev = Some c' /\
    ((0 <= ev_angleDelta_y ev)%Z -> _scale c <= _scale c') /\
    ((ev_angleDelta_y ev <= 0)%Z -> _scale c' <= _scale c) /\
    (ev_angleDelta_y ev = 0%Z ->
     _scale c' = _scale c /\ _offset c' = _offset c).
Proof.
  intros Hr Hm. pose proof (scale_in_range_nonzero c Hr) as Hs.
  destruct Hr as [Hlo Hhi].
  assert (Hpos : 0 <= _scale c)
    by (apply (Qcle_trans _ (Q2Qc 0.1)); [by_evaluation | done]).
  destruct (wheelEvent_zooming c ev Hm Hs) as (c' & Hc' & Hs' & Himg).
  set (f := Q2Qc 1.0 + _) in Hs'.
  assert (Hup : (0 <= ev_angleDelta_y ev)%Z -> _scale c <= _scale c').
  { intros Hd. rewrite Hs'.
    eapply Qcle_trans; [| apply py_max_ge_r].
    apply py_min_ge; [| done].
    rewrite <- (Qcmult_1_r (_scale c)) at 1.
    apply Qcmult_le_mono_nonneg_l; [done | by apply zoom_factor_ge_1]. }
  assert (Hdown : (ev_angleDelta_y ev <= 0)%Z -> _scale c' <= _scale c).
  { intros Hd. rewrite Hs'. apply py_max_le; [done |].
    eapply Qcle_trans; [apply py_min_le_l |].
    rewrite <- (Qcmult_1_r (_scale c)) at 2.
    apply Qcmult_le_mono_nonneg_l; [done | by apply zoom_factor_le_1]. }
  exists c'. do 3 (split; [done |]). intros Hd.
  assert (Heq : _scale c' = _scale c)
    by (apply Qcle_antisym; [apply Hdown | apply Hup]; lia).
  split; [done |].
  rewrite !to_image_coords_Some in Himg by congruence.
  rewrite Heq in Himg. apply (inj Some) in Himg.
  pose proof (f_equal pt_x Himg) as Hx. pose proof (f_equal pt_y Himg) as Hy.
  simpl in Hx, Hy.
  apply QPointF_eq.
  - replace (pt_x (_offset c'))
        with (pt_x (ev_wheel_position ev)
            - (pt_x (ev_wheel_position ev) - pt_x (_offset c')) / _scale c
              * _scale c) by (field; done).
    rewrite Hx. field. done.
  - replace (pt_y (_offset c'))
      with (pt_y (ev_wheel_position ev)
            - (pt_y (ev_wheel_position ev) - pt_y (_offset c')) / _scale c
              * _scale c) by (field; done).
    rewrite Hy. field. done.
Qed.

Lemma zoom_direction_witness :
  exists c', wheelEvent zoomed_canvas (wheel_at 120 30 20) = Some c' /\
    ((0 <= ev_angleDelta_y (wheel_at 120 30 20))%Z ->
     _scale zoomed_canvas <= _scale c') /\
    ((ev_angleDelta_y (wheel_at 120 30 20) <= 0)%Z ->
     _scale c' <= _scale zoomed_canvas) /\
    (ev_angleDelta_y (wheel_at 120 30 20) = 0%Z ->
     _scale c' = _scale zoomed_canvas /\ _offset c' = _offset zoomed_canvas).
Proof.
  apply (zoom_direction zoomed_canvas (wheel_at 120 30 20)).
  - split; done.
  - done.
Defined.

(** ** The store and the selection *)

Lemma find_box_at_elem (hp : Ref -> BoundingBox) (pos : QPointF)
    (boxes : list Ref) (r : Ref) :
  find_box_at hp pos boxes = Some r -> r ∈ boxes.
Proof.
  induction boxes as [| e boxes IH]; simpl; [done |].
  destruct (contains _ _).
  - intros [= ->]. apply elem_of_cons. by left.
  - intros H. apply elem_of_cons. right. by apply IH.
Qed.

Lemma store_wf_frame (c c' : CanvasWidget) :
  _boxes c' = _boxes c -> next_ref c' = next_ref c ->
  _selected_box c' = _selected_box c -> store_wf c -> store_wf c'.
Proof. unfold store_wf. by intros -> -> ->. Qed.

Lemma select_box_at_store (c : CanvasWidget) (pos : QPointF) :
  store_wf c -> store_wf (select_box_at c pos).
Proof.
  intros (Hnd & Hlt & _). unfold store_wf, select_box_at. simpl.
  destruct (find_box_at (heap c) pos (_boxes c)) as [r |] eqn:Hf; simpl.
  - repeat split; [done .. |]. intros r' [= <-].
    by eapply find_box_at_elem.
  - by repeat split.
Qed.

Lemma mousePressEvent_store (c c' : CanvasWidget) (ev : QMouseEvent) :
  store_wf c -> mousePressEvent c ev = Some c' -> store_wf c'.
Proof.
  intros Hwf. pose proof (select_box_at_store c) as Hsel.
  unfold mousePressEvent. intros H.
  repeat (first
    [ done
    | match goal with
      | H : Some _ = Some _ |- _ => injection H as <-
      | |- store_wf (select_box_at _ _) => apply Hsel; done
      end
    | progress simplify_option_eq
    | case_match ]).
Qed.

Lemma mouseMoveEvent_store (c c' : CanvasWidget) (ev : QMouseEvent) :
  store_wf c -> mouseMoveEvent c ev = Some c' -> store_wf c'.
Proof.
  intros Hwf H.
  assert (Hframe : _boxes c' = _boxes c /\ next_ref c' = next_ref c /\
                   _selected_box c' = _selected_box c).
  { revert H. unfold mouseMoveEvent, pan_by, _resize_box. intros H.
    repeat (first
      [ done
      | progress simplify_option_eq
      | case_match
      | progress simpl in * ]). }
  destruct Hframe as (Hb & Hn & Hs). unfold store_wf.
  by rewrite Hb, Hn, Hs.
Qed.

Lemma commit_store (c : CanvasWidget) (b : BoundingBox) :
  store_wf c ->
  let c1 := snd (new_BoundingBox b c) in
  store_wf (with_boxes (_boxes c1 ++ [next_ref c]) c1).
Proof.
  intros (Hnd & Hlt & Hsel). unfold store_wf. simpl. repeat split.
  - apply NoDup_app. repeat split; [done | | apply NoDup_singleton].
    intros r Hr ->%list_elem_of_singleton. specialize (Hlt _ Hr). lia.
  - intros r [Hr | ->%list_elem_of_singleton]%elem_of_app; [| lia].
    specialize (Hlt _ Hr). lia.
  - intros r Hr. apply elem_of_app. left. by apply Hsel.
Qed.

Lemma mouseReleaseEvent_store (c : CanvasWidget) (ev : QMouseEvent) :
  store_wf c -> store_wf (mouseReleaseEvent c ev).
Proof.
  intros Hwf. unfold mouseReleaseEvent.
  assert (Hpan : forall c1 : CanvasWidget,
            store_wf c1 ->
            store_wf (if _panning c1 then with_panning false c1 else c1)).
  { intros c1 H1. destruct (_panning c1); [| done].
    by apply (store_wf_frame c1). }
  destruct (ev_button ev); [| by apply Hpan | done].
  apply Hpan.
  destruct (bool_decide (_mode c = MARK) && _dragging c).
  - simpl. destruct (_current_rect c) as [rect |]; simpl.
    + apply (store_wf_frame
               (with_boxes
                  (_boxes (snd (new_BoundingBox (box_of_rect 0 (normalized rect)) c))
                   ++ [next_ref c])
                  (snd (new_BoundingBox (box_of_rect 0 (normalized rect)) c))));
        [done .. |].
      by apply commit_store.
    + by apply (store_wf_frame c).
  - destruct (bool_decide (_mode c = SELECT)); [| done].
    by apply (store_wf_frame c).
Qed.

Lemma wheelEvent_store (c c' : CanvasWidget) (ev : QWheelEvent) :
  store_wf c -> wheelEvent c ev = Some c' -> store_wf c'.
Proof.
  unfold wheelEvent. intros Hwf H.
  destruct (bool_decide (_mode c = NAVIGATE) || bool_decide (_mode c = SELECT));
    [| by injection H as <-].
  destruct (_to_image_coords c _) as [old_pos |]; [| done].
  cbn [mbind option_bind] in H.
  destruct (_to_image_coords _ _) as [new_pos |]; [| done].
  cbn [mbind option_bind] in H.
  by injection H as <-.
Qed.

Lemma keyPressEvent_store (c : CanvasWidget) (key : Key) :
  store_wf c -> store_wf (keyPressEvent c key).
Proof.
  intros Hwf. unfold keyPressEvent.
  destruct key, (_selected_box c) as [sel |] eqn:Hs; try done.
  destruct Hwf as (Hnd & Hlt & Hsel).
  pose proof (py_remove_sublist (heap c) sel (_boxes c)) as Hsub.
  destruct (py_in _ _ _); unfold store_wf; simpl.
  - split; [by eapply sublist_NoDup |]. split; [| done].
    intros r Hr. apply Hlt. by eapply elem_of_sublist.
  - by repeat split.
Qed.

Lemma dispatch_store (c c' : CanvasWidget) (e : Event) :
  store_wf c -> dispatch c e = Some c' -> store_wf c'.
Proof.
  intros Hwf. destruct e; simpl; intros H.
  - by eapply mousePressEvent_store.
  - by eapply mouseMoveEvent_store.
  - injection H as <-. by apply mouseReleaseEvent_store.
  - by eapply wheelEvent_store.
  - injection H as <-. by apply keyPressEvent_store.
  - by injection H as <-.
  - by injection H as <-.
Qed.

(** X10. Whatever events and calls of [set_mode] and [load_image] a canvas
    receives, its store keeps its shape: the boxes of [_boxes] are distinct
    objects, none of them is an object yet to be created, and the selected
    box, when there is one, is in [_boxes].  The initial canvas has such a
    store. *)
Theorem store_invariant (c c' : CanvasWidget) (es : list Event) :
  store_wf c -> run_events c es = Some c' -> store_wf c'.
Proof.
  revert c. induction es as [| e es IH]; simpl; intros c Hwf H.
  - by injection H as <-.
  - destruct (dispatch c e) as [c1 |] eqn:He; [| done].
    apply (IH c1); [| done]. by eapply dispatch_store.
Qed.

Lemma store_wf_init : store_wf CanvasWidget_init.
Proof.
  repeat split; simpl.
  - apply NoDup_nil_2.
  - intros r Hr. by apply elem_of_nil in Hr.
  - done.
Qed.

Lemma store_invariant_witness : store_wf drawn_canvas.
Proof.
  apply (store_invariant CanvasWidget_init drawn_canvas draw_then_select).
  - apply store_wf_init.
  - vm_compute. reflexivity.
Defined.

Example drawn_canvas_selected : _selected_box drawn_canvas = Some 0%nat.
Proof. vm_compute. reflexivity. Qed.

(** X11. Under that shape of the store, the release that commits a drawn
    rectangle creates a box that is none of the existing ones: every box of
    the store keeps its place in the list, its class and its coordinates,
    and the new box comes last. *)
Theorem commit_leaves_existing_boxes (c : CanvasWidget) (ev : QMouseEvent)
    (rect : QRectF) :
  store_wf c ->
  _mode c = MARK -> _dragging c = true -> _current_rect c = Some rect ->
  ev_button ev = LeftButton ->
  let c' := mouseReleaseEvent c ev in
  (forall (i : nat) (r : Ref),
     _boxes c !! i = Some r ->
     _boxes c' !! i = Some r /\ heap c' r = heap c r) /\
  _boxes c' !! length (_boxes c) = Some (next_ref c) /\
  (next_ref c ∉ _boxes c) /\
  length (_boxes c') = S (length (_boxes c)).
Proof.
  intros (Hnd & Hlt & _) Hm Hd Hr Hb.
  destruct (mark_release c ev rect Hm Hd Hr Hb)
    as (Hboxes & _ & Hold & _).
  simpl. rewrite Hboxes. repeat split.
  - by apply lookup_app_l_Some.
  - apply Hold. intros ->.
    assert (next_ref c ∈ _boxes c) as Hin%Hlt by (by eapply list_elem_of_lookup_2).
    lia.
  - rewrite lookup_app_r by done. by rewrite Nat.sub_diag.
  - intros Hin%Hlt. lia.
  - rewrite length_app. simpl. lia.
Qed.

Lemma store_wf_two_boxes : store_wf two_boxes_canvas.
Proof.
  repeat split; simpl.
  - apply (bool_decide_unpack _). by vm_compute.
  - intros r Hr. repeat (apply elem_of_cons in Hr as [-> | Hr]); [lia | lia |].
    by apply elem_of_nil in Hr.
  - intros r [= <-]. apply elem_of_cons. right. apply elem_of_cons. by left.
Qed.

Lemma commit_leaves_existing_boxes_witness :
  let c := with_current_rect (Some (QRectF_of_corners (pt 60 60) (pt 90 90)))
             (with_dragging true (set_mode two_boxes_canvas MARK)) in
  let c' := mouseReleaseEvent c (left_at 90 90) in
  (forall (i : nat) (r : Ref),
     _boxes c !! i = Some r ->
     _boxes c' !! i = Some r /\ heap c' r = heap c r) /\
  _boxes c' !! length (_boxes c) = Some (next_ref c) /\
  (next_ref c ∉ _boxes c) /\
  length (_boxes c') = S (length (_boxes c)).
Proof.
  apply (commit_leaves_existing_boxes
           (with_current_rect
              (Some (QRectF_of_corners (pt 60 60) (pt 90 90)))
              (with_dragging true (set_mode two_boxes_canvas MARK)))
           (left_at 90 90) (QRectF_of_corners (pt 60 60) (pt 90 90))).
  - apply (store_wf_frame two_boxes_canvas); [reflexivity .. |].
    apply store_wf_two_boxes.
  - reflexivity.
  - reflexivity.
  - reflexivity.
  - reflexivity.
Defined.

(** * Further properties of the batch worker *)

Lemma process_images_not_terminal (process_image : string -> bool)
    (progress_pct : nat -> nat -> Z) (total i : nat) (images : list string) :
  Forall (fun e => terminal e = false)
    (process_images process_image progress_pct total i images).
Proof.
  revert i. induction images as [| img rest IH]; intros i; simpl.
  - constructor.
  - constructor; [done |]. apply Forall_app. split; [| apply IH].
    destruct (process_image img); by repeat constructor.
Qed.

(** X12. Every run of the worker ends with exactly one terminal
    notification, [finished] or [error], and it is the last thing the worker
    does: nothing is emitted, loaded or processed after it, whatever the
    directory holds and whatever the collaborators do. *)
Theorem run_ends_with_one_terminal (load_model : option string)
    (process_image : string -> bool) (progress_pct : nat -> nat -> Z)
    (image_dir : list string) :
  exists (before : list Effect) (last : Effect),
    run load_model process_image progress_pct image_dir = before ++ [last] /\
    terminal last = true /\
    Forall (fun e => terminal e = false) before.
Proof.
  unfold run. case_bool_decide.
  - exists [], (Emit_error "No images found in the selected folder.").
    by repeat split.
  - destruct load_model as [msg |].
    + exists [Emit_progress_updated 0; Load_model],
        (Emit_error ("Auto-labeling failed: " +:+ msg)).
      repeat split. by repeat constructor.
    + eexists (Emit_progress_updated 0 :: Load_model
               :: Emit_progress_updated 5
               :: process_images process_image progress_pct _ 1 _
               ++ [Emit_progress_updated 100]), Emit_finished.
      split; [| split; [done |]].
      * simpl. do 3 f_equal. by rewrite <- app_assoc.
      * do 3 (constructor; [done |]). apply Forall_app.
        split; [apply process_images_not_terminal | by repeat constructor].
Qed.

Lemma processed_process_images (process_image : string -> bool)
    (progress_pct : nat -> nat -> Z) (total i : nat) (images : list string) :
  processed (process_images process_image progress_pct total i images)
  = images /\
  warned (process_images process_image progress_pct total i images)
  = filter (fun p => process_image p = false) images.
Proof.
  revert i. induction images as [| img rest IH]; intros i; [done |].
  destruct (IH (S i)) as [IHp IHw].
  unfold processed, warned in *. rewrite filter_cons. simpl.
  destruct (process_image img) eqn:Hp; simpl.
  - split; [f_equal; exact IHp | exact IHw].
  - split; [f_equal; exact IHp | f_equal; exact IHw].
Qed.

(** X13. When the model loads and the globs find at least one image, every
    image found is handed to inference exactly once, in the order of the
    three sorted lists, also after an image has failed: the failures are
    logged, one warning per failing image, and the run ends with
    [finished]. *)
Theorem run_processes_every_image (process_image : string -> bool)
    (progress_pct : nat -> nat -> Z) (image_dir : list string) :
  found_images image_dir <> [] ->
  let effects := run None process_image progress_pct image_dir in
  processed effects = found_images image_dir /\
  warned effects
  = filter (fun p => process_image p = false) (found_images image_dir) /\
  last effects = Some Emit_finished.
Proof.
  intros Hne. unfold run. fold (found_images image_dir).
  rewrite bool_decide_eq_false_2
    by (intros Hlen; by apply nil_length_inv in Hlen).
  set (ps := process_images _ _ _ _ _).
  destruct (processed_process_images process_image progress_pct
              (length (found_images image_dir)) 1 (found_images image_dir))
    as [Hp Hw].
  fold ps in Hp, Hw. unfold processed, warned in *. simpl.
  rewrite !omap_app, Hp, Hw. simpl. rewrite !app_nil_r.
  repeat split.
  rewrite !last_cons, last_app. simpl. by destruct (last ps).
Qed.

Lemma run_processes_every_image_witness :
  let effects :=
    run None (fun p => String.eqb p "a.jpg") (fun _ _ => 0%Z)
      ["b.png"; "notes.txt"; "a.jpg"; "c.jpeg"] in
  processed effects = found_images ["b.png"; "notes.txt"; "a.jpg"; "c.jpeg"] /\
  warned effects
  = filter (fun p => String.eqb p "a.jpg" = false)
      (found_images ["b.png"; "notes.txt"; "a.jpg"; "c.jpeg"]) /\
  last effects = Some Emit_finished.
Proof.
  apply (run_processes_every_image (fun p => String.eqb p "a.jpg")
           (fun _ _ => 0%Z) ["b.png"; "notes.txt"; "a.jpg"; "c.jpeg"]).
  done.
Defined.

Example run_with_failures :
  warned
    (run None (fun p => String.eqb p "a.jpg") (fun _ _ => 0%Z)
       ["b.png"; "notes.txt"; "a.jpg"; "c.jpeg"])
  = ["b.png"; "c.jpeg"]%list.
Proof. reflexivity. Qed.

(** ** The images a run finds *)

Lemma insert_sorted_perm (name : string) (l : list string) :
  insert_sorted name l ≡ₚ name :: l.
Proof.
  induction l as [| n l IH]; simpl; [done |].
  destruct (String.leb name n); [done |].
  rewrite IH. apply perm_swap.
Qed.

Lemma sorted_perm (l : list string) : sorted l ≡ₚ l.
Proof.
  induction l as [| n l IH]; simpl; [done |].
  by rewrite insert_sorted_perm, IH.
Qed.

Lemma prefix_cons_inv (a : Ascii.ascii) (s r : string) :
  String.prefix (String a s) r = true ->
  exists r', r = String a r' /\ String.prefix s r' = true.
Proof.
  destruct r as [| b r]; simpl; [done |].
  destruct (Ascii.ascii_dec a b) as [-> |]; [| done]. eauto.
Qed.

(** No name ends in two of the three suffixes. *)
Lemma suffixes_exclusive (name : string) :
  (has_suffix ".jpg" name = true -> has_suffix ".png" name = false) /\
  (has_suffix ".jpg" name = true -> has_suffix ".jpeg" name = false) /\
  (has_suffix ".png" name = true -> has_suffix ".jpeg" name = false).
Proof.
  unfold has_suffix.
  change (String.rev ".jpg") with "gpj."%string.
  change (String.rev ".png") with "gnp."%string.
  change (String.rev ".jpeg") with "gepj."%string.
  repeat split; intros H;
    apply prefix_cons_inv in H as (r1 & -> & H);
    apply prefix_cons_inv in H as (r2 & -> & H); done.
Qed.

Lemma elem_of_glob (suffix name : string) (dir : list string) :
  name ∈ glob suffix dir <-> name ∈ dir /\ has_suffix suffix name = true.
Proof. unfold glob. rewrite list_elem_of_filter. tauto. Qed.

(** X14. The images of a run are exactly the entries of the directory whose
    name ends in [.jpg], [.png] or [.jpeg], and when the directory lists each
    entry once no image is taken twice: the three globs do not overlap. *)
Theorem found_images_exact (image_dir : list string) :
  NoDup image_dir ->
  NoDup (found_images image_dir) /\
  forall name : string,
    name ∈ found_images image_dir <-> name ∈ image_dir /\ image_name name.
Proof.
  intros Hnd. unfold found_images, image_name. split.
  - rewrite !sorted_perm. unfold glob.
    apply NoDup_app. split; [by apply NoDup_filter |].
    split; [| apply NoDup_app; split; [by apply NoDup_filter |];
               split; [| by apply NoDup_filter]].
    + intros name [Hjpg _]%list_elem_of_filter
        [[Hpng _]%list_elem_of_filter | [Hjpeg _]%list_elem_of_filter]%elem_of_app.
      * destruct (suffixes_exclusive name) as (H & _).
        specialize (H Hjpg). simpl in Hpng. congruence.
      * destruct (suffixes_exclusive name) as (_ & H & _).
        specialize (H Hjpg). simpl in Hjpeg. congruence.
    + intros name [Hpng _]%list_elem_of_filter [Hjpeg _]%list_elem_of_filter.
      destruct (suffixes_exclusive name) as (_ & _ & H).
      specialize (H Hpng). simpl in Hjpeg. congruence.
  - intros name. rewrite !elem_of_app, !sorted_perm, !elem_of_glob. tauto.
Qed.

Lemma found_images_exact_witness :
  NoDup (found_images ["b.png"; "notes.txt"; "a.jpg"; "c.jpeg"]) /\
  forall name : string,
    name ∈ found_images ["b.png"; "notes.txt"; "a.jpg"; "c.jpeg"] <->
    name ∈ ["b.png"; "notes.txt"; "a.jpg"; "c.jpeg"] /\ image_name name.
Proof.
  apply (found_images_exact ["b.png"; "notes.txt"; "a.jpg"; "c.jpeg"]).
  apply (bool_decide_unpack _). by vm_compute.
Defined.

Example found_images_order :
  found_images ["b.png"; "z.jpg"; "notes.txt"; "a.jpg"; "c.jpeg"]
  = ["a.jpg"; "z.jpg"; "b.png"; "c.jpeg"]%list.
Proof. reflexivity. Qed.

(** * Labels and boxes *)

Lemma Qc_of_Z_nonzero (n : Z) : n <> 0%Z -> Qc_of_Z n <> 0.
Proof.
  intros Hn E. apply Hn. apply Z2Qc_inj. by rewrite Z2Qc_inj_0.
Qed.

Lemma Qc_two_nonzero : (2 : Qc) <> 0.
Proof. apply (bool_decide_unpack _). by vm_compute. Qed.

(** An entry that [label_of_box] returns converts back to the box. *)
Lemma box_of_label_of_box (width height : Z) (box : BoundingBox)
    (entry : Z * Qc * Qc * Qc * Qc) :
  confidence box = None ->
  label_of_box width height box = Some entry ->
  box_of_label width height entry = box.
Proof.
  intros Hc. unfold label_of_box.
  case_bool_decide as Hw; [done |]. case_bool_decide as Hh; [done |].
  intros [= <-].
  pose proof (Qc_of_Z_nonzero _ Hw). pose proof (Qc_of_Z_nonzero _ Hh).
  pose proof Qc_two_nonzero.
  destruct box as [c a1 b1 a2 b2 cf]. simpl in *. subst cf.
  f_equal; field; done.
Qed.

Lemma label_of_box_defined (width height : Z) (box : BoundingBox) :
  width <> 0%Z -> height <> 0%Z ->
  is_Some (label_of_box width height box).
Proof.
  intros Hw Hh. unfold label_of_box.
  by rewrite !bool_decide_eq_false_2 by done.
Qed.

(** X15. Saving a box as a label entry and loading the entry gives the box
    back, for every image size without a zero side and every box without a
    confidence (as all boxes of the editor are): class and the four
    coordinates survive the normalization exactly. *)
Theorem save_load_round_trip (width height : Z) (box : BoundingBox) :
  width <> 0%Z -> height <> 0%Z -> confidence box = None ->
  box_of_label width height <$> label_of_box width height box = Some box.
Proof.
  intros Hw Hh Hc. unfold label_of_box.
  rewrite !bool_decide_eq_false_2 by done. simpl. f_equal.
  assert (HW : Qc_of_Z width <> 0) by (by apply Qc_of_Z_nonzero).
  assert (HH : Qc_of_Z height <> 0) by (by apply Qc_of_Z_nonzero).
  pose proof Qc_two_nonzero as H2.
  destruct box as [c a1 b1 a2 b2 cf]. simpl in *. subst cf.
  f_equal; field; done.
Qed.

Lemma save_load_round_trip_witness :
  box_of_label 640 480 <$> label_of_box 640 480 (box_at 2 10 10 50 40)
  = Some (box_at 2 10 10 50 40).
Proof. by apply save_load_round_trip. Defined.

(** X16. Loading a label entry as a box and saving the box gives the entry
    back, for every image size without a zero side. *)
Theorem load_save_round_trip (width height : Z)
    (entry : Z * Qc * Qc * Qc * Qc) :
  width <> 0%Z -> height <> 0%Z ->
  label_of_box width height (box_of_label width height entry) = Some entry.
Proof.
  intros Hw Hh. unfold label_of_box.
  rewrite !bool_decide_eq_false_2 by done.
  pose proof (Qc_of_Z_nonzero _ Hw). pose proof (Qc_of_Z_nonzero _ Hh).
  pose proof Qc_two_nonzero.
  destruct entry as [[[[c xc] yc] w] h]. simpl.
  repeat f_equal; field; done.
Qed.

Lemma load_save_round_trip_witness :
  label_of_box 640 480
    (box_of_label 640 480 (1%Z, Q2Qc 0.5, Q2Qc 0.5, Q2Qc 0.25, Q2Qc 0.1))
  = Some (1%Z, Q2Qc 0.5, Q2Qc 0.5, Q2Qc 0.25, Q2Qc 0.1).
Proof. by apply load_save_round_trip. Defined.

(** X17. A detection converts to the label entry that the editor writes for
    the box with the same class and corners; hence a label written by the
    batch worker loads in the editor as the box the model returned. *)
Theorem detection_label_is_editor_label (det : Detection.DetectionResult)
    (width height : Z) :
  width <> 0%Z -> height <> 0%Z ->
  let '(a1, b1, a2, b2) := Detection.bbox det in
  let box :=
    {| class_id := Detection.class_id det; x1 := a1; y1 := b1;
       x2 := a2; y2 := b2; confidence := None |} in
  Detection.to_yolo_format det (width, height)
  = label_of_box width height box /\
  box_of_label width height
    <$> Detection.to_yolo_format det (width, height) = Some box.
Proof.
  intros Hw Hh. destruct det as [c cf [[[a1 b1] a2] b2]].
  cbn [Detection.bbox Detection.class_id].
  assert (Heq : Detection.to_yolo_format
                  {| Detection.class_id := c; Detection.confidence := cf;
                     Detection.bbox := (a1, b1, a2, b2) |} (width, height)
                = label_of_box width height
                    {| class_id := c; x1 := a1; y1 := b1; x2 := a2;
                       y2 := b2; confidence := None |}) by done.
  split; [done |]. rewrite Heq.
  destruct (label_of_box_defined width height
              {| class_id := c; x1 := a1; y1 := b1; x2 := a2; y2 := b2;
                 confidence := None |} Hw Hh) as [entry He].
  rewrite He. simpl. f_equal. by apply box_of_label_of_box.
Qed.

Lemma detection_label_is_editor_label_witness :
  let box := box_at 3 10 10 50 40 in
  Detection.to_yolo_format
    {| Detection.class_id := 3; Detection.confidence := Q2Qc 0.9;
       Detection.bbox := (Qc_of_Z 10, Qc_of_Z 10, Qc_of_Z 50, Qc_of_Z 40) |}
    (640%Z, 480%Z)
  = label_of_box 640 480 box /\
  box_of_label 640 480
    <$> Detection.to_yolo_format
          {| Detection.class_id := 3; Detection.confidence := Q2Qc 0.9;
             Detection.bbox := (Qc_of_Z 10, Qc_of_Z 10, Qc_of_Z 50, Qc_of_Z 40) |}
          (640%Z, 480%Z)
  = Some box.
Proof.
  apply (detection_label_is_editor_label
           {| Detection.class_id := 3; Detection.confidence := Q2Qc 0.9;
              Detection.bbox :=
                (Qc_of_Z 10, Qc_of_Z 10, Qc_of_Z 50, Qc_of_Z 40) |}
           640 480); done.
Defined.

Lemma Qchalf_sum_bounds (a b lo hi : Qc) :
  lo <= a -> a <= hi -> lo <= b -> b <= hi ->
  lo <= (a + b) / 2 <= hi.
Proof.
  unfold Qcle, Qcdiv, Qcmult, Qcplus, Qcinv. simpl.
  rewrite !Qred_correct. intros H1 H2 H3 H4.
  change (/ (1 + 1))%Q with (1 # 2)%Q. lra.
Qed.

Lemma Qcdiv_unit_interval (a w : Qc) :
  0 < w -> 0 <= a -> a <= w -> 0 <= a / w <= 1.
Proof.
  intros Hw Ha Haw.
  assert (Hne : w <> 0) by (intros ->; by apply Qclt_not_eq in Hw).
  split.
  - apply (Qcmult_le_mono_pos_r _ _ w Hw).
    rewrite Qcmult_0_l. by replace (a / w * w) with a by (field; done).
  - apply (Qcmult_le_mono_pos_r _ _ w Hw).
    rewrite Qcmult_1_l. by replace (a / w * w) with a by (field; done).
Qed.

Lemma Qcminus_bounds (a b hi : Qc) :
  0 <= a -> a <= b -> b <= hi -> 0 <= b - a <= hi.
Proof.
  unfold Qcle, Qcminus, Qcplus, Qcopp. simpl.
  rewrite !Qred_correct. intros H1 H2 H3. lra.
Qed.

(** X18. For a detection whose box lies inside the image,
    [0 <= x1 <= x2 <= width] and [0 <= y1 <= y2 <= height], the four
    numbers of its label entry lie in [[0, 1]].  (Nothing is clamped: the
    bound rests on the box lying inside the image.) *)
Theorem to_yolo_format_in_unit_interval (det : Detection.DetectionResult)
    (width height : Z) (a1 b1 a2 b2 : Qc) :
  Detection.bbox det = (a1, b1, a2, b2) ->
  (0 < width)%Z -> (0 < height)%Z ->
  0 <= a1 -> a1 <= a2 -> a2 <= Qc_of_Z width ->
  0 <= b1 -> b1 <= b2 -> b2 <= Qc_of_Z height ->
  exists xc yc w h : Qc,
    Detection.to_yolo_format det (width, height)
    = Some (Detection.class_id det, xc, yc, w, h) /\
    0 <= xc <= 1 /\ 0 <= yc <= 1 /\ 0 <= w <= 1 /\ 0 <= h <= 1.
Proof.
  intros Hbox Hw Hh Ha1 Ha12 Ha2 Hb1 Hb12 Hb2.
  unfold Detection.to_yolo_format. rewrite Hbox.
  rewrite !bool_decide_eq_false_2 by lia.
  assert (HW : 0 < Qc_of_Z width)
    by (rewrite <- Z2Qc_inj_0; by apply (proj1 (Z2Qc_inj_lt 0 width))).
  assert (HH : 0 < Qc_of_Z height)
    by (rewrite <- Z2Qc_inj_0; by apply (proj1 (Z2Qc_inj_lt 0 height))).
  assert (Ha2' : 0 <= a2) by (by apply (Qcle_trans _ a1)).
  assert (Hb2' : 0 <= b2) by (by apply (Qcle_trans _ b1)).
  assert (Ha1' : a1 <= Qc_of_Z width) by (by apply (Qcle_trans _ a2)).
  assert (Hb1' : b1 <= Qc_of_Z height) by (by apply (Qcle_trans _ b2)).
  do 4 eexists. split; [reflexivity |].
  destruct (Qchalf_sum_bounds a1 a2 0 (Qc_of_Z width)) as [Hx1 Hx2];
    [done .. |].
  destruct (Qchalf_sum_bounds b1 b2 0 (Qc_of_Z height)) as [Hy1 Hy2];
    [done .. |].
  destruct (Qcminus_bounds a1 a2 (Qc_of_Z width)) as [Hw1 Hw2]; [done .. |].
  destruct (Qcminus_bounds b1 b2 (Qc_of_Z height)) as [Hh1 Hh2]; [done .. |].
  split; [| split; [| split]]; by apply Qcdiv_unit_interval.
Qed.

Lemma to_yolo_format_in_unit_interval_witness :
  exists xc yc w h : Qc,
    Detection.to_yolo_format
      {| Detection.class_id := 3; Detection.confidence := Q2Qc 0.9;
         Detection.bbox := (Qc_of_Z 10, Qc_of_Z 10, Qc_of_Z 50, Qc_of_Z 40) |}
      (640%Z, 480%Z)
    = Some (3%Z, xc, yc, w, h) /\
    0 <= xc <= 1 /\ 0 <= yc <= 1 /\ 0 <= w <= 1 /\ 0 <= h <= 1.
Proof.
  apply (to_yolo_format_in_unit_interval
           {| Detection.class_id := 3; Detection.confidence := Q2Qc 0.9;
              Detection.bbox :=
                (Qc_of_Z 10, Qc_of_Z 10, Qc_of_Z 50, Qc_of_Z 40) |}
           640 480 (Qc_of_Z 10) (Qc_of_Z 10) (Qc_of_Z 50) (Qc_of_Z 40));
    done.
Defined.

(** A box that reaches past the right edge of the image gives a width
    fraction above 1. *)
Example to_yolo_format_not_clamped :
  Detection.to_yolo_format
    {| Detection.class_id := 0; Detection.confidence := Q2Qc 0.9;
       Detection.bbox := (Qc_of_Z 0, Qc_of_Z 0, Qc_of_Z 200, Qc_of_Z 50) |}
    (100%Z, 100%Z)
  = Some (0%Z, Qc_of_Z 1, Q2Qc 0.25, Qc_of_Z 2, Q2Qc 0.5).
Proof. by_evaluation. Qed.

Example to_yolo_format_zero_width :
  Detection.to_yolo_format
    {| Detection.class_id := 0; Detection.confidence := Q2Qc 0.9;
       Detection.bbox := (Qc_of_Z 0, Qc_of_Z 0, Qc_of_Z 200, Qc_of_Z 50) |}
    (0%Z, 100%Z)
  = None.
Proof. reflexivity. Qed.


(** * The editor around the canvas *)

(** ** Navigation *)

Lemma mark_dirty_position (h : EditMode) : same_position h (_mark_dirty h).
Proof. unfold _mark_dirty. by destruct (current_image h). Qed.

Lemma on_boxes_changed_position (h : EditMode) :
  same_position h (_on_boxes_changed h).
Proof.
  unfold _on_boxes_changed, _refresh_box_list, _mark_dirty.
  destruct (current_image h); simpl; by case_match.
Qed.

Lemma save_in_memory_position (h : EditMode) :
  same_position h (_save_current_in_memory h).
Proof. unfold _save_current_in_memory. by destruct (current_image h). Qed.

Lemma load_annotation_for_position (h : EditMode) (file : LabelFile) :
  same_position h (_load_annotation_for h file).
Proof.
  unfold _load_annotation_for. destruct file as [[[w ht] entries] |]; [| done].
  simpl. by destruct (new_BoundingBoxes _ _).
Qed.

Lemma same_position_trans (h1 h2 h3 : EditMode) :
  same_position h1 h2 -> same_position h2 h3 -> same_position h1 h3.
Proof. unfold same_position. intros [-> ->] [-> ->]. done. Qed.

Lemma load_current_position (h : EditMode) (file : LabelFile) :
  same_position h (_load_current h file).
Proof.
  unfold _load_current. destruct (current_image h) as [img |]; [| done].
  set (h1 := match annotations h !! img with Some _ => _ | None => _ end).
  assert (H1 : same_position h h1).
  { unfold h1. destruct (annotations h !! img); [done |]. cbn zeta.
    apply (same_position_trans _ (_load_annotation_for h file));
      [apply load_annotation_for_position | done]. }
  cbn zeta.
  set (h2 := match dirty h1 !! img with Some _ => _ | None => _ end).
  assert (H2 : same_position h1 h2) by (unfold h2; by case_match).
  set (h3 := with_canvas _ h2).
  apply (same_position_trans _ h1); [done |].
  apply (same_position_trans _ h2); [done |].
  apply (same_position_trans _ h3); [done |].
  apply (same_position_trans _ (_on_boxes_changed h3)); [| done].
  apply on_boxes_changed_position.
Qed.

Lemma change_selected_class_position (h : EditMode) (v : Z) :
  same_position h (_change_selected_class h v).
Proof.
  unfold _change_selected_class. destruct (_selected_box _); [| done].
  apply (on_boxes_changed_position (with_canvas _ h)).
Qed.

Lemma class_spin_valueChanged_position (h : EditMode) (v : Z) :
  same_position h (class_spin_valueChanged h v).
Proof.
  unfold class_spin_valueChanged.
  apply (change_selected_class_position (with_canvas _ (with_class_spin v h))).
Qed.

Lemma box_list_selected_position (h : EditMode) (idx : Z) :
  same_position h (_box_list_selected h idx).
Proof.
  unfold _box_list_selected. case_bool_decide; [| done].
  destruct (_ !! _); [| done]. unfold class_spin_setValue.
  case_bool_decide; [done |].
  apply (class_spin_valueChanged_position (with_canvas _ h)).
Qed.

Lemma index_ok_same_position (h h' : EditMode) :
  same_position h h' -> index_ok h -> index_ok h'.
Proof. unfold index_ok. by intros [-> ->]. Qed.

Lemma load_current_index_ok (h : EditMode) (file : LabelFile) :
  index_ok h -> index_ok (_load_current h file).
Proof. apply index_ok_same_position. apply load_current_position. Qed.

Lemma perform_index_ok (h h' : EditMode) (a : Action) :
  index_ok h -> perform h a = Some h' -> index_ok h'.
Proof.
  intros Hok. destruct a; simpl; intros H.
  - unfold on_canvas in H. destruct (dispatch _ _) as [c |]; [| done].
    simpl in H. injection H as <-.
    case_bool_decide; [| done].
    apply (index_ok_same_position (with_canvas c h));
      [apply on_boxes_changed_position | done].
  - by injection H as <-.
  - injection H as <-.
    apply (index_ok_same_position h);
      [apply class_spin_valueChanged_position | done].
  - injection H as <-.
    apply (index_ok_same_position h);
      [apply box_list_selected_position | done].
  - injection H as <-. unfold load_images. apply load_current_index_ok.
    unfold index_ok. simpl. destruct (found_images listing); simpl; [by left |].
    right. lia.
  - injection H as <-. unfold next_image.
    case_bool_decide; [done |].
    destruct (save_in_memory_position h) as [Hi Hc].
    case_bool_decide as Hlt.
    + apply load_current_index_ok. unfold index_ok. simpl. right.
      rewrite Hi, Hc in *. lia.
    + by apply (index_ok_same_position h).
  - injection H as <-. unfold prev_image.
    case_bool_decide; [done |].
    destruct (save_in_memory_position h) as [Hi Hc].
    case_bool_decide as Hlt.
    + apply load_current_index_ok. unfold index_ok. simpl. right.
      rewrite Hi, Hc in *. destruct Hok as [[? ?] | ?]; lia.
    + by apply (index_ok_same_position h).
  - injection H as <-. unfold go_to_image.
    case_bool_decide; [done |]. case_bool_decide; [| done].
    destruct (save_in_memory_position h) as [Hi Hc].
    apply load_current_index_ok. unfold index_ok. simpl. right.
    rewrite Hi. lia.
  - unfold save_current_annotation in H.
    destruct (current_image h); simpl in H; [| by injection H as <-].
    destruct (saved_entries _ _); simpl in H; [| done].
    by injection H as <-.
  - injection H as <-. unfold delete_current_image.
    destruct (current_image h) as [img |] eqn:Himg; [| done].
    destruct confirmed; simpl; [| done].
    unfold current_image in Himg. case_bool_decide as Hr; [| done].
    destruct (delete (Z.to_nat (current_index h)) (images h)) as [| i l] eqn:Hd.
    + by left.
    + apply load_current_index_ok.
      assert (Hlen : length (images h) = S (length (i :: l))).
      { rewrite <- Hd, length_delete; [| by rewrite Himg]. lia. }
      unfold index_ok. right. case_bool_decide; simpl in *; lia.
Qed.

(** X19. Whatever the user does in the editor, the index of the displayed
    image is either -1 with an empty list of images, or the index of an
    image of the list: navigation stops at both ends, a jump outside the
    list is ignored, and deleting the last image of the list steps back. *)
Theorem index_always_valid (h h' : EditMode) (acts : list Action) :
  index_ok h -> perform_all h acts = Some h' -> index_ok h'.
Proof.
  revert h. induction acts as [| a acts IH]; simpl; intros h Hok H.
  - by injection H as <-.
  - destruct (perform h a) as [h1 |] eqn:Ha; [| done].
    apply (IH h1); [| done]. by eapply perform_index_ok.
Qed.

(** ** The annotations kept in memory *)

Lemma on_boxes_changed_current (h : EditMode) (img : string) :
  current_image h = Some img ->
  _on_boxes_changed h =
    with_dirty (<[img := true]> (<[img := true]> (dirty h)))
      (with_annotations (<[img := _boxes (canvas h)]> (annotations h)) h).
Proof.
  intros Himg. unfold _on_boxes_changed, _refresh_box_list, _mark_dirty.
  rewrite Himg. cbn zeta.
  change (current_image (with_dirty _ (with_annotations _ h)))
    with (current_image h).
  by rewrite Himg.
Qed.

Lemma new_BoundingBoxes_spec (bs : list BoundingBox) (c : CanvasWidget) :
  let rs := fst (new_BoundingBoxes bs c) in
  let c' := snd (new_BoundingBoxes bs c) in
  rs = seq (next_ref c) (length bs) /\
  heap c' <$> rs = bs /\
  next_ref c' = (next_ref c + length bs)%nat /\
  (forall r : Ref, (r < next_ref c)%nat -> heap c' r = heap c r) /\
  _boxes c' = _boxes c /\ _selected_box c' = _selected_box c /\
  _scale c' = _scale c /\ _mode c' = _mode c /\
  boxes_changed c' = boxes_changed c.
Proof.
  revert c. induction bs as [| b bs IH]; intros c; simpl.
  - repeat split; try done; lia.
  - set (c1 := with_next_ref _ _).
    specialize (IH c1). destruct (new_BoundingBoxes bs c1) as [rs c2].
    simpl in *.
    destruct IH as (Hrs & Hmap & Hnext & Hold & Hb & Hs & Hsc & Hm & He).
    repeat split; try done.
    + by rewrite Hrs.
    + f_equal; [| exact Hmap]. rewrite Hold by (simpl; lia).
      apply heap_update_same.
    + lia.
    + intros r Hr. rewrite Hold by (simpl; lia). apply heap_update_other. lia.
Qed.

Lemma load_annotation_for_spec (h : EditMode) (file : LabelFile) :
  let h' := _load_annotation_for h file in
  annotation h' = seq (next_ref (canvas h)) (length (boxes_of_file file)) /\
  heap (canvas h') <$> annotation h' = boxes_of_file file /\
  next_ref (canvas h')
  = (next_ref (canvas h) + length (boxes_of_file file))%nat /\
  (forall r : Ref,
     (r < next_ref (canvas h))%nat ->
     heap (canvas h') r = heap (canvas h) r) /\
  annotations h' = annotations h /\ dirty h' = dirty h /\
  class_spin h' = class_spin h.
Proof.
  unfold _load_annotation_for, boxes_of_file.
  destruct file as [[[w ht] entries] |]; simpl.
  - pose proof (new_BoundingBoxes_spec (box_of_label w ht <$> entries)
                  (canvas h)) as Hspec.
    destruct (new_BoundingBoxes _ _) as [rs c']. simpl in *.
    destruct Hspec as (Hrs & Hmap & Hnext & Hold & _).
    by repeat split.
  - repeat split; try done; lia.
Qed.

(** What [_load_current] leaves behind when an image is displayed. *)
Lemma load_current_spec (h : EditMode) (file : LabelFile) (img : string) :
  current_image h = Some img ->
  let h' := _load_current h file in
  let c' := canvas h' in
  _boxes c' = match annotations h !! img with
              | Some ann => ann
              | None => seq (next_ref (canvas h)) (length (boxes_of_file file))
              end /\
  (annotations h !! img = None -> heap c' <$> _boxes c' = boxes_of_file file) /\
  (is_Some (annotations h !! img) -> next_ref c' = next_ref (canvas h)) /\
  (forall r : Ref,
     (r < next_ref (canvas h))%nat -> heap c' r = heap (canvas h) r) /\
  (next_ref (canvas h) <= next_ref c')%nat /\
  annotations h' = <[img := _boxes c']> (annotations h) /\
  dirty h' !! img = Some true /\
  (forall k : string, k <> img -> dirty h' !! k = dirty h !! k) /\
  _mode c' = NAVIGATE /\ _scale c' = Q2Qc 1.0 /\
  _offset c' = {| pt_x := 0; pt_y := 0 |} /\
  _selected_box c' = None /\ _pixmap c' = Some img /\
  new_box_class c' = class_spin h /\ class_spin h' = class_spin h.
Proof.
  intros Himg. unfold _load_current. rewrite Himg.
  destruct (annotations h !! img) as [ann |] eqn:Hann.
  - cbn zeta.
    set (h2 := match dirty (with_annotation ann h) !! img with
               | Some _ => _ | None => _ end).
    assert (H2 : canvas h2 = canvas h /\ annotations h2 = annotations h /\
                 annotation h2 = ann /\ class_spin h2 = class_spin h /\
                 current_image h2 = Some img /\
                 (forall k : string, k <> img -> dirty h2 !! k = dirty h !! k)).
    { unfold h2. destruct (dirty (with_annotation ann h) !! img);
        repeat split; try done.
      intros k Hk. simpl. by rewrite lookup_insert_ne. }
    destruct H2 as (Hc2 & Ha2 & Han2 & Hs2 & Hi2 & Hd2).
    set (h3 := with_canvas _ h2).
    rewrite (on_boxes_changed_current h3 img) by done.
    simpl. rewrite Hc2, Ha2, Han2, Hs2.
    repeat split; try done.
    + by rewrite lookup_insert_eq.
    + intros k Hk. rewrite !lookup_insert_ne by done. by apply Hd2.
  - cbn zeta.
    destruct (load_annotation_for_spec h file)
      as (Hrs & Hmap & Hnext & Hold & Ha1 & Hd1 & Hs1).
    set (h0 := _load_annotation_for h file) in *.
    set (h1 := with_annotations _ h0).
    assert (Hi1 : current_image h1 = Some img).
    { destruct (load_annotation_for_position h file) as [Himgs Hidx].
      unfold current_image in *. simpl. fold h0 in Himgs, Hidx.
      by rewrite Himgs, Hidx. }
    set (h2 := match dirty h1 !! img with Some _ => _ | None => _ end).
    assert (H2 : canvas h2 = canvas h0 /\ annotations h2 = annotations h1 /\
                 annotation h2 = annotation h0 /\
                 class_spin h2 = class_spin h0 /\
                 current_image h2 = Some img /\
                 (forall k : string, k <> img -> dirty h2 !! k = dirty h !! k)).
    { unfold h2. destruct (dirty h1 !! img); repeat split; try done.
      - intros k Hk. simpl. by rewrite Hd1.
      - intros k Hk. simpl. by rewrite lookup_insert_ne, Hd1. }
    destruct H2 as (Hc2 & Ha2 & Han2 & Hs2 & Hi2 & Hd2).
    set (h3 := with_canvas _ h2).
    rewrite (on_boxes_changed_current h3 img) by done.
    simpl. rewrite Hc2, Ha2, Han2, Hs2. simpl.
    rewrite Hrs, Ha1, Hs1, Hnext.
    repeat split; try done.
    + intros _. by rewrite <- Hrs.
    + lia.
    + by rewrite insert_insert_eq.
    + by rewrite lookup_insert_eq.
    + intros k Hk. rewrite !lookup_insert_ne by done. by apply Hd2.
Qed.

Lemma current_image_at (h : EditMode) (i : nat) (img : string) :
  current_index h = Z.of_nat i -> images h !! i = Some img ->
  current_image h = Some img.
Proof.
  intros Hi Himg. unfold current_image. rewrite Hi, Nat2Z.id.
  rewrite bool_decide_eq_true_2; [done |].
  apply lookup_lt_Some in Himg. lia.
Qed.

Lemma save_in_memory_current (h : EditMode) (img : string) :
  current_image h = Some img ->
  _save_current_in_memory h =
    with_dirty (<[img := true]> (dirty h))
      (with_annotations (<[img := _boxes (canvas h)]> (annotations h)) h).
Proof. intros Himg. unfold _save_current_in_memory. by rewrite Himg. Qed.

(** X20. Opening a folder displays its first image, in the order of the
    three sorted globs; when that image has no annotation in memory, the
    canvas shows exactly the boxes of its label file, in the order of the
    file, each converted from its normalized entry, and no box when the file
    does not exist.  The view is reset and the canvas is in NAVIGATE
    mode. *)
Theorem open_folder_shows_label_file (h : EditMode) (listing : list string)
    (file : LabelFile) (img : string) (rest : list string) :
  found_images listing = img :: rest ->
  annotations h !! img = None ->
  let h' := load_images h listing file in
  let c' := canvas h' in
  images h' = img :: rest /\ current_index h' = 0%Z /\
  heap c' <$> _boxes c' = boxes_of_file file /\
  annotations h' !! img = Some (_boxes c') /\
  _pixmap c' = Some img /\ _mode c' = NAVIGATE /\
  _scale c' = Q2Qc 1.0 /\ _offset c' = {| pt_x := 0; pt_y := 0 |} /\
  _selected_box c' = None.
Proof.
  intros Hfound Hann. unfold load_images.
  set (h1 := with_current_index _ _).
  assert (Himgs : images h1 = img :: rest) by (by simpl).
  assert (Hidx : current_index h1 = 0%Z) by (simpl; by rewrite Hfound).
  assert (Hcur : current_image h1 = Some img)
    by (apply (current_image_at h1 0); [done | by rewrite Himgs]).
  destruct (load_current_position h1 file) as [Hp1 Hp2].
  destruct (load_current_spec h1 file img Hcur)
    as (_ & Hshow & _ & _ & _ & Hanns & _ & _ & Hm & Hs & Ho & Hsel & Hpix & _).
  simpl. rewrite Hp1, Hp2, Hanns, lookup_insert_eq.
  repeat split; try done. by apply Hshow.
Qed.

Lemma open_folder_shows_label_file_witness :
  let h' := load_images EditMode_init small_listing one_label_file in
  let c' := canvas h' in
  images h' = "a.jpg" :: ("b.png" :: nil) /\ current_index h' = 0%Z /\
  heap c' <$> _boxes c' = boxes_of_file one_label_file /\
  annotations h' !! "a.jpg" = Some (_boxes c') /\
  _pixmap c' = Some "a.jpg" /\ _mode c' = NAVIGATE /\
  _scale c' = Q2Qc 1.0 /\ _offset c' = {| pt_x := 0; pt_y := 0 |} /\
  _selected_box c' = None.
Proof.
  apply (open_folder_shows_label_file EditMode_init small_listing
           one_label_file "a.jpg" ("b.png" :: nil)).
  - reflexivity.
  - reflexivity.
Defined.

(** X21. Moving to the next image, when there is one: the boxes of the
    canvas are first kept in memory under the image that is left, then the
    next image is displayed with the view reset, no selection and the canvas
    in NAVIGATE mode; its annotation in memory is the store of the canvas,
    and it is flagged dirty by the mere display. *)
Theorem next_image_moves (h : EditMode) (file : LabelFile) (i : nat)
    (img img' : string) :
  current_index h = Z.of_nat i ->
  images h !! i = Some img -> images h !! S i = Some img' ->
  let h' := next_image h file in
  let c' := canvas h' in
  current_index h' = Z.of_nat (S i) /\ images h' = images h /\
  _pixmap c' = Some img' /\ _mode c' = NAVIGATE /\
  _scale c' = Q2Qc 1.0 /\ _offset c' = {| pt_x := 0; pt_y := 0 |} /\
  _selected_box c' = None /\ new_box_class c' = class_spin h /\
  annotations h' !! img' = Some (_boxes c') /\
  dirty h' !! img' = Some true /\
  (img <> img' ->
   annotations h' !! img = Some (_boxes (canvas h)) /\
   dirty h' !! img = Some true).
Proof.
  intros Hi Himg Himg'. unfold next_image.
  rewrite bool_decide_eq_false_2 by lia.
  pose proof (current_image_at h i img Hi Himg) as Hcur.
  rewrite (save_in_memory_current h img Hcur).
  set (h0 := with_dirty _ _).
  rewrite bool_decide_eq_true_2
    by (simpl; apply lookup_lt_Some in Himg'; lia).
  set (h1 := with_current_index _ h0).
  assert (Hcur1 : current_image h1 = Some img').
  { apply (current_image_at h1 (S i)); [simpl; lia | done]. }
  destruct (load_current_position h1 file) as [Hp1 Hp2].
  destruct (load_current_spec h1 file img' Hcur1)
    as (_ & _ & _ & _ & _ & Hanns & Hd & Hdk & _ & Hs & Ho & Hsel & Hpix
        & Hnbc & _).
  simpl. rewrite Hp1, Hp2, Hanns, lookup_insert_eq.
  repeat split; try done.
  - simpl. lia.
  - rewrite lookup_insert_ne by done. simpl. by rewrite lookup_insert_eq.
  - rewrite Hdk by done. simpl. by rewrite lookup_insert_eq.
Qed.

Lemma next_image_moves_witness :
  let h' := next_image opened_editor None in
  let c' := canvas h' in
  current_index h' = Z.of_nat 1 /\ images h' = images opened_editor /\
  _pixmap c' = Some "b.png" /\ _mode c' = NAVIGATE /\
  _scale c' = Q2Qc 1.0 /\ _offset c' = {| pt_x := 0; pt_y := 0 |} /\
  _selected_box c' = None /\ new_box_class c' = class_spin opened_editor /\
  annotations h' !! "b.png" = Some (_boxes c') /\
  dirty h' !! "b.png" = Some true /\
  ("a.jpg" <> "b.png" ->
   annotations h' !! "a.jpg" = Some (_boxes (canvas opened_editor)) /\
   dirty h' !! "a.jpg" = Some true).
Proof.
  apply (next_image_moves opened_editor None 0 "a.jpg" "b.png").
  - vm_compute. reflexivity.
  - vm_compute. reflexivity.
  - vm_compute. reflexivity.
Defined.

(** X22. Going to the next image and back brings the canvas back to the
    boxes it had: the same objects in the same order, each with the class
    and coordinates it had, whatever was loaded for the other image.  This
    includes boxes drawn in MARK mode, of which the editor was never
    notified: the store of the canvas is copied when the image is left. *)
Theorem next_prev_restores_boxes (h : EditMode) (file1 file2 : LabelFile)
    (i : nat) (img img' : string) :
  current_index h = Z.of_nat i ->
  images h !! i = Some img -> images h !! S i = Some img' ->
  (forall r : Ref,
     r ∈ _boxes (canvas h) -> (r < next_ref (canvas h))%nat) ->
  let h' := prev_image (next_image h file1) file2 in
  current_index h' = Z.of_nat i /\
  _boxes (canvas h') = _boxes (canvas h) /\
  (forall r : Ref,
     r ∈ _boxes (canvas h) -> heap (canvas h') r = heap (canvas h) r) /\
  _pixmap (canvas h') = Some img.
Proof.
  intros Hi Himg Himg' Hfresh.
  (* the way forth *)
  unfold next_image. rewrite bool_decide_eq_false_2 by lia.
  pose proof (current_image_at h i img Hi Himg) as Hcur.
  rewrite (save_in_memory_current h img Hcur).
  set (h0 := with_dirty _ _).
  rewrite bool_decide_eq_true_2
    by (simpl; apply lookup_lt_Some in Himg'; lia).
  set (h1 := with_current_index _ h0).
  assert (Hcur1 : current_image h1 = Some img')
    by (apply (current_image_at h1 (S i)); [simpl; lia | done]).
  destruct (load_current_position h1 file1) as [Hp1 Hp2].
  destruct (load_current_spec h1 file1 img' Hcur1)
    as (Hb2 & _ & _ & Hold2 & Hnext2 & Hanns2 & _).
  set (h2 := _load_current h1 file1) in *.
  set (h3 := _set_mode h2 NAVIGATE).
  (* the way back *)
  unfold prev_image.
  assert (Hidx3 : current_index h3 = Z.of_nat (S i))
    by (simpl; rewrite Hp2; simpl; lia).
  rewrite bool_decide_eq_false_2 by lia.
  assert (Hcur3 : current_image h3 = Some img').
  { apply (current_image_at h3 (S i)); [done |]. simpl. by rewrite Hp1. }
  rewrite (save_in_memory_current h3 img' Hcur3).
  set (h4 := with_dirty _ _).
  rewrite bool_decide_eq_true_2
    by (change (current_index h4) with (current_index h3); lia).
  set (h5 := with_current_index _ h4).
  assert (Hcur5 : current_image h5 = Some img).
  { apply (current_image_at h5 i);
      [change (current_index h5) with (current_index h3 - 1)%Z; lia |].
    simpl. by rewrite Hp1. }
  assert (Hann5 : annotations h5 !! img = Some (_boxes (canvas h))).
  { simpl. rewrite Hanns2. destruct (decide (img = img')) as [<- | Hne].
    - rewrite lookup_insert_eq. f_equal. rewrite Hb2. simpl.
      by rewrite lookup_insert_eq.
    - rewrite !lookup_insert_ne by done. simpl. by rewrite lookup_insert_eq. }
  destruct (load_current_position h5 file2) as [Hp5 Hp6].
  destruct (load_current_spec h5 file2 img Hcur5)
    as (Hb6 & _ & _ & Hold6 & _ & _ & _ & _ & _ & _ & _ & _ & Hpix & _).
  rewrite Hann5 in Hb6.
  simpl. rewrite Hp6, Hb6. repeat split; try done.
  - change (current_index h5) with (current_index h3 - 1)%Z. lia.
  - intros r Hr. specialize (Hfresh r Hr).
    change (heap (canvas h5)) with (heap (canvas h2)) in Hold6.
    change (next_ref (canvas h5)) with (next_ref (canvas h2)) in Hold6.
    change (canvas h1) with (canvas h) in Hold2, Hnext2.
    rewrite Hold6 by lia. by apply Hold2.
Qed.

Lemma next_prev_restores_boxes_witness :
  let h' := prev_image (next_image opened_editor None) None in
  current_index h' = Z.of_nat 0 /\
  _boxes (canvas h') = _boxes (canvas opened_editor) /\
  (forall r : Ref,
     r ∈ _boxes (canvas opened_editor) ->
     heap (canvas h') r = heap (canvas opened_editor) r) /\
  _pixmap (canvas h') = Some "a.jpg".
Proof.
  apply (next_prev_restores_boxes opened_editor None None 0 "a.jpg" "b.png").
  - vm_compute. reflexivity.
  - vm_compute. reflexivity.
  - vm_compute. reflexivity.
  - assert (_boxes (canvas opened_editor) = 0%nat :: nil) as ->
      by (vm_compute; reflexivity).
    assert (next_ref (canvas opened_editor) = 1%nat) as ->
      by (vm_compute; reflexivity).
    intros r Hr. apply list_elem_of_singleton in Hr as ->. lia.
Defined.

Example opened_editor_boxes : _boxes (canvas opened_editor) = [0%nat]%list.
Proof. vm_compute. reflexivity. Qed.

Lemma index_ok_init : index_ok EditMode_init.
Proof. by left. Qed.

Lemma index_always_valid_witness : index_ok session_end.
Proof.
  apply (index_always_valid EditMode_init session_end session).
  - apply index_ok_init.
  - vm_compute. reflexivity.
Defined.

Example session_end_images : images session_end = ["a.jpg"]%list.
Proof. vm_compute. reflexivity. Qed.

Example session_end_boxes :
  _boxes (canvas session_end) = [0%nat; 1%nat]%list.
Proof. vm_compute. reflexivity. Qed.

(** ** Classes *)

(** X23. Changing the class spin box while a box is selected sets the class
    of that box and of the boxes drawn from then on, and nothing else of the
    boxes: the coordinates of the selected box, the other boxes and the
    store stay; the annotation in memory of the displayed image becomes the
    store of the canvas and the image is flagged dirty. *)
Theorem change_class_sets_selected_box (h : EditMode) (v : Z) (sel : Ref)
    (img : string) :
  _selected_box (canvas h) = Some sel -> current_image h = Some img ->
  let h' := class_spin_valueChanged h v in
  let b := heap (canvas h) sel in
  heap (canvas h') sel = set_class_id v b /\
  (forall r : Ref, r <> sel -> heap (canvas h') r = heap (canvas h) r) /\
  _boxes (canvas h') = _boxes (canvas h) /\
  _selected_box (canvas h') = Some sel /\
  new_box_class (canvas h') = v /\ class_spin h' = v /\
  annotations h' !! img = Some (_boxes (canvas h)) /\
  dirty h' !! img = Some true.
Proof.
  intros Hsel Himg. unfold class_spin_valueChanged, _change_selected_class.
  cbn zeta. change (_selected_box (canvas (with_canvas _ _)))
    with (_selected_box (canvas h)). rewrite Hsel.
  rewrite (on_boxes_changed_current _ img) by done. simpl.
  rewrite heap_update_same, !lookup_insert_eq. repeat split; try done.
  intros r Hr. by apply heap_update_other.
Qed.

Lemma change_class_sets_selected_box_witness :
  let h' := class_spin_valueChanged selected_editor 7 in
  let b := heap (canvas selected_editor) 0%nat in
  heap (canvas h') 0%nat = set_class_id 7 b /\
  (forall r : Ref,
     r <> 0%nat -> heap (canvas h') r = heap (canvas selected_editor) r) /\
  _boxes (canvas h') = _boxes (canvas selected_editor) /\
  _selected_box (canvas h') = Some 0%nat /\
  new_box_class (canvas h') = 7%Z /\ class_spin h' = 7%Z /\
  annotations h' !! "a.jpg" = Some (_boxes (canvas selected_editor)) /\
  dirty h' !! "a.jpg" = Some true.
Proof.
  apply (change_class_sets_selected_box selected_editor 7 0%nat "a.jpg").
  - reflexivity.
  - vm_compute. reflexivity.
Defined.

(** X24. A click on a row of the box list selects the box of that row and
    sets the class spin box to the class of the box, brought into the range
    0..999 of the spin box.  If the spin box showed another value, the class
    for new boxes and the class of the clicked box itself become that value:
    a class in the range is kept, a class outside of the range is
    replaced. *)
Theorem box_list_click_selects (h : EditMode) (idx : nat) (box : Ref) :
  _boxes (canvas h) !! idx = Some box ->
  let cls := class_id (heap (canvas h) box) in
  let v := Z.max 0 (Z.min cls 999) in
  let h' := _box_list_selected h (Z.of_nat idx) in
  _selected_box (canvas h') = Some box /\ class_spin h' = v /\
  class_id (heap (canvas h') box) = (if bool_decide (v = class_spin h)
                                     then cls else v) /\
  new_box_class (canvas h') = (if bool_decide (v = class_spin h)
                               then new_box_class (canvas h) else v) /\
  ((0 <= cls <= 999)%Z -> class_id (heap (canvas h') box) = cls) /\
  _boxes (canvas h') = _boxes (canvas h).
Proof.
  intros Hbox. unfold _box_list_selected.
  rewrite bool_decide_eq_true_2
    by (apply lookup_lt_Some in Hbox; lia).
  rewrite Nat2Z.id, Hbox. unfold class_spin_setValue.
  cbn [canvas with_canvas heap with_selected_box class_spin].
  set (cls := class_id (heap (canvas h) box)).
  set (v := Z.max 0 (Z.min cls 999)).
  assert (Hin : (0 <= cls <= 999)%Z -> v = cls) by lia.
  destruct (decide (v = class_spin h)) as [Hv | Hv].
  - rewrite !bool_decide_eq_true_2 by done. by repeat split.
  - rewrite !bool_decide_eq_false_2 by done.
    unfold class_spin_valueChanged, _change_selected_class.
    cbn [canvas with_canvas with_class_spin _selected_box
         with_new_box_class with_selected_box heap].
    set (h1 := with_canvas (emit_boxes_changed _) _).
    assert (Hc : canvas (_on_boxes_changed h1) = canvas h1 /\
                 class_spin (_on_boxes_changed h1) = class_spin h1).
    { unfold _on_boxes_changed, _refresh_box_list, _mark_dirty.
      by repeat case_match. }
    destruct Hc as [-> ->]. simpl. rewrite heap_update_same. simpl.
    repeat split; try done; intros Hr; by apply Hin.
Qed.

Lemma box_list_click_selects_witness :
  let cls := class_id (heap (canvas opened_editor) 0%nat) in
  let v := Z.max 0 (Z.min cls 999) in
  let h' := _box_list_selected opened_editor (Z.of_nat 0) in
  _selected_box (canvas h') = Some 0%nat /\ class_spin h' = v /\
  class_id (heap (canvas h') 0%nat)
  = (if bool_decide (v = class_spin opened_editor) then cls else v) /\
  new_box_class (canvas h')
  = (if bool_decide (v = class_spin opened_editor)
     then new_box_class (canvas opened_editor) else v) /\
  ((0 <= cls <= 999)%Z -> class_id (heap (canvas h') 0%nat) = cls) /\
  _boxes (canvas h') = _boxes (canvas opened_editor).
Proof.
  apply (box_list_click_selects opened_editor 0 0%nat).
  vm_compute. reflexivity.
Defined.

(** A class of 1500 read from a label file becomes 999 when the box is
    clicked in the list. *)
Example click_replaces_large_class :
  let h := load_images EditMode_init small_listing large_class_file in
  class_id (heap (canvas h) 0%nat) = 1500%Z /\
  class_id (heap (canvas (_box_list_selected h 0)) 0%nat) = 999%Z.
Proof. split; vm_compute; reflexivity. Qed.

(** ** Saving *)

Lemma saved_entries_reload (hp : Ref -> BoundingBox) (width height : Z)
    (boxes : list Ref) :
  width <> 0%Z -> height <> 0%Z ->
  Forall (fun r => confidence (hp r) = None) boxes ->
  exists entries : list Label,
    mapM (fun box => label_of_box width height (hp box)) boxes = Some entries /\
    box_of_label width height <$> entries = hp <$> boxes.
Proof.
  intros Hw Hh. induction 1 as [| r boxes Hr _ (entries & Hm & Hre)].
  - by exists [].
  - destruct (label_of_box_defined width height (hp r) Hw Hh) as [e He].
    exists (e :: entries). simpl in *. rewrite He. simpl. rewrite Hm. simpl.
    split; [done |].
    f_equal; [by apply box_of_label_of_box | exact Hre].
Qed.

(** X25. Saving the displayed image, of a size without a zero side, writes
    one label entry per box of the canvas, in the order of the store, such
    that loading the entries for an image of that size gives boxes with the
    classes and coordinates of the boxes of the canvas; the image is then
    flagged clean and nothing else of the editor changes. *)
Theorem save_writes_reloadable_labels (h : EditMode) (image_size : Z * Z)
    (img : string) :
  current_image h = Some img ->
  fst image_size <> 0%Z -> snd image_size <> 0%Z ->
  Forall (fun r => confidence (heap (canvas h) r) = None) (_boxes (canvas h)) ->
  exists entries : list Label,
    save_current_annotation h image_size
    = Some (with_dirty (<[img := false]> (dirty h)) h, Some entries) /\
    length entries = length (_boxes (canvas h)) /\
    box_of_label (fst image_size) (snd image_size) <$> entries
    = heap (canvas h) <$> _boxes (canvas h).
Proof.
  intros Himg Hw Hh Hconf.
  destruct (saved_entries_reload (heap (canvas h)) (fst image_size)
              (snd image_size) (_boxes (canvas h)) Hw Hh Hconf)
    as (entries & Hm & Hre).
  exists entries. unfold save_current_annotation, saved_entries.
  rewrite Himg, Hm. simpl. repeat split; [| done].
  apply (f_equal length) in Hre. by rewrite !length_fmap in Hre.
Qed.

Lemma save_writes_reloadable_labels_witness :
  exists entries : list Label,
    save_current_annotation opened_editor (640%Z, 480%Z)
    = Some (with_dirty (<["a.jpg" := false]> (dirty opened_editor))
              opened_editor, Some entries) /\
    length entries = length (_boxes (canvas opened_editor)) /\
    box_of_label (fst (640%Z, 480%Z)) (snd (640%Z, 480%Z)) <$> entries
    = heap (canvas opened_editor) <$> _boxes (canvas opened_editor).
Proof.
  apply (save_writes_reloadable_labels opened_editor (640%Z, 480%Z) "a.jpg").
  - vm_compute. reflexivity.
  - done.
  - done.
  - assert (_boxes (canvas opened_editor) = 0%nat :: nil) as ->
      by (vm_compute; reflexivity).
    constructor; [| constructor]. vm_compute. reflexivity.
Defined.

(** ** Deleting an image *)

Lemma NoDup_delete_lookup {A} (l : list A) (i : nat) (x : A) :
  NoDup l -> l !! i = Some x -> x ∉ delete i l.
Proof.
  intros Hnd Hx. rewrite <- (take_drop_middle l i x Hx) in Hnd.
  rewrite delete_take_drop.
  apply NoDup_app in Hnd as (_ & Hdis & Hnd2).
  apply NoDup_cons in Hnd2 as [Hx2 _].
  intros [H1 | H2]%elem_of_app; [| done].
  apply (Hdis x H1). apply elem_of_cons. by left.
Qed.

(** X26. Deleting the displayed image, once confirmed and when the list
    holds each image once: the image leaves the list, the other images keep
    their order, and its annotation and dirty flag are forgotten.  If no
    image is left, the index is -1 and the canvas is emptied; otherwise the
    image displayed is the one now at the index.  Without confirmation
    nothing changes. *)
Theorem delete_image_forgets_it (h : EditMode) (file : LabelFile) (i : nat)
    (img : string) :
  current_index h = Z.of_nat i -> images h !! i = Some img ->
  NoDup (images h) ->
  let h' := delete_current_image h true file in
  images h' = delete i (images h) /\ (img ∉ images h') /\
  annotations h' !! img = None /\ dirty h' !! img = None /\
  (images h' = [] ->
   current_index h' = (-1)%Z /\ _boxes (canvas h') = [] /\
   _selected_box (canvas h') = None /\ _pixmap (canvas h') = None) /\
  (forall img' : string,
     current_image h' = Some img' -> _pixmap (canvas h') = Some img') /\
  delete_current_image h false file = h.
Proof.
  intros Hi Himg Hnd.
  pose proof (current_image_at h i img Hi Himg) as Hcur.
  pose proof (NoDup_delete_lookup (images h) i img Hnd Himg) as Hnotin.
  unfold delete_current_image. rewrite Hcur. cbn [negb]. cbn zeta.
  cbn [with_images images current_index with_dirty with_annotations].
  rewrite Hi, Nat2Z.id.
  destruct (delete i (images h)) as [| i0 l] eqn:Hd.
  - simpl. rewrite !lookup_delete_eq. by repeat split.
  - set (h2 := if bool_decide _ then _ else _).
    assert (H2 : images h2 = i0 :: l /\
                 annotations h2 = delete img (annotations h) /\
                 dirty h2 = delete img (dirty h) /\
                 exists j : nat, current_index h2 = Z.of_nat j /\
                                 (j < length (i0 :: l))%nat).
    { assert (Hlen : length (images h) = S (length (i0 :: l))).
      { rewrite <- Hd, length_delete; [| by rewrite Himg].
        apply lookup_lt_Some in Himg. lia. }
      unfold h2. case_bool_decide as Hge; simpl in *.
      - repeat split; try done. exists (length l). split; lia.
      - repeat split; try done. exists i. split; [done | lia]. }
    destruct H2 as (Him2 & Han2 & Hd2 & j & Hj & Hjlt).
    destruct (lookup_lt_is_Some_2 (i0 :: l) j Hjlt) as [img2 Himg2].
    assert (Hcur2 : current_image h2 = Some img2)
      by (apply (current_image_at h2 j); [done | by rewrite Him2]).
    assert (Hne : img2 <> img).
    { intros ->. apply Hnotin. by eapply list_elem_of_lookup_2. }
    destruct (load_current_position h2 file) as [Hp1 Hp2].
    destruct (load_current_spec h2 file img2 Hcur2)
      as (_ & _ & _ & _ & _ & Hanns & _ & Hdk & _ & _ & _ & _ & Hpix & _).
    rewrite Hp1, Him2, Hanns, Hdk, Han2, Hd2 by done.
    rewrite lookup_insert_ne, !lookup_delete_eq by done.
    repeat split; try done.
    intros img' Hcur'.
    assert (current_image (_load_current h2 file) = Some img2) as Hc.
    { unfold current_image in *. by rewrite Hp1, Hp2. }
    congruence.
Qed.

Lemma delete_image_forgets_it_witness :
  let h' := delete_current_image opened_editor true None in
  images h' = delete 0%nat (images opened_editor) /\ ("a.jpg" ∉ images h') /\
  annotations h' !! "a.jpg" = None /\ dirty h' !! "a.jpg" = None /\
  (images h' = [] ->
   current_index h' = (-1)%Z /\ _boxes (canvas h') = [] /\
   _selected_box (canvas h') = None /\ _pixmap (canvas h') = None) /\
  (forall img' : string,
     current_image h' = Some img' -> _pixmap (canvas h') = Some img') /\
  delete_current_image opened_editor false None = opened_editor.
Proof.
  apply (delete_image_forgets_it opened_editor None 0 "a.jpg").
  - vm_compute. reflexivity.
  - vm_compute. reflexivity.
  - assert (images opened_editor = "a.jpg" :: "b.png" :: nil) as ->
      by (vm_compute; reflexivity).
    apply (bool_decide_unpack _). by vm_compute.
Defined.
